(** * Gallon Logger: the inventory ledger, the mix calculator and the report

    A shallow embedding of [src/App.tsx] (with [src/types.ts]) and the
    properties of its ledger operations.

    - [JS] models the ECMAScript built-ins the program calls: the Number
      values and their arithmetic, [Number.prototype.toFixed], [parseFloat],
      Number-to-String conversion and [String.prototype.trim].
    - [Types] is [src/types.ts].
    - The rest follows [App.tsx] top to bottom: component state, the snapshot
      listener, the mix calculator, refill, application logging, the report.

    Numbers.  A JavaScript number is modelled as an exact rational or one of
    NaN, +Infinity, -Infinity.  The rounding error of binary floating point
    arithmetic is not modelled, and the two zeros are identified (the program
    never observes the sign of a zero). *)

From Stdlib Require Import ZArith QArith Qround Qabs Qpower Qreduction.
From Stdlib Require Import String Ascii List Bool Lia Lqa.
Import ListNotations.

Open Scope string_scope.

(* ================================================================== *)
(** * ECMAScript built-ins *)

Module JS.

(** ** Number values *)

Inductive number : Type :=
| NaN
| PInf
| NInf
| Fin (q : Q).

(** Finite results are kept in lowest terms, so that equal numbers are equal
    terms. *)
Definition fin (q : Q) : number := Fin (Qred q).

Definition ofZ (z : Z) : number := Fin (inject_Z z).

Definition isNaN (x : number) : bool :=
  match x with NaN => true | _ => false end.

(** The outcome of comparing two numbers; [None] when one of them is NaN
    (every relational operator is then false). *)
Definition ncompare (x y : number) : option comparison :=
  match x, y with
  | NaN, _ | _, NaN => None
  | PInf, PInf => Some Eq
  | NInf, NInf => Some Eq
  | PInf, _ => Some Gt
  | _, PInf => Some Lt
  | NInf, _ => Some Lt
  | _, NInf => Some Gt
  | Fin a, Fin b => Some (a ?= b)%Q
  end.

(** [x < y], [x <= y], [x > y] and [x >= y]. *)
Definition nlt (x y : number) : bool :=
  match ncompare x y with Some Lt => true | _ => false end.
Definition nle (x y : number) : bool :=
  match ncompare x y with Some Lt | Some Eq => true | _ => false end.
Definition ngt (x y : number) : bool := nlt y x.
Definition nge (x y : number) : bool := nle y x.

(** [Object.is] on numbers, the comparison React applies to dependencies. *)
Definition same (x y : number) : bool :=
  match x, y with
  | NaN, NaN => true
  | _, _ => match ncompare x y with Some Eq => true | _ => false end
  end.

(** Unary minus. *)
Definition nneg (x : number) : number :=
  match x with
  | NaN => NaN
  | PInf => NInf
  | NInf => PInf
  | Fin q => fin (- q)
  end.

(** [x + y]. *)
Definition nadd (x y : number) : number :=
  match x, y with
  | NaN, _ | _, NaN => NaN
  | PInf, NInf | NInf, PInf => NaN
  | PInf, _ | _, PInf => PInf
  | NInf, _ | _, NInf => NInf
  | Fin a, Fin b => fin (a + b)
  end.

(** [x - y]. *)
Definition nsub (x y : number) : number := nadd x (nneg y).

(** The sign of a rational: [Lt] negative, [Eq] zero, [Gt] positive. *)
Definition qsign (q : Q) : comparison := (q ?= 0)%Q.

(** An infinity of the given sign; the product or quotient with a zero is
    NaN. *)
Definition signedInf (s : comparison) : number :=
  match s with Lt => NInf | Eq => NaN | Gt => PInf end.

Definition flipSign (s : comparison) : comparison :=
  match s with Lt => Gt | Eq => Eq | Gt => Lt end.

(** [x * y]. *)
Definition nmul (x y : number) : number :=
  match x, y with
  | NaN, _ | _, NaN => NaN
  | Fin a, Fin b => fin (a * b)
  | PInf, Fin b | Fin b, PInf => signedInf (qsign b)
  | NInf, Fin b | Fin b, NInf => signedInf (flipSign (qsign b))
  | PInf, PInf | NInf, NInf => PInf
  | PInf, NInf | NInf, PInf => NInf
  end.

(** [x / y].  A non-zero finite number divided by zero is an infinity with
    the sign of the dividend (zeros are taken as positive). *)
Definition ndiv (x y : number) : number :=
  match x, y with
  | NaN, _ | _, NaN => NaN
  | Fin a, Fin b =>
      if Qeq_bool b 0 then signedInf (qsign a) else fin (a / b)
  | Fin _, PInf | Fin _, NInf => Fin 0
  | PInf, Fin b => if Qle_bool 0 b then PInf else NInf
  | NInf, Fin b => if Qle_bool 0 b then NInf else PInf
  | _, _ => NaN
  end.

(** [Math.min(x, y)] and [Math.abs(x)]. *)
Definition min (x y : number) : number :=
  match ncompare x y with
  | None => NaN
  | Some Gt => y
  | Some _ => x
  end.

Definition abs (x : number) : number :=
  match x with
  | NaN => NaN
  | PInf | NInf => PInf
  | Fin q => fin (Qabs q)
  end.

(** Truthiness of a number: false for NaN and for zero. *)
Definition truthy (x : number) : bool :=
  match x with
  | NaN => false
  | Fin q => negb (Qeq_bool q 0)
  | _ => true
  end.

(** [x || y] on numbers. *)
Definition orElse (x y : number) : number := if truthy x then x else y.

(** ** Strings *)

Definition LF : string := String "010"%char "".

(** [!s] is true exactly for the empty string. *)
Definition isEmpty (s : string) : bool :=
  match s with EmptyString => true | _ => false end.

(** White space and line terminators, restricted to the single-byte ones:
    tab, line feed, vertical tab, form feed, carriage return and space. *)
Definition isWhiteSpace (c : ascii) : bool :=
  let n := nat_of_ascii c in
  ((9 <=? n) && (n <=? 13) || (n =? 32))%nat.

Fixpoint trimStart (s : string) : string :=
  match s with
  | String c r => if isWhiteSpace c then trimStart r else s
  | EmptyString => EmptyString
  end.

(** [trimEnd] drops the longest suffix of white space. *)
Fixpoint trimEnd (s : string) : string :=
  match s with
  | String c r =>
      match trimEnd r with
      | EmptyString => if isWhiteSpace c then EmptyString else String c EmptyString
      | r' => String c r'
      end
  | EmptyString => EmptyString
  end.

Definition trim (s : string) : string := trimEnd (trimStart s).

(** ** Decimal digits *)

Definition digitChar (d : Z) : ascii := ascii_of_nat (48 + Z.to_nat d).

Definition isDigit (c : ascii) : bool :=
  let n := nat_of_ascii c in ((48 <=? n) && (n <=? 57))%nat.

Definition digitVal (c : ascii) : Z := Z.of_nat (nat_of_ascii c - 48).

(** The digits of a non-negative integer, most significant first. *)
Fixpoint digitsFuel (fuel : nat) (n : Z) (acc : list Z) : list Z :=
  match fuel with
  | O => acc
  | S k =>
      let acc' := (n mod 10)%Z :: acc in
      if (n <? 10)%Z then acc' else digitsFuel k (n / 10)%Z acc'
  end.

Definition digits (n : Z) : list Z :=
  digitsFuel (S (Z.to_nat (Z.log2 n))) n [].

Fixpoint showDigits (ds : list Z) : string :=
  match ds with
  | [] => EmptyString
  | d :: r => String (digitChar d) (showDigits r)
  end.

Definition decimal (n : Z) : string := showDigits (digits n).

(** The value of a digit sequence. *)
Definition valueOf (ds : list Z) : Z :=
  fold_left (fun a d => 10 * a + d)%Z ds 0%Z.

Fixpoint dropTrailingZeros (ds : list Z) : list Z :=
  match ds with
  | [] => []
  | d :: r =>
      match dropTrailingZeros r with
      | [] => if (d =? 0)%Z then [] else [d]
      | r' => d :: r'
      end
  end.

(** ** Number to String *)

Definition pow10 (k : Z) : Q := inject_Z 10 ^ k.

Definition Qltb (a b : Q) : bool := negb (Qle_bool b a).

(** For [a > 0], the integer [n] with [10^(n-1) <= a < 10^n]: it is the
    difference of the digit counts of numerator and denominator, or one
    more. *)
Definition magnitude (a : Q) : Z :=
  let n0 := (Z.of_nat (length (digits (Qnum a)))
             - Z.of_nat (length (digits (Zpos (Qden a)))))%Z in
  if Qltb a (pow10 n0) then n0 else (n0 + 1)%Z.

Definition showExponent (e : Z) : string :=
  "e" ++ (if (e <? 0)%Z then "-" else "+") ++ decimal (Z.abs e).

(** [Number::toString] for a positive finite number: with [n] the magnitude
    and [k] significant digits, plain notation when [-6 < n <= 21] and
    exponent notation otherwise.  ECMAScript prints the shortest digit
    sequence that reads back as the same double; here the digits are the
    exact decimal expansion, cut after 17 significant digits. *)
Definition positiveToString (a : Q) : string :=
  let n := magnitude a in
  let ds := dropTrailingZeros (digits (Qfloor (a * pow10 (17 - n)))) in
  let k := Z.of_nat (length ds) in
  if ((k <=? n) && (n <=? 21))%Z then
    showDigits ds ++ showDigits (repeat 0%Z (Z.to_nat (n - k)))
  else if ((0 <? n) && (n <=? 21))%Z then
    showDigits (firstn (Z.to_nat n) ds) ++ "." ++ showDigits (skipn (Z.to_nat n) ds)
  else if ((-6 <? n) && (n <=? 0))%Z then
    "0." ++ showDigits (repeat 0%Z (Z.to_nat (- n))) ++ showDigits ds
  else
    match ds with
    | [] => "0"
    | [d] => showDigits [d] ++ showExponent (n - 1)
    | d :: r => showDigits [d] ++ "." ++ showDigits r ++ showExponent (n - 1)
    end.

(** [String(x)], [x.toString()] and the conversion inside template
    literals. *)
Definition toString (x : number) : string :=
  match x with
  | NaN => "NaN"
  | PInf => "Infinity"
  | NInf => "-Infinity"
  | Fin q =>
      if Qeq_bool q 0 then "0"
      else (if Qltb q 0 then "-" else "") ++ positiveToString (Qabs q)
  end.

(** ** Number.prototype.toFixed *)

(** The integer [n] for which [n / 10^f - a] is as close to zero as possible,
    the larger one when there are two. *)
Definition scaledRound (a : Q) (f : nat) : Z :=
  Qfloor (a * pow10 (Z.of_nat f) + (1 # 2)).

(** The digits of [n], padded on the left with zeros to at least [f + 1]
    digits, with a point before the last [f] of them. *)
Definition fixedDigits (n : Z) (f : nat) : string :=
  let m := digits n in
  match f with
  | O => showDigits m
  | S _ =>
      let k := length m in
      let m := if (k <=? f)%nat then (repeat 0%Z (f + 1 - k) ++ m)%list else m in
      let k := length m in
      showDigits (firstn (k - f) m) ++ "." ++ showDigits (skipn (k - f) m)
  end.

Definition toFixed (x : number) (fractionDigits : nat) : string :=
  match x with
  | NaN => "NaN"
  | PInf => "Infinity"
  | NInf => "-Infinity"
  | Fin q =>
      let s := if Qltb q 0 then "-" else "" in
      let a := Qabs q in
      if Qle_bool (pow10 21) a then s ++ toString (Fin a)
      else s ++ fixedDigits (scaledRound a fractionDigits) fractionDigits
  end.

(** ** parseFloat *)

(** Reads the longest run of digits at the head of [s]: its value on top of
    [acc], the number of digits read added to [cnt], and the rest. *)
Fixpoint readDigits (s : string) (acc : Z) (cnt : nat) : Z * nat * string :=
  match s with
  | String c r =>
      if isDigit c then readDigits r (10 * acc + digitVal c)%Z (S cnt)
      else (acc, cnt, s)
  | EmptyString => (acc, cnt, s)
  end.

Definition readSign (s : string) : bool * string :=
  match s with
  | String c r =>
      if Ascii.eqb c "-" then (true, r)
      else if Ascii.eqb c "+" then (false, r)
      else (false, s)
  | EmptyString => (false, s)
  end.

(** The exponent part, [0] when there is none or it has no digit. *)
Definition readExponent (s : string) : Z :=
  match s with
  | String c r =>
      if Ascii.eqb c "e" || Ascii.eqb c "E" then
        let '(neg, r') := readSign r in
        let '(v, cnt, _) := readDigits r' 0%Z 0%nat in
        if (cnt =? 0)%nat then 0%Z else if neg then (- v)%Z else v
      else 0%Z
  | EmptyString => 0%Z
  end.

(** [parseFloat]: leading white space is skipped, then the longest prefix
    that is a decimal literal is read; NaN when there is none. *)
Definition parseFloat (input : string) : number :=
  let '(neg, s) := readSign (trimStart input) in
  if String.prefix "Infinity" s then (if neg then NInf else PInf)
  else
    let '(ip, ic, s1) := readDigits s 0%Z 0%nat in
    let '(fp, fc, s2) :=
      match s1 with
      | String c r =>
          if Ascii.eqb c "." then readDigits r 0%Z 0%nat else (0%Z, 0%nat, s1)
      | EmptyString => (0%Z, 0%nat, s1)
      end in
    if (ic + fc =? 0)%nat then NaN
    else
      let v := (inject_Z ip + inject_Z fp / pow10 (Z.of_nat fc))
               * pow10 (readExponent s2) in
      fin (if neg then - v else v).

(** [parseFloat(x.toString())] for a number [x]: Number-to-String conversion
    yields a literal that reads back as the same number, so the composition
    returns [x]. *)
Definition reparse (x : number) : number := x.

End JS.

(* ================================================================== *)
(** * src/types.ts *)

Module Types.
Import JS.

(** [string | number], the type of [Chemical.ozPerGal]. *)
Inductive StringOrNumber : Type :=
| Str (s : string)
| Num (n : number).

Record Chemical : Type := {
  name : string;
  totalOz : number;
  ozPerGal : StringOrNumber
}.

Record WeatherConditions : Type := {
  weather : string;
  temperature : number;
  windDirection : string;
  windSpeed : number
}.

(** A Firestore timestamp, in milliseconds. *)
Definition Timestamp : Type := Z.

(** A document of the log collection.  [weatherConditions] is [None] for the
    empty object [{}] that a refill stores; [timestamp] is [None] for
    [null]. *)
Record LogEntry : Type := {
  id : string;
  roadName : string;
  gallonsUsed : number;
  gallonsLeft : number;
  initialTankVolume : number;
  chemicalMix : list Chemical;
  weatherConditions : option WeatherConditions;
  timestamp : option Timestamp
}.

End Types.

(* ================================================================== *)
(** * src/App.tsx: component state *)

Import JS.

(** The label that marks a refill. *)
Definition TANK_REFILL : string := "TANK REFILL".

(** The [useState] cells of [App] that the ledger reads or writes.  [db] says
    whether the Firestore handle has been set; the cells that only drive the
    presentation (drop-down visibility, the confirmation dialog) are left
    out. *)
Record State : Type := {
  db : bool;
  userId : option string;
  isAuthReady : bool;
  logs : list Types.LogEntry;
  startingGallons : number;
  gallonsUsedOnRoad : number;
  gallonsLeft : number;
  gallonsToRefill : number;
  chemicalMix : list Types.Chemical;
  currentChemical : string * number;
  chemicalSearch : string;
  roadSearch : string;
  selectedRoad : string;
  weather : string;
  temperature : number;
  windDirection : string;
  windSpeed : number;
  status : string
}.

Definition setUserId (v : option string) (s : State) : State :=
  {| db := db s; userId := v; isAuthReady := isAuthReady s; logs := logs s;
     startingGallons := startingGallons s;
     gallonsUsedOnRoad := gallonsUsedOnRoad s; gallonsLeft := gallonsLeft s;
     gallonsToRefill := gallonsToRefill s; chemicalMix := chemicalMix s;
     currentChemical := currentChemical s;
     chemicalSearch := chemicalSearch s; roadSearch := roadSearch s;
     selectedRoad := selectedRoad s; weather := weather s;
     temperature := temperature s; windDirection := windDirection s;
     windSpeed := windSpeed s; status := status s |}.

Definition setIsAuthReady (v : bool) (s : State) : State :=
  {| db := db s; userId := userId s; isAuthReady := v; logs := logs s;
     startingGallons := startingGallons s;
     gallonsUsedOnRoad := gallonsUsedOnRoad s; gallonsLeft := gallonsLeft s;
     gallonsToRefill := gallonsToRefill s; chemicalMix := chemicalMix s;
     currentChemical := currentChemical s;
     chemicalSearch := chemicalSearch s; roadSearch := roadSearch s;
     selectedRoad := selectedRoad s; weather := weather s;
     temperature := temperature s; windDirection := windDirection s;
     windSpeed := windSpeed s; status := status s |}.

Definition setLogs (v : list Types.LogEntry) (s : State) : State :=
  {| db := db s; userId := userId s; isAuthReady := isAuthReady s; logs := v;
     startingGallons := startingGallons s;
     gallonsUsedOnRoad := gallonsUsedOnRoad s; gallonsLeft := gallonsLeft s;
     gallonsToRefill := gallonsToRefill s; chemicalMix := chemicalMix s;
     currentChemical := currentChemical s;
     chemicalSearch := chemicalSearch s; roadSearch := roadSearch s;
     selectedRoad := selectedRoad s; weather := weather s;
     temperature := temperature s; windDirection := windDirection s;
     windSpeed := windSpeed s; status := status s |}.

Definition setStartingGallons (v : number) (s : State) : State :=
  {| db := db s; userId := userId s; isAuthReady := isAuthReady s;
     logs := logs s; startingGallons := v;
     gallonsUsedOnRoad := gallonsUsedOnRoad s; gallonsLeft := gallonsLeft s;
     gallonsToRefill := gallonsToRefill s; chemicalMix := chemicalMix s;
     currentChemical := currentChemical s;
     chemicalSearch := chemicalSearch s; roadSearch := roadSearch s;
     selectedRoad := selectedRoad s; weather := weather s;
     temperature := temperature s; windDirection := windDirection s;
     windSpeed := windSpeed s; status := status s |}.

Definition setGallonsUsedOnRoad (v : number) (s : State) : State :=
  {| db := db s; userId := userId s; isAuthReady := isAuthReady s;
     logs := logs s; startingGallons := startingGallons s;
     gallonsUsedOnRoad := v; gallonsLeft := gallonsLeft s;
     gallonsToRefill := gallonsToRefill s; chemicalMix := chemicalMix s;
     currentChemical := currentChemical s;
     chemicalSearch := chemicalSearch s; roadSearch := roadSearch s;
     selectedRoad := selectedRoad s; weather := weather s;
     temperature := temperature s; windDirection := windDirection s;
     windSpeed := windSpeed s; status := status s |}.

Definition setGallonsLeft (v : number) (s : State) : State :=
  {| db := db s; userId := userId s; isAuthReady := isAuthReady s;
     logs := logs s; startingGallons := startingGallons s;
     gallonsUsedOnRoad := gallonsUsedOnRoad s; gallonsLeft := v;
     gallonsToRefill := gallonsToRefill s; chemicalMix := chemicalMix s;
     currentChemical := currentChemical s;
     chemicalSearch := chemicalSearch s; roadSearch := roadSearch s;
     selectedRoad := selectedRoad s; weather := weather s;
     temperature := temperature s; windDirection := windDirection s;
     windSpeed := windSpeed s; status := status s |}.

Definition setGallonsToRefill (v : number) (s : State) : State :=
  {| db := db s; userId := userId s; isAuthReady := isAuthReady s;
     logs := logs s; startingGallons := startingGallons s;
     gallonsUsedOnRoad := gallonsUsedOnRoad s; gallonsLeft := gallonsLeft s;
     gallonsToRefill := v; chemicalMix := chemicalMix s;
     currentChemical := currentChemical s;
     chemicalSearch := chemicalSearch s; roadSearch := roadSearch s;
     selectedRoad := selectedRoad s; weather := weather s;
     temperature := temperature s; windDirection := windDirection s;
     windSpeed := windSpeed s; status := status s |}.

Definition setChemicalMix (v : list Types.Chemical) (s : State) : State :=
  {| db := db s; userId := userId s; isAuthReady := isAuthReady s;
     logs := logs s; startingGallons := startingGallons s;
     gallonsUsedOnRoad := gallonsUsedOnRoad s; gallonsLeft := gallonsLeft s;
     gallonsToRefill := gallonsToRefill s; chemicalMix := v;
     currentChemical := currentChemical s;
     chemicalSearch := chemicalSearch s; roadSearch := roadSearch s;
     selectedRoad := selectedRoad s; weather := weather s;
     temperature := temperature s; windDirection := windDirection s;
     windSpeed := windSpeed s; status := status s |}.

Definition setCurrentChemical (v : string * number) (s : State) : State :=
  {| db := db s; userId := userId s; isAuthReady := isAuthReady s;
     logs := logs s; startingGallons := startingGallons s;
     gallonsUsedOnRoad := gallonsUsedOnRoad s; gallonsLeft := gallonsLeft s;
     gallonsToRefill := gallonsToRefill s; chemicalMix := chemicalMix s;
     currentChemical := v; chemicalSearch := chemicalSearch s;
     roadSearch := roadSearch s; selectedRoad := selectedRoad s;
     weather := weather s; temperature := temperature s;
     windDirection := windDirection s; windSpeed := windSpeed s;
     status := status s |}.

Definition setChemicalSearch (v : string) (s : State) : State :=
  {| db := db s; userId := userId s; isAuthReady := isAuthReady s;
     logs := logs s; startingGallons := startingGallons s;
     gallonsUsedOnRoad := gallonsUsedOnRoad s; gallonsLeft := gallonsLeft s;
     gallonsToRefill := gallonsToRefill s; chemicalMix := chemicalMix s;
     currentChemical := currentChemical s; chemicalSearch := v;
     roadSearch := roadSearch s; selectedRoad := selectedRoad s;
     weather := weather s; temperature := temperature s;
     windDirection := windDirection s; windSpeed := windSpeed s;
     status := status s |}.

Definition setRoadSearch (v : string) (s : State) : State :=
  {| db := db s; userId := userId s; isAuthReady := isAuthReady s;
     logs := logs s; startingGallons := startingGallons s;
     gallonsUsedOnRoad := gallonsUsedOnRoad s; gallonsLeft := gallonsLeft s;
     gallonsToRefill := gallonsToRefill s; chemicalMix := chemicalMix s;
     currentChemical := currentChemical s;
     chemicalSearch := chemicalSearch s; roadSearch := v;
     selectedRoad := selectedRoad s; weather := weather s;
     temperature := temperature s; windDirection := windDirection s;
     windSpeed := windSpeed s; status := status s |}.

Definition setSelectedRoad (v : string) (s : State) : State :=
  {| db := db s; userId := userId s; isAuthReady := isAuthReady s;
     logs := logs s; startingGallons := startingGallons s;
     gallonsUsedOnRoad := gallonsUsedOnRoad s; gallonsLeft := gallonsLeft s;
     gallonsToRefill := gallonsToRefill s; chemicalMix := chemicalMix s;
     currentChemical := currentChemical s;
     chemicalSearch := chemicalSearch s; roadSearch := roadSearch s;
     selectedRoad := v; weather := weather s; temperature := temperature s;
     windDirection := windDirection s; windSpeed := windSpeed s;
     status := status s |}.

Definition setWeather (v : string) (s : State) : State :=
  {| db := db s; userId := userId s; isAuthReady := isAuthReady s;
     logs := logs s; startingGallons := startingGallons s;
     gallonsUsedOnRoad := gallonsUsedOnRoad s; gallonsLeft := gallonsLeft s;
     gallonsToRefill := gallonsToRefill s; chemicalMix := chemicalMix s;
     currentChemical := currentChemical s;
     chemicalSearch := chemicalSearch s; roadSearch := roadSearch s;
     selectedRoad := selectedRoad s; weather := v;
     temperature := temperature s; windDirection := windDirection s;
     windSpeed := windSpeed s; status := status s |}.

Definition setTemperature (v : number) (s : State) : State :=
  {| db := db s; userId := userId s; isAuthReady := isAuthReady s;
     logs := logs s; startingGallons := startingGallons s;
     gallonsUsedOnRoad := gallonsUsedOnRoad s; gallonsLeft := gallonsLeft s;
     gallonsToRefill := gallonsToRefill s; chemicalMix := chemicalMix s;
     currentChemical := currentChemical s;
     chemicalSearch := chemicalSearch s; roadSearch := roadSearch s;
     selectedRoad := selectedRoad s; weather := weather s; temperature := v;
     windDirection := windDirection s; windSpeed := windSpeed s;
     status := status s |}.

Definition setWindDirection (v : string) (s : State) : State :=
  {| db := db s; userId := userId s; isAuthReady := isAuthReady s;
     logs := logs s; startingGallons := startingGallons s;
     gallonsUsedOnRoad := gallonsUsedOnRoad s; gallonsLeft := gallonsLeft s;
     gallonsToRefill := gallonsToRefill s; chemicalMix := chemicalMix s;
     currentChemical := currentChemical s;
     chemicalSearch := chemicalSearch s; roadSearch := roadSearch s;
     selectedRoad := selectedRoad s; weather := weather s;
     temperature := temperature s; windDirection := v;
     windSpeed := windSpeed s; status := status s |}.

Definition setWindSpeed (v : number) (s : State) : State :=
  {| db := db s; userId := userId s; isAuthReady := isAuthReady s;
     logs := logs s; startingGallons := startingGallons s;
     gallonsUsedOnRoad := gallonsUsedOnRoad s; gallonsLeft := gallonsLeft s;
     gallonsToRefill := gallonsToRefill s; chemicalMix := chemicalMix s;
     currentChemical := currentChemical s;
     chemicalSearch := chemicalSearch s; roadSearch := roadSearch s;
     selectedRoad := selectedRoad s; weather := weather s;
     temperature := temperature s; windDirection := windDirection s;
     windSpeed := v; status := status s |}.

Definition setStatus (v : string) (s : State) : State :=
  {| db := db s; userId := userId s; isAuthReady := isAuthReady s;
     logs := logs s; startingGallons := startingGallons s;
     gallonsUsedOnRoad := gallonsUsedOnRoad s; gallonsLeft := gallonsLeft s;
     gallonsToRefill := gallonsToRefill s; chemicalMix := chemicalMix s;
     currentChemical := currentChemical s;
     chemicalSearch := chemicalSearch s; roadSearch := roadSearch s;
     selectedRoad := selectedRoad s; weather := weather s;
     temperature := temperature s; windDirection := windDirection s;
     windSpeed := windSpeed s; status := v |}.

(** [updateStatus(message, color)]: the colour only goes to the console. *)
Definition updateStatus (message : string) (s : State) : State :=
  setStatus message s.

(** The initial values of the cells. *)
Definition initialState : State :=
  {| db := false; userId := None; isAuthReady := false; logs := [];
     startingGallons := Fin 600; gallonsUsedOnRoad := Fin 0;
     gallonsLeft := Fin 600; gallonsToRefill := Fin 0;
     chemicalMix := []; currentChemical := ("", Fin 0); chemicalSearch := "";
     roadSearch := ""; selectedRoad := "";
     weather := ""; temperature := Fin 70; windDirection := "South West";
     windSpeed := Fin 5;
     status := "Initializing..." |}.

(** [!isAuthReady || !db || !userId] is false. *)
Definition ready (s : State) : bool :=
  isAuthReady s && db s &&
  match userId s with Some u => negb (isEmpty u) | None => false end.

(** ** The event store *)

(** The operator's [gallon_logs] collection and the component that listens to
    it.  [collection] holds the documents in the order of the query
    [orderBy("timestamp", "asc")], which is the order of the writes since the
    server stamps them; [online] says whether the store accepts writes;
    [serverTime] is the stamp the next write gets and [nextId] numbers the
    documents. *)
Record World : Type := {
  app : State;
  collection : list Types.LogEntry;
  online : bool;
  serverTime : Types.Timestamp;
  nextId : Z
}.

Definition setApp (s : State) (w : World) : World :=
  {| app := s; collection := collection w; online := online w;
     serverTime := serverTime w; nextId := nextId w |}.

(** ** Status messages *)

(** The messages the operations report, under the names the specification
    gives to the failures. *)
Module Msg.

Definition NotReady : string := "System is still initializing. Please wait.".
Definition EmptyRoad : string := "Please select a Road Name.".
Definition NonPositiveVolumeUsed : string :=
  "Please enter a valid amount of Gallons Used.".
Definition NonPositiveVolumeAdded : string :=
  "Please enter a positive amount of gallons to add.".
Definition InsufficientInventory (gallonsUsed gallonsLeft : number) : string :=
  "Gallons Used (" ++ toString gallonsUsed ++ ") exceeds Gallons Left ("
  ++ toString gallonsLeft ++ "). Please refill.".
Definition EmptyChemicalMix : string :=
  "Please add at least one chemical to the mix before logging.".
Definition IncompleteConditions : string :=
  "Please complete all Environmental Conditions fields.".
Definition TankFull : string :=
  "Could not refill: Tank is already full or amount added is too small.".
Definition InvalidChemical : string :=
  "Please enter a valid chemical name and positive total ounces.".
Definition RefillWriteFailed : string :=
  "ERROR: Could not save refill log to database.".
Definition WriteFailed : string := "ERROR: Could not save log to database.".
Definition RefilledCapped (actualAdded gallonsAdded : number) : string :=
  "Refilled tank by " ++ toFixed actualAdded 2 ++ " gallons (capped from "
  ++ toFixed gallonsAdded 2 ++ ").".
Definition Refilled (actualAdded : number) : string :=
  "Refilled tank by " ++ toFixed actualAdded 2 ++ " gallons.".
Definition Logged (gallonsUsed : number) (road : string) : string :=
  "Logged " ++ toFixed gallonsUsed 2 ++ " gallons for " ++ road ++ ".".

End Msg.

(* ================================================================== *)
(** * Derived state *)

(** The two filters every consumer of the history applies. *)
Definition isApplication (log : Types.LogEntry) : bool :=
  negb (String.eqb (Types.roadName log) TANK_REFILL).

Definition isRefill (log : Types.LogEntry) : bool :=
  String.eqb (Types.roadName log) TANK_REFILL.

(** [fetchedLogs[fetchedLogs.length - 1]]. *)
Definition lastOf {A : Type} (l : list A) : option A :=
  nth_error l (length l - 1).

(** The callback of the real-time history listener: the history is kept
    newest first, and the inventory is read off the last document. *)
Definition onSnapshot (fetchedLogs : list Types.LogEntry) (s : State) : State :=
  let s1 := setLogs (rev fetchedLogs) s in
  let lastLog := lastOf fetchedLogs in
  let s2 :=
    match lastLog with
    | Some l => setGallonsLeft (Types.gallonsLeft l) s1
    | None => setGallonsLeft (startingGallons s) s1
    end in
  match lastLog with
  | Some l => setStartingGallons (Types.initialTankVolume l) s2
  | None => s2
  end.

(** The log that [lastAppliedConditions] looks for: the first one, newest
    first, that is not a refill and has a weather description. *)
Definition qualifies (log : Types.LogEntry) : bool :=
  isApplication log &&
  match Types.weatherConditions log with
  | Some c => negb (isEmpty (Types.weather c))
  | None => false
  end.

Definition lastAppliedConditions (logs : list Types.LogEntry)
  : option Types.WeatherConditions :=
  match find qualifies logs with
  | Some lastAppLog => Types.weatherConditions lastAppLog
  | None => None
  end.

(** [s || d] on strings. *)
Definition orString (s d : string) : string := if isEmpty s then d else s.

(** The memo also copies the conditions it finds into the form. *)
Definition syncConditions (s : State) : State :=
  match lastAppliedConditions (logs s) with
  | Some c =>
      setWindSpeed (orElse (Types.windSpeed c) (Fin 5))
        (setWindDirection (orString (Types.windDirection c) "South West")
           (setTemperature (orElse (Types.temperature c) (Fin 70))
              (setWeather (orString (Types.weather c) "") s)))
  | None => s
  end.

(* ================================================================== *)
(** * Mix calculator *)

Definition calculateOzPerGal (totalOz tankVolume : number) : Types.StringOrNumber :=
  if ngt tankVolume (Fin 0) then Types.Str (toFixed (ndiv totalOz tankVolume) 4)
  else Types.Num (Fin 0).

Definition handleChemicalAdd (s : State) : State :=
  let totalOzValue := reparse (snd (currentChemical s)) in
  if isEmpty (fst (currentChemical s)) || isNaN totalOzValue
     || nle totalOzValue (Fin 0)
  then updateStatus Msg.InvalidChemical s
  else
    let newChemical :=
      {| Types.name := fst (currentChemical s);
         Types.totalOz := totalOzValue;
         Types.ozPerGal := calculateOzPerGal totalOzValue (startingGallons s) |} in
    setChemicalSearch ""
      (setCurrentChemical ("", Fin 0)
         (setChemicalMix (chemicalMix s ++ [newChemical]) s)).

(** [prev.filter((_, i) => i !== index)]. *)
Fixpoint removeAt {A : Type} (index : nat) (l : list A) : list A :=
  match l, index with
  | [], _ => []
  | _ :: r, O => r
  | x :: r, S i => x :: removeAt i r
  end.

Definition handleChemicalRemove (index : nat) (s : State) : State :=
  setChemicalMix (removeAt index (chemicalMix s)) s.

(** The effect on [startingGallons]: every staged chemical gets its ratio
    against the current capacity. *)
Definition recomputeMix (s : State) : State :=
  setChemicalMix
    (map (fun chem =>
            {| Types.name := Types.name chem;
               Types.totalOz := Types.totalOz chem;
               Types.ozPerGal :=
                 calculateOzPerGal (Types.totalOz chem) (startingGallons s) |})
         (chemicalMix s))
    s.

(* ================================================================== *)
(** * Effects and store notifications *)

(** The listener is attached once [db] and [userId] are set. *)
Definition subscribed (s : State) : bool :=
  db s && match userId s with Some u => negb (isEmpty u) | None => false end.

(** What a snapshot does to the component: the callback, then the memo on
    [logs]. *)
Definition receive (fetchedLogs : list Types.LogEntry) (s : State) : State :=
  syncConditions (onSnapshot fetchedLogs s).

(** The effects that depend on [startingGallons], run after a render in which
    it differs from [before]: the staged mix is recomputed, and the history
    listener is attached anew, which delivers the current collection; if that
    changes the capacity again the effects run once more. *)
Fixpoint rerender (rounds : nat) (before : number) (w : World) : World :=
  match rounds with
  | O => w
  | S k =>
      if same before (startingGallons (app w)) then w
      else
        let s1 := recomputeMix (app w) in
        let s2 := if subscribed s1 then receive (collection w) s1 else s1 in
        rerender k (startingGallons s1) (setApp s2 w)
  end.

(** The store delivers the collection to the listener. *)
Definition notify (w : World) : World :=
  if subscribed (app w) then
    rerender 2 (startingGallons (app w))
      (setApp (receive (collection w) (app w)) w)
  else w.

(** The document the server stores for [doc]: it assigns the id and
    resolves [serverTimestamp()]. *)
Definition storedAs (doc : Types.LogEntry) (w : World) : Types.LogEntry :=
  {| Types.id := decimal (nextId w);
     Types.roadName := Types.roadName doc;
     Types.gallonsUsed := Types.gallonsUsed doc;
     Types.gallonsLeft := Types.gallonsLeft doc;
     Types.initialTankVolume := Types.initialTankVolume doc;
     Types.chemicalMix := Types.chemicalMix doc;
     Types.weatherConditions := Types.weatherConditions doc;
     Types.timestamp := Some (serverTime w) |}.

(** [addDoc]: the document is appended and the listener notified; [None]
    when the write is rejected. *)
Definition addDoc (doc : Types.LogEntry) (w : World) : option World :=
  if online w then
    Some (notify
            {| app := app w;
               collection := (collection w ++ [storedAs doc w])%list;
               online := online w; serverTime := serverTime w;
               nextId := (nextId w + 1)%Z |})
  else None.

(** Time passes and the store comes and goes. *)
Definition elapse (dt : Z) (w : World) : World :=
  {| app := app w; collection := collection w; online := online w;
     serverTime := (serverTime w + Z.max 0 dt)%Z; nextId := nextId w |}.

Definition setOnline (b : bool) (w : World) : World :=
  {| app := app w; collection := collection w; online := b;
     serverTime := serverTime w; nextId := nextId w |}.

(** The "Total Capacity" input: [parseFloat(e.target.value) || 1] becomes the
    capacity and the inventory is clamped to it. *)
Definition onCapacityChange (value : string) (w : World) : World :=
  let val := orElse (parseFloat value) (Fin 1) in
  let s := app w in
  let s' := setGallonsLeft (min val (gallonsLeft s)) (setStartingGallons val s) in
  rerender 2 (startingGallons s) (setApp s' w).

(* ================================================================== *)
(** * Refill *)

Definition performRefill (gallonsAdded : number) (w : World) : World :=
  let s := app w in
  if negb (ready s) then setApp (updateStatus Msg.NotReady s) w
  else
    let currentTotal := nadd (gallonsLeft s) gallonsAdded in
    let newGallonsLeft := min (startingGallons s) currentTotal in
    let actualAdded := nsub newGallonsLeft (gallonsLeft s) in
    if nle actualAdded (Fin (1 # 100)) then setApp (updateStatus Msg.TankFull s) w
    else
      match
        addDoc
          {| Types.id := "";
             Types.roadName := TANK_REFILL;
             Types.gallonsUsed := nneg actualAdded;
             Types.gallonsLeft := parseFloat (toFixed newGallonsLeft 2);
             Types.initialTankVolume := startingGallons s;
             Types.chemicalMix := [];
             Types.weatherConditions := None;
             Types.timestamp := None |} w
      with
      | Some w' =>
          let message :=
            if nlt newGallonsLeft currentTotal
            then Msg.RefilledCapped actualAdded gallonsAdded
            else Msg.Refilled actualAdded in
          setApp (setGallonsToRefill (Fin 0) (updateStatus message (app w'))) w'
      | None => setApp (updateStatus Msg.RefillWriteFailed s) w
      end.

Definition handleRefill (w : World) : World :=
  let gallons := reparse (gallonsToRefill (app w)) in
  if isNaN gallons || nle gallons (Fin 0)
  then setApp (updateStatus Msg.NonPositiveVolumeAdded (app w)) w
  else performRefill gallons w.

(* ================================================================== *)
(** * Logging an application *)

Definition logApplication (w : World) : World :=
  let s := app w in
  let gallonsUsed := reparse (gallonsUsedOnRoad s) in
  if isEmpty (selectedRoad s) || isEmpty (trim (selectedRoad s))
  then setApp (updateStatus Msg.EmptyRoad s) w
  else if isNaN gallonsUsed || nle gallonsUsed (Fin 0)
  then setApp (updateStatus Msg.NonPositiveVolumeUsed s) w
  else if ngt gallonsUsed (gallonsLeft s)
  then setApp (updateStatus (Msg.InsufficientInventory gallonsUsed (gallonsLeft s)) s) w
  else if (length (chemicalMix s) =? 0)%nat
  then setApp (updateStatus Msg.EmptyChemicalMix s) w
  else if isEmpty (trim (weather s)) || negb (truthy (temperature s))
          || isEmpty (windDirection s) || negb (truthy (windSpeed s))
  then setApp (updateStatus Msg.IncompleteConditions s) w
  else if negb (ready s) then setApp (updateStatus Msg.NotReady s) w
  else
    let newGallonsLeft := nsub (gallonsLeft s) gallonsUsed in
    match
      addDoc
        {| Types.id := "";
           Types.roadName := selectedRoad s;
           Types.gallonsUsed := parseFloat (toFixed gallonsUsed 2);
           Types.gallonsLeft := parseFloat (toFixed newGallonsLeft 2);
           Types.initialTankVolume := startingGallons s;
           Types.chemicalMix := chemicalMix s;
           Types.weatherConditions :=
             Some {| Types.weather := trim (weather s);
                     Types.temperature := reparse (temperature s);
                     Types.windDirection := windDirection s;
                     Types.windSpeed := reparse (windSpeed s) |};
           Types.timestamp := None |} w
    with
    | Some w' =>
        setApp
          (updateStatus (Msg.Logged gallonsUsed (selectedRoad s))
             (setRoadSearch ""
                (setSelectedRoad "" (setGallonsUsedOnRoad (Fin 0) (app w')))))
          w'
    | None => setApp (updateStatus Msg.WriteFailed s) w
    end.

(** ** Calls *)

(** A call of a ledger operation with its inputs: the operator fills the
    form, then triggers the handler. *)
Inductive Call : Type :=
| LogApplication (road : string) (volumeUsed : number)
    (chemicals : list Types.Chemical) (conditions : Types.WeatherConditions)
| LogRefill (volumeAdded : number).

Definition fillApplication (road : string) (volumeUsed : number)
    (chemicals : list Types.Chemical) (conditions : Types.WeatherConditions)
    (s : State) : State :=
  setWindSpeed (Types.windSpeed conditions)
    (setWindDirection (Types.windDirection conditions)
       (setTemperature (Types.temperature conditions)
          (setWeather (Types.weather conditions)
             (setChemicalMix chemicals
                (setGallonsUsedOnRoad volumeUsed
                   (setSelectedRoad road (setRoadSearch road s))))))).

Definition call (c : Call) (w : World) : World :=
  match c with
  | LogApplication road volumeUsed chemicals conditions =>
      logApplication
        (setApp (fillApplication road volumeUsed chemicals conditions (app w)) w)
  | LogRefill volumeAdded =>
      handleRefill (setApp (setGallonsToRefill volumeAdded (app w)) w)
  end.

Definition calls (cs : list Call) (w : World) : World :=
  fold_left (fun w c => call c w) cs w.

(** The component once the session is established, with an empty history:
    the configured default state. *)
Definition defaultWorld (uid : string) : World :=
  {| app :=
       setStatus "System Ready. Load current inventory."
         (setIsAuthReady true
            (setUserId (Some uid)
               {| db := true; userId := None; isAuthReady := false; logs := [];
                  startingGallons := Fin 600; gallonsUsedOnRoad := Fin 0;
                  gallonsLeft := Fin 600; gallonsToRefill := Fin 0;
                  chemicalMix := []; currentChemical := ("", Fin 0);
                  chemicalSearch := ""; roadSearch := ""; selectedRoad := "";
                  weather := ""; temperature := Fin 70;
                  windDirection := "South West"; windSpeed := Fin 5;
                  status := "Initializing..." |}));
     collection := []; online := true; serverTime := 0%Z; nextId := 0%Z |}.

(* ================================================================== *)
(** * Report generation *)

(** [array.forEach((x, index) => ...)] where the callback appends to
    [txtContent]. *)
Fixpoint forEachFrom {A : Type} (f : A -> nat -> string -> string)
    (l : list A) (index : nat) (txtContent : string) : string :=
  match l with
  | [] => txtContent
  | x :: r => forEachFrom f r (S index) (f x index txtContent)
  end.

Definition forEach {A : Type} (f : A -> nat -> string -> string)
    (l : list A) (txtContent : string) : string :=
  forEachFrom f l 0 txtContent.

(** [parseFloat(chem.ozPerGal as string)]: a number is first converted to a
    string. *)
Definition parseOzPerGal (v : Types.StringOrNumber) : number :=
  match v with
  | Types.Str s => parseFloat s
  | Types.Num n => reparse n
  end.

Definition rule : string := "--------------------------------------------".
Definition doubleRule : string := "============================================".

Section Report.

(** The renderings of a date in the locale of the browser; the first two are
    applied to the clock, the third to the timestamp of a log. *)
Variable toLocaleDateString : Z -> string.
Variable toLocaleTimeString : Z -> string.
Variable toLocaleString : Z -> string.

(** The lines of one chemical of an application. *)
Definition chemicalLine (log : Types.LogEntry) (chem : Types.Chemical)
    (_ : nat) (txtContent : string) : string :=
  let ozPerGal := orElse (parseOzPerGal (Types.ozPerGal chem)) (Fin 0) in
  let gallonsUsed := orElse (reparse (Types.gallonsUsed log)) (Fin 0) in
  let ozCalculated := nmul gallonsUsed ozPerGal in
  txtContent ++ "    - " ++ Types.name chem ++ ": " ++ toFixed ozCalculated 2
  ++ " oz applied" ++ LF.

Definition logTimestamp (log : Types.LogEntry) : string :=
  match Types.timestamp log with
  | Some t => toLocaleString t
  | None => "N/A"
  end.

(** The body of [applicationLogs.forEach]. *)
Definition applicationEntry (count : nat) (log : Types.LogEntry) (index : nat)
    (txtContent : string) : string :=
  let timestamp := logTimestamp log in
  let txtContent :=
    txtContent ++ "ENTRY #" ++ decimal (Z.of_nat (count - index))
    ++ " (Logged: " ++ timestamp ++ ")" ++ LF in
  let txtContent := txtContent ++ "Road Name: " ++ Types.roadName log ++ LF in
  let txtContent :=
    txtContent ++ "Gallons Used: " ++ toFixed (Types.gallonsUsed log) 2 ++ " gal" ++ LF in
  let txtContent :=
    txtContent ++ "Gallons Left: " ++ toFixed (Types.gallonsLeft log) 2 ++ " gal" ++ LF in
  let txtContent := txtContent ++ "  Chemical Mix:" ++ LF in
  let txtContent := forEach (chemicalLine log) (Types.chemicalMix log) txtContent in
  txtContent ++ rule ++ LF.

(** The body of [refillLogs.forEach]. *)
Definition refillEntry (count : nat) (log : Types.LogEntry) (index : nat)
    (txtContent : string) : string :=
  let timestamp := logTimestamp log in
  let txtContent :=
    txtContent ++ "REFILL #" ++ decimal (Z.of_nat (count - index))
    ++ " (Logged: " ++ timestamp ++ ")" ++ LF in
  let txtContent :=
    txtContent ++ "Gallons ADDED: " ++ toFixed (abs (Types.gallonsUsed log)) 2
    ++ " gal" ++ LF in
  let txtContent :=
    txtContent ++ "Gallons Left: " ++ toFixed (Types.gallonsLeft log) 2 ++ " gal" ++ LF in
  txtContent ++ rule ++ LF.

(** [generateReportContent], with the two readings of the clock that
    [new Date()] makes for the line "Generated:". *)
Definition generateReportContent (s : State) (now1 now2 : Z) : string :=
  let applicationLogs := filter isApplication (logs s) in
  let refillLogs := filter isRefill (logs s) in
  let txtContent := doubleRule ++ LF in
  let txtContent := txtContent ++ "APPLICATION HISTORY REPORT" ++ LF in
  let txtContent := txtContent ++ doubleRule ++ LF in
  let txtContent :=
    txtContent ++ "Generated: " ++ toLocaleDateString now1 ++ " "
    ++ toLocaleTimeString now2 ++ LF in
  let txtContent :=
    txtContent ++ "User ID: "
    ++ match userId s with Some u => u | None => "null" end ++ LF in
  let txtContent :=
    txtContent ++ "Total Tank Capacity: " ++ toString (startingGallons s)
    ++ " gallons" ++ LF in
  let txtContent :=
    txtContent ++ "Total Road Applications: "
    ++ decimal (Z.of_nat (length applicationLogs)) ++ LF in
  let txtContent :=
    txtContent ++ "Total Refills: " ++ decimal (Z.of_nat (length refillLogs)) ++ LF in
  let txtContent := txtContent ++ doubleRule ++ LF ++ LF in
  let txtContent :=
    match lastAppliedConditions (logs s) with
    | Some c =>
        let txtContent :=
          txtContent ++ ">>> ENVIRONMENTAL CONDITIONS (Last Logged) <<<" ++ LF in
        let txtContent := txtContent ++ "Weather: " ++ Types.weather c ++ LF in
        let txtContent :=
          txtContent ++ "Temperature: " ++ toString (Types.temperature c) ++ "°F" ++ LF in
        let txtContent :=
          txtContent ++ "Wind: " ++ toString (Types.windSpeed c) ++ " MPH from the "
          ++ Types.windDirection c ++ LF in
        txtContent ++ rule ++ LF ++ LF
    | None =>
        let txtContent := txtContent ++ ">>> ENVIRONMENTAL CONDITIONS: N/A" ++ LF in
        txtContent ++ rule ++ LF ++ LF
    end in
  let txtContent := txtContent ++ ">>> ROAD APPLICATION LOGS <<<" ++ LF in
  let txtContent := txtContent ++ rule ++ LF in
  let txtContent :=
    if (length applicationLogs =? 0)%nat
    then txtContent ++ "No road application data to report." ++ LF ++ LF
    else forEach (applicationEntry (length applicationLogs)) applicationLogs txtContent in
  let txtContent := txtContent ++ LF ++ ">>> TANK REFILL LOGS <<<" ++ LF in
  let txtContent := txtContent ++ rule ++ LF in
  let txtContent :=
    if (length refillLogs =? 0)%nat
    then txtContent ++ "No tank refill data to report." ++ LF ++ LF
    else forEach (refillEntry (length refillLogs)) refillLogs txtContent in
  txtContent.

End Report.

(** The rows of the history table, and the count the print summary shows. *)
Definition historyView (s : State) : list Types.LogEntry :=
  filter (fun l => negb (String.eqb (Types.roadName l) TANK_REFILL)) (logs s).

(* ================================================================== *)
(** * Specification-level definitions *)

(** A number rounded to [f] decimals, ties away from zero: what
    [parseFloat(x.toFixed(f))] is meant to be. *)
Definition roundTo (f : nat) (x : number) : number :=
  match x with
  | Fin q =>
      let r := inject_Z (scaledRound (Qabs q) f) / pow10 (Z.of_nat f) in
      fin (if Qltb q 0 then - r else r)
  | _ => x
  end.

(** A fixed [f]-decimal text: an optional minus sign, at least one digit, a
    point and exactly [f] digits. *)
Fixpoint allDigits (s : string) : bool :=
  match s with
  | EmptyString => true
  | String c r => isDigit c && allDigits r
  end.

Fixpoint fixedAfterSign (f : nat) (seen : bool) (s : string) : bool :=
  match s with
  | EmptyString => false
  | String c r =>
      if Ascii.eqb c "." then seen && allDigits r && (String.length r =? f)%nat
      else isDigit c && fixedAfterSign f true r
  end.

Definition isFixedDecimal (f : nat) (s : string) : bool :=
  match s with
  | String c r => if Ascii.eqb c "-" then fixedAfterSign f false r
                  else fixedAfterSign f false s
  | EmptyString => false
  end.

(** The entries of a chronological partition with their sequence numbers:
    the oldest gets 1, the newest the size of the partition. *)
Definition numbered {A : Type} (chronological : list A) : list (nat * A) :=
  combine (seq 1 (length chronological)) chronological.

Fixpoint concatStrings (l : list string) : string :=
  match l with
  | [] => EmptyString
  | x :: r => x ++ concatStrings r
  end.


Section ReportLayout.

Variable toLocaleDateString : Z -> string.
Variable toLocaleTimeString : Z -> string.
Variable toLocaleString : Z -> string.

(** The text of one application with sequence number [k], and of one
    refill. *)
Definition applicationBlock (entry : nat * Types.LogEntry) : string :=
  applicationEntry toLocaleString (fst entry) (snd entry) 0 "".

Definition refillBlock (entry : nat * Types.LogEntry) : string :=
  refillEntry toLocaleString (fst entry) (snd entry) 0 "".

(** The title block of the report. *)
Definition headerSection (s : State) (now1 now2 : Z) : string :=
  doubleRule ++ LF ++ "APPLICATION HISTORY REPORT" ++ LF ++ doubleRule ++ LF
  ++ "Generated: " ++ toLocaleDateString now1 ++ " " ++ toLocaleTimeString now2 ++ LF
  ++ "User ID: " ++ match userId s with Some u => u | None => "null" end ++ LF
  ++ "Total Tank Capacity: " ++ toString (startingGallons s) ++ " gallons" ++ LF
  ++ "Total Road Applications: "
  ++ decimal (Z.of_nat (length (filter isApplication (logs s)))) ++ LF
  ++ "Total Refills: " ++ decimal (Z.of_nat (length (filter isRefill (logs s)))) ++ LF
  ++ doubleRule ++ LF ++ LF.

(** The leading conditions section. *)
Definition conditionsSection (c : option Types.WeatherConditions) : string :=
  match c with
  | Some c =>
      ">>> ENVIRONMENTAL CONDITIONS (Last Logged) <<<" ++ LF
      ++ "Weather: " ++ Types.weather c ++ LF
      ++ "Temperature: " ++ toString (Types.temperature c) ++ "°F" ++ LF
      ++ "Wind: " ++ toString (Types.windSpeed c) ++ " MPH from the "
      ++ Types.windDirection c ++ LF
      ++ rule ++ LF ++ LF
  | None => ">>> ENVIRONMENTAL CONDITIONS: N/A" ++ LF ++ rule ++ LF ++ LF
  end.

(** The two history sections, each a function of its own partition, given
    oldest first and rendered newest first. *)
Definition applicationsSection (applications : list Types.LogEntry) : string :=
  ">>> ROAD APPLICATION LOGS <<<" ++ LF ++ rule ++ LF
  ++ match applications with
     | [] => "No road application data to report." ++ LF ++ LF
     | _ => concatStrings (map applicationBlock (rev (numbered applications)))
     end.

Definition refillsSection (refills : list Types.LogEntry) : string :=
  LF ++ ">>> TANK REFILL LOGS <<<" ++ LF ++ rule ++ LF
  ++ match refills with
     | [] => "No tank refill data to report." ++ LF ++ LF
     | _ => concatStrings (map refillBlock (rev (numbered refills)))
     end.

End ReportLayout.

(** The inventory invariant: capacity and inventory are finite, the
    inventory lies between zero and the capacity, and the capacity is a
    whole number of hundredths below 10^21. *)
Definition Inventory (s : State) (cap gl : Q) : Prop :=
  startingGallons s = Fin cap /\ gallonsLeft s = Fin gl /\
  0 <= gl /\ gl <= cap.

Definition wholeHundredths (cap : Q) : Prop :=
  exists z : Z, cap == inject_Z z / 100.

(** ** Digit sequences *)

Definition isDigitZ (d : Z) : Prop := (0 <= d <= 9)%Z.

(** The value of a digit sequence read on top of [a]. *)
Definition valueFrom (a : Z) (ds : list Z) : Z :=
  fold_left (fun a d => 10 * a + d)%Z ds a.

(** A string that does not begin with a digit. *)
Definition stopsDigits (s : string) : Prop :=
  match s with
  | EmptyString => True
  | String c _ => isDigit c = false
  end.

(** ** Inputs *)


(** [!selectedRoad || !selectedRoad.trim()]. *)
Definition blank (road : string) : bool := isEmpty road || isEmpty (trim road).


(** Sample inputs: a mix staged at capacity 600 and a set of conditions. *)
Definition sampleMix : list Types.Chemical :=
  [ {| Types.name := "Milestone QT"; Types.totalOz := Fin 120;
       Types.ozPerGal := calculateOzPerGal (Fin 120) (Fin 600) |} ].

Definition sampleConditions : Types.WeatherConditions :=
  {| Types.weather := "Clear"; Types.temperature := Fin 70;
     Types.windDirection := "South West"; Types.windSpeed := Fin 5 |}.

(** The outcome of a call that fails a check: only the status is set. *)
Definition rejected (w : World) (message : string) : World :=
  setApp (updateStatus message (app w)) w.

(** The document [logApplication] writes for the form in [s]. *)
Definition applicationDoc (s : State) : Types.LogEntry :=
  {| Types.id := "";
     Types.roadName := selectedRoad s;
     Types.gallonsUsed := parseFloat (toFixed (reparse (gallonsUsedOnRoad s)) 2);
     Types.gallonsLeft :=
       parseFloat
         (toFixed (nsub (gallonsLeft s) (reparse (gallonsUsedOnRoad s))) 2);
     Types.initialTankVolume := startingGallons s;
     Types.chemicalMix := chemicalMix s;
     Types.weatherConditions :=
       Some {| Types.weather := trim (weather s);
               Types.temperature := reparse (temperature s);
               Types.windDirection := windDirection s;
               Types.windSpeed := reparse (windSpeed s) |};
     Types.timestamp := None |}.

(** The document [performRefill] writes when the amount added is
    [actualAdded] and the tank then holds [newGallonsLeft]. *)
Definition refillDoc (s : State) (actualAdded newGallonsLeft : number)
  : Types.LogEntry :=
  {| Types.id := "";
     Types.roadName := TANK_REFILL;
     Types.gallonsUsed := nneg actualAdded;
     Types.gallonsLeft := parseFloat (toFixed newGallonsLeft 2);
     Types.initialTankVolume := startingGallons s;
     Types.chemicalMix := [];
     Types.weatherConditions := None;
     Types.timestamp := None |}.

(** The inventory invariant of a world. *)
Definition Sound (w : World) : Prop :=
  exists cap gl,
    Inventory (app w) cap gl /\ wholeHundredths cap /\ cap < pow10 21.

(** A locale for the examples: dates by the day and times by the second,
    both in decimal. *)
Definition dayOf (t : Z) : string := decimal (t / 86400000).
Definition secondOf (t : Z) : string := decimal ((t / 1000) mod 86400).

(** The chemical [chem] with its ratio taken against [capacity]. *)
Definition withRatio (capacity : number) (chem : Types.Chemical) : Types.Chemical :=
  {| Types.name := Types.name chem;
     Types.totalOz := Types.totalOz chem;
     Types.ozPerGal := calculateOzPerGal (Types.totalOz chem) capacity |}.

(* ================================================================== *)
(** * The rest of the component *)

Definition setDb (v : bool) (s : State) : State :=
  {| db := v; userId := userId s; isAuthReady := isAuthReady s;
     logs := logs s; startingGallons := startingGallons s;
     gallonsUsedOnRoad := gallonsUsedOnRoad s; gallonsLeft := gallonsLeft s;
     gallonsToRefill := gallonsToRefill s; chemicalMix := chemicalMix s;
     currentChemical := currentChemical s;
     chemicalSearch := chemicalSearch s; roadSearch := roadSearch s;
     selectedRoad := selectedRoad s; weather := weather s;
     temperature := temperature s; windDirection := windDirection s;
     windSpeed := windSpeed s; status := status s |}.

(** ** Initialization and sign-in *)

(** The component before its first effect, over a collection that may hold
    the history of an earlier session. *)
Definition mountWorld (docs : list Types.LogEntry) : World :=
  {| app := initialState; collection := docs; online := true;
     serverTime := 0%Z; nextId := Z.of_nat (length docs) |}.

(** The initialization effect: the Firestore handle is set, unless the setup
    throws. *)
Definition initialize (ok : bool) (w : World) : World :=
  if ok then setApp (setDb true (app w)) w
  else setApp (updateStatus "Initialization Failed." (app w)) w.

(** [!currentUserId] for [string | null]. *)
Definition noUser (u : option string) : bool :=
  match u with Some u => isEmpty u | None => true end.

(** The callback of [onAuthStateChanged]: [user] is the uid it is called
    with, [signedIn] the uid of [authInstance.currentUser] after the sign-in
    it attempts when there is no user.  The history listener depends on
    [userId]: when it changes and both [db] and [userId] are set, the
    listener is attached and receives the collection. *)
Definition onAuthStateChanged (user signedIn : option string) (w : World) : World :=
  let currentUserId :=
    if noUser user
    then match signedIn with Some u => Some u | None => user end
    else user in
  let s :=
    updateStatus "System Ready. Load current inventory."
      (setIsAuthReady true (setUserId currentUserId (app w))) in
  let w' := setApp s w in
  let changed :=
    match userId (app w), currentUserId with
    | Some a, Some b => negb (String.eqb a b)
    | None, None => false
    | _, _ => true
    end in
  if changed && subscribed s then notify w' else w'.

(** ** The form *)

(** The road field and the road drop-down. *)
Definition onRoadInput (value : string) (s : State) : State :=
  setSelectedRoad value (setRoadSearch value s).

Definition handleRoadSelect (road : string) (s : State) : State :=
  setSelectedRoad road (setRoadSearch road s).

(** The number fields: [parseFloat(e.target.value) || 0] for the two volumes,
    [parseFloat(e.target.value)] for the others. *)
Definition onGallonsUsedInput (value : string) (s : State) : State :=
  setGallonsUsedOnRoad (orElse (parseFloat value) (Fin 0)) s.

Definition onRefillInput (value : string) (s : State) : State :=
  setGallonsToRefill (orElse (parseFloat value) (Fin 0)) s.

Definition onChemicalSearchInput (value : string) (s : State) : State :=
  setCurrentChemical (value, snd (currentChemical s)) (setChemicalSearch value s).

Definition handleChemicalSelect (chemical : string) (s : State) : State :=
  setCurrentChemical (chemical, snd (currentChemical s))
    (setChemicalSearch chemical s).

Definition onChemicalOzInput (value : string) (s : State) : State :=
  setCurrentChemical (fst (currentChemical s), parseFloat value) s.

Definition onTemperatureInput (value : string) (s : State) : State :=
  setTemperature (parseFloat value) s.

Definition onWindSpeedInput (value : string) (s : State) : State :=
  setWindSpeed (parseFloat value) s.

(** The refill button is disabled while [gallonsToRefill <= 0]. *)
Definition refillClick (w : World) : World :=
  if nle (gallonsToRefill (app w)) (Fin 0) then w else handleRefill w.

(** ** Reset *)

(** [confirmResetHistory]: every document is deleted, the listener sees the
    empty collection, then the cells are put back to their defaults and the
    effects of the capacity change run.  A store that rejects writes rejects
    the deletions; a failure of only some of them is not modelled. *)
Definition confirmResetHistory (w : World) : World :=
  if negb (subscribed (app w)) then w
  else
    let w1 := setApp (updateStatus "Clearing history..." (app w)) w in
    if online w1 then
      let w2 :=
        notify {| app := app w1; collection := []; online := online w1;
                  serverTime := serverTime w1; nextId := nextId w1 |} in
      let s3 :=
        setWindSpeed (Fin 5)
          (setWindDirection "South West"
             (setTemperature (Fin 70)
                (setWeather ""
                   (setGallonsToRefill (Fin 0)
                      (setSelectedRoad ""
                         (setRoadSearch ""
                            (setChemicalSearch ""
                               (setCurrentChemical ("", Fin 0)
                                  (setChemicalMix []
                                     (setGallonsUsedOnRoad (Fin 0)
                                        (setGallonsLeft (Fin 600)
                                           (setStartingGallons (Fin 600)
                                              (app w2))))))))))))) in
      let w3 := rerender 2 (startingGallons (app w2)) (setApp s3 w2) in
      setApp (updateStatus "History cleared. Ready for new job!" (app w3)) w3
    else setApp (updateStatus "ERROR: Could not clear history." (app w1)) w1.

(** ** Actions *)

(** What the operator and the environment can do to the component. *)
Inductive Action : Type :=
| RoadInput (value : string)
| RoadSelect (road : string)
| GallonsUsedInput (value : string)
| RefillInput (value : string)
| ChemicalSearchInput (value : string)
| ChemicalSelect (chemical : string)
| ChemicalOzInput (value : string)
| ChemicalAdd
| ChemicalRemove (index : nat)
| WeatherInput (value : string)
| TemperatureInput (value : string)
| WindSpeedInput (value : string)
| WindDirectionSelect (value : string)
| CapacityInput (value : string)
| LogEntryClick
| RefillClick
| ResetConfirm
| StoreOnline (accepting : bool)
| Elapse (dt : Z).

Definition onState (f : State -> State) (w : World) : World := setApp (f (app w)) w.

Definition act (a : Action) (w : World) : World :=
  match a with
  | RoadInput value => onState (onRoadInput value) w
  | RoadSelect road => onState (handleRoadSelect road) w
  | GallonsUsedInput value => onState (onGallonsUsedInput value) w
  | RefillInput value => onState (onRefillInput value) w
  | ChemicalSearchInput value => onState (onChemicalSearchInput value) w
  | ChemicalSelect chemical => onState (handleChemicalSelect chemical) w
  | ChemicalOzInput value => onState (onChemicalOzInput value) w
  | ChemicalAdd => onState handleChemicalAdd w
  | ChemicalRemove index => onState (handleChemicalRemove index) w
  | WeatherInput value => onState (setWeather value) w
  | TemperatureInput value => onState (onTemperatureInput value) w
  | WindSpeedInput value => onState (onWindSpeedInput value) w
  | WindDirectionSelect value => onState (setWindDirection value) w
  | CapacityInput value => onCapacityChange value w
  | LogEntryClick => logApplication w
  | RefillClick => refillClick w
  | ResetConfirm => confirmResetHistory w
  | StoreOnline accepting => setOnline accepting w
  | Elapse dt => elapse dt w
  end.

Definition acts (l : list Action) (w : World) : World :=
  fold_left (fun w a => act a w) l w.

Definition isReset (a : Action) : bool :=
  match a with ResetConfirm => true | _ => false end.

Definition isCapacityInput (a : Action) : bool :=
  match a with CapacityInput _ => true | _ => false end.

(** ** The conditions summary and the history table *)



(** The quantity the history table shows for a chemical of a log:
    [(log.gallonsUsed * (typeof c.ozPerGal === 'number' ? c.ozPerGal :
    parseFloat(c.ozPerGal))).toFixed(2)]. *)
Definition tableQuantity (log : Types.LogEntry) (c : Types.Chemical) : string :=
  toFixed
    (nmul (Types.gallonsUsed log)
       (match Types.ozPerGal c with
        | Types.Num n => n
        | Types.Str s => parseFloat s
        end))
    2.

(** The quantity on the line of the report for the same chemical. *)
Definition reportQuantity (log : Types.LogEntry) (chem : Types.Chemical) : string :=
  toFixed
    (nmul (orElse (reparse (Types.gallonsUsed log)) (Fin 0))
       (orElse (parseOzPerGal (Types.ozPerGal chem)) (Fin 0)))
    2.

(** The staged mix is the one the capacity calls for. *)
Definition staged (s : State) : Prop :=
  Forall (fun chem =>
            Types.ozPerGal chem
            = calculateOzPerGal (Types.totalOz chem) (startingGallons s) /\
            isEmpty (Types.name chem) = false /\
            ngt (Types.totalOz chem) (Fin 0) = true)
    (chemicalMix s).

(** A logged event carries ratios taken against the capacity it records. *)
Definition frozen (log : Types.LogEntry) : Prop :=
  Forall (fun chem =>
            Types.ozPerGal chem
            = calculateOzPerGal (Types.totalOz chem) (Types.initialTankVolume log))
    (Types.chemicalMix log).

(** The two shapes of a logged event: what [logApplication] writes once its
    checks have passed, and what [performRefill] writes. *)
Definition applicationShaped (log : Types.LogEntry) : Prop :=
  blank (Types.roadName log) = false /\
  Types.chemicalMix log <> [] /\
  exists c,
    Types.weatherConditions log = Some c /\
    isEmpty (Types.weather c) = false /\ truthy (Types.temperature c) = true /\
    isEmpty (Types.windDirection c) = false /\ truthy (Types.windSpeed c) = true.

Definition refillShaped (log : Types.LogEntry) : Prop :=
  Types.roadName log = TANK_REFILL /\
  Types.chemicalMix log = [] /\ Types.weatherConditions log = None.

(** What holds of the component and its store between two actions. *)
Definition Ledger (w : World) : Prop :=
  logs (app w) = rev (collection w) /\
  staged (app w) /\
  Forall frozen (collection w) /\
  Forall (fun log => applicationShaped log \/ refillShaped log) (collection w).

(** ** The colour of the status line *)



(* ================================================================== *)
(** * src/constants.ts and the two search boxes *)

(** [Array.prototype.sort()] without a comparator, on strings: ascending in
    the order of their code units.  An insertion sort computes it. *)
Fixpoint insertSorted (x : string) (l : list string) : list string :=
  match l with
  | [] => [x]
  | y :: r => if String.leb x y then x :: l else y :: insertSorted x r
  end.

Definition sort (l : list string) : list string := fold_right insertSorted [] l.

Definition WIND_DIRECTIONS : list string :=
  [
    "North"; "North East"; "East"; "South East"; "South"; "South West";
    "West"; "North West"
  ].

Definition ALL_ROADS : list string :=
  sort [
    "5th"; "6221 Mile"; "Abby"; "Alden"; "Andee K"; "Antelope"; "Arimo";
    "Arkansas"; "Armstrong"; "Aslett"; "Aubrey"; "Autumn"; "Baldy Mountain";
    "Ballard"; "Barton"; "Bates"; "Batiste"; "Beehive"; "Benson";
    "Berkshire"; "Bighorn"; "Billy"; "Black Pine"; "Blackrock";
    "Blackrock Canyon"; "Blaser"; "Bob Smith Canyon"; "Bonneville"; "Bowman";
    "Braxton"; "Brighton"; "Broxon"; "Buckskin"; "Buffalo"; "Burton";
    "Byington"; "Cambridge"; "Capell"; "Caribou"; "Carla";
    "Carriage Country"; "Castle Creek"; "Cemetery"; "Charlotte";
    "Chatterton"; "Chestnut Hill"; "Chisholm"; "Cimmeron"; "Cinnamon Ridge";
    "Coffin"; "Connell"; "Corey"; "Corwin"; "County"; "Coyote";
    "Crawford Ranch"; "Creekside"; "Crestview"; "Crystal Springs";
    "Cumberland"; "Curtis"; "Cutshalts"; "Deadwood"; "De Kay";
    "Deer Reserve"; "Deerridge"; "Degn"; "Dempsey Creek"; "Devonshire";
    "Dixon"; "Drew"; "Dry Canyon"; "Eagle Rock"; "Edmo"; "Egan"; "Elaine";
    "Elk"; "Ellis"; "Ellsworth"; "Ethan"; "Evening View";
    "Facer Mountain View"; "Fairgrounds"; "Farr"; "Fergeson"; "Fish Creek";
    "Ford"; "Fork Mink Creek"; "Fort Hall Mine"; "Fort Hall Mine Site B";
    "Frandsen"; "Frasure"; "Futurity"; "Gails"; "Gale Mountain";
    "Garden Creek"; "Gibson Jack"; "Girard"; "Gittens"; "Glass"; "Glover";
    "Go Way"; "Goodenough"; "Green"; "Green Canyon"; "Grey Fox"; "Gun Range";
    "Hadley Canyon"; "Hagler"; "Hall"; "Hamilton"; "Hannah";
    "Harkness Canyon"; "Harrington"; "Hawkins"; "Hawkins South Fork";
    "Hawthorne"; "Haystack Mountain"; "Heather"; "Heather Glen"; "Henderson";
    "Hermitsville"; "Highway 30"; "Hildreth"; "Hog Hollow"; "Honeysuckle";
    "Hoot Owl"; "Huckleberry"; "IFFT"; "Indian Creek"; "Inkom"; "Inman";
    "Irel"; "Jackson Creek"; "Jana"; "Jaxon"; "Jenkins"; "Jensen"; "Karen";
    "Katie Mountain"; "Kensington"; "Kissel"; "Kraft"; "Lacey"; "Laramie";
    "Laughran"; "Lee"; "Leta"; "Lily"; "Limelight"; "Lish"; "Lodge";
    "Lovell"; "Lower Rock Creek"; "Luna"; "Lunar"; "Madlee"; "Manning";
    "Maple Grove"; "Marble"; "Marsh Creek"; "Marsh Valley"; "Maughan";
    "Maysi"; "McCammon Landfill"; "McCormack"; "McDaniels"; "McKee";
    "McNabb"; "Meadowbrook Ranch"; "Meadows"; "Meadowview"; "Merrick";
    "Merrill"; "Mink Creek"; "Mission"; "Mogul"; "Moonbeam"; "Moonglow";
    "Moonlight Mine"; "Moose"; "Moose Creek"; "Morgan"; "Mornington";
    "Mountain Meadows"; "My"; "Nelson"; "Neptune"; "Nestor"; "Neva";
    "Newbold"; "Newt"; "Nottingham"; "Old Canyon"; "Old Highway 91";
    "Old Oregon"; "Old Skyline"; "Olson"; "Paintbrush"; "Pamela"; "Parks";
    "Patton"; "Pebble"; "Peerless"; "Pepper Grass"; "Pheasant"; "Philbin";
    "Pidcock"; "Pilot Spring"; "Plain View"; "Pocatello Creek"; "Poleline";
    "Portneuf"; "Potters"; "Preakness"; "Preslar"; "Preston"; "Price";
    "Promise"; "Prospector Hollow"; "Quigley"; "Rapid Creek"; "Rattlesnake";
    "Ray"; "Raymond"; "Reservation"; "Rex"; "Richards"; "Ridge Valley";
    "Rio Vista"; "Robbers Roost"; "Robin"; "Saddle Mountain"; "Sage Hollow";
    "Saturn"; "Sheep Creek"; "Sheriff Range"; "Shrives"; "Siler";
    "Silver Sage"; "Siphon"; "Ski View"; "Smith"; "Smith Canyon";
    "Snowberry"; "Sorenson"; "Sorrelle"; "Spring"; "Stagecoach Stop";
    "Stephanie"; "Stinger"; "Stone River"; "Sublette"; "Summers";
    "Sunnyside"; "Swanson"; "Symons"; "Tascile"; "Tatonka"; "Terese";
    "Terrell"; "Thacker"; "Thompson"; "Tillotson"; "Timberline"; "Tool";
    "Topaz"; "Touch"; "Trail Creek"; "Triple Crown"; "Tripp"; "Two Mile";
    "Tyhee"; "Upper Rock Creek"; "Utah"; "Vandyke"; "Venus"; "Violet";
    "Virginia"; "Walker Creek"; "Wallin"; "Walton"; "Washington";
    "Webb Canyon"; "Wellington"; "West"; "Whispering Cliffs";
    "Whispering Pines"; "White Cloud"; "Whittney"; "Whitworth";
    "Wild Horse Ridge"; "Winning"; "Wiregrass Res"; "Yarrow"; "Yellow Dog";
    "Yoxall"
  ].

Definition ALL_CHEMICALS : list string :=
  sort [
    "Alligare 2 4-D LV6 2.5 gal County"; "Alligare 90 Surfactant 1 gal";
    "Alligare Laramie Ib"; "Anti Foam-no charge out qt.";
    "Aqua-Neat 2.5 gal"; "Bivert gallon"; "Broad Range 2.5 gal";
    "Bronc Max 2.5 gal"; "Bronc Max qt."; "C20 Soil Ammendment";
    "Canter 27 oz"; "Canter 27 oz."; "Chlorsulfuron 20 oz"; "Climb gal";
    "Climb qt"; "Confront 1 gal"; "Crew 50lb bg"; "Crosshair 2.5 gal";
    "Cynder Water Cond 2.5 gal"; "Cynder Water Cond gal"; "Defendor gal";
    "Defendor Herbicide qt"; "Denali-ea 2.5 gal"; "Detail Herbicide gal";
    "Detonate 2.5 gal"; "Dicamba HD 2.5 gal"; "Dimension $1/2$ gallon";
    "Dimension gal"; "Diuron 80 DF 2.5 gallon"; "Duracor gallon";
    "Edict 2SC qt"; "Efficax 2.5 gal"; "Escort 16 oz"; "Escort 8 oz";
    "Esplanade 2.5 gal"; "Esplanade qt"; "Fecuse Turf 4way seed lb.";
    "Fluroxypyr gal"; "Foundation Turf"; "Frequency gal";
    "Garlon 4 Ultra 2.5 gal"; "Grazonnext HL 2 gal"; "Hi-Dep $1/2$ gal";
    "Hi-Light Dye Blue Qt."; "Hidep 2.5 gal"; "Highnoon 1 gal";
    "Highnoon 2.5 gal"; "Infuse 2.5 gal"; "Inplace 2.5 gallon";
    "Krovar I DF 6 lb bag"; "Liberate Lecitech 2.5 Gal";
    "LV6 Base Camp 2.5 gal"; "LV6 Ester Weedone 2.5 gal"; "MEC Amine-D";
    "Method 2.5 gal"; "Milestone 2.5 Gal"; "Milestone QT";
    "Opensight 1.25 lb"; "Oust XP 4 lb"; "Overdrive 7.5# container";
    "P1 Primera Triplet"; "Panoramic qt"; "Payload Ib";
    "Perspective 20 oz bottles"; "Perspective lb"; "Phase 1 gal";
    "Phase 2.5 gal"; "Piper 60 oz bottles"; "Piper EZ 2.5 gal";
    "PlainView Herbicide 2.5 gal"; "Plateau 1 gal"; "Platoon 2.5 gal";
    "Portfolio 4F 2.5 gal"; "Portfolio 4F pint"; "Prozap ZN Ib.";
    "Q4 Plus Turf Gal."; "Q4 Plus Turf Qt."; "R-11 1 gal"; "Rainier 2.5 gal";
    "Rainier-EA qt"; "Renegade 2.5 gal"; "Rifle D 2.5 gal"; "Rodeo 2.5 gal";
    "Round up Pro Conc 2.5 gal"; "Roundup Quick Pro Box";
    "Roundup Quikpro 6.8 lb"; "Scorch 2.5 gal"; "SSC-11 Cleaner gal";
    "Speed Zone 2.5 gal"; "Speed Zone 20 oz bottles"; "SpeedPro XT 1 gal";
    "Streamline Ib"; "Superspread MSO 2.5 gal"; "Syltac 2.5 gal";
    "Syltac Qt"; "Syltac gal"; "Telar XP 16oz"; "Telar XP 8oz";
    "Tordon 22K 2.5 gal"; "Trimec 992 2.5 gal"; "Trimec 992 qt";
    "Vista 2.5 gal"; "xAlligare 2 4D LV6 2.5 gal"; "xFluroxypyr gal";
    "xRoundup Quikpro Ib"
  ].

(** [String.prototype.toLowerCase], on the letters A to Z; other characters
    are kept. *)
Definition lowerChar (c : ascii) : ascii :=
  let n := nat_of_ascii c in
  if ((65 <=? n) && (n <=? 90))%nat then ascii_of_nat (n + 32) else c.

Fixpoint toLowerCase (s : string) : string :=
  match s with
  | EmptyString => EmptyString
  | String c r => String (lowerChar c) (toLowerCase r)
  end.

(** [s.startsWith(p)]. *)
Definition startsWith (s p : string) : bool := String.prefix p s.

Definition filteredRoads (roadSearch : string) : list string :=
  if isEmpty roadSearch then ALL_ROADS
  else
    let lowerCaseSearch := toLowerCase roadSearch in
    filter (fun road => startsWith (toLowerCase road) lowerCaseSearch) ALL_ROADS.

Definition filteredChemicals (chemicalSearch : string) : list string :=
  if isEmpty chemicalSearch then ALL_CHEMICALS
  else
    let lowerCaseSearch := toLowerCase chemicalSearch in
    filter (fun chemical => startsWith (toLowerCase chemical) lowerCaseSearch)
      ALL_CHEMICALS.

(** Ascending order, every entry at most all the later ones. *)
Fixpoint ascending (l : list string) : bool :=
  match l with
  | [] => true
  | x :: r => forallb (String.leb x) r && ascending r
  end.

(** Strictly ascending: no entry twice. *)
Fixpoint strictlyAscending (l : list string) : bool :=
  match l with
  | [] => true
  | x :: r =>
      forallb (fun y => String.leb x y && negb (String.eqb x y)) r
      && strictlyAscending r
  end.

(** Text typed on a keyboard of the letters, digits and signs of ASCII,
    for which [toLowerCase] is as above. *)
Fixpoint asciiOnly (s : string) : bool :=
  match s with
  | EmptyString => true
  | String c r => (nat_of_ascii c <? 128)%nat && asciiOnly r
  end.

(* ================================================================== *)
(** * Decimal digits: printing and reading *)

Lemma digitChar_facts (d : Z) :
  isDigitZ d ->
  isDigit (digitChar d) = true /\ digitVal (digitChar d) = d /\
  isWhiteSpace (digitChar d) = false /\
  Ascii.eqb (digitChar d) "-" = false /\ Ascii.eqb (digitChar d) "+" = false /\
  Ascii.eqb (digitChar d) "." = false /\ Ascii.eqb (digitChar d) "I" = false.
Proof.
  intros [H0 H9].
  assert (d = 0 \/ d = 1 \/ d = 2 \/ d = 3 \/ d = 4 \/ d = 5 \/ d = 6 \/ d = 7
          \/ d = 8 \/ d = 9)%Z as Hd by lia.
  repeat (destruct Hd as [-> | Hd]; [repeat split; reflexivity |]).
  subst d; repeat split; reflexivity.
Qed.

Lemma valueFrom_app (a : Z) (ds1 ds2 : list Z) :
  valueFrom a (ds1 ++ ds2)%list = valueFrom (valueFrom a ds1) ds2.
Proof. unfold valueFrom; apply fold_left_app. Qed.

Lemma valueFrom_shift (ds : list Z) :
  forall a, valueFrom a ds = (a * 10 ^ Z.of_nat (length ds) + valueOf ds)%Z.
Proof.
  unfold valueOf; fold (valueFrom 0 ds).
  induction ds as [| d r IH]; intros a.
  - cbn. lia.
  - cbn [valueFrom fold_left length]. fold (valueFrom (10 * a + d) r).
    fold (valueFrom (10 * 0 + d) r).
    rewrite (IH (10 * a + d)%Z), (IH (10 * 0 + d)%Z).
    rewrite Nat2Z.inj_succ, Z.pow_succ_r by lia. ring.
Qed.

Lemma valueOf_app (ds1 ds2 : list Z) :
  valueOf (ds1 ++ ds2)%list
  = (valueOf ds1 * 10 ^ Z.of_nat (length ds2) + valueOf ds2)%Z.
Proof.
  unfold valueOf at 1. fold (valueFrom 0 (ds1 ++ ds2)%list).
  rewrite valueFrom_app, valueFrom_shift. reflexivity.
Qed.

Lemma valueOf_zeros (k : nat) : valueOf (repeat 0%Z k) = 0%Z.
Proof.
  induction k as [| k IH]; [reflexivity |].
  change (repeat 0%Z (S k)) with ([0%Z] ++ repeat 0%Z k)%list.
  rewrite valueOf_app, IH. reflexivity.
Qed.

Lemma digitsFuel_spec (fuel : nat) :
  forall n acc,
    (0 <= n < 2 ^ Z.of_nat fuel)%Z -> fuel <> O ->
    exists ds, digitsFuel fuel n acc = (ds ++ acc)%list /\ valueOf ds = n /\
               Forall isDigitZ ds /\ ds <> [].
Proof.
  induction fuel as [| k IH]; intros n acc Hn Hfuel; [congruence |].
  cbn [digitsFuel]. destruct (Z.ltb_spec n 10) as [Hlt | Hge].
    - exists [n mod 10]%Z. rewrite Z.mod_small by lia.
      repeat split; try (cbn; lia).
      * constructor; [red; lia | constructor].
      * discriminate.
    - assert (0 <= n / 10 < 2 ^ Z.of_nat k)%Z as Hq.
      { rewrite Nat2Z.inj_succ, Z.pow_succ_r in Hn by lia.
        split; [apply Z.div_pos; lia |].
        apply Z.div_lt_upper_bound; lia. }
      assert (k <> O) as Hk.
      { intros ->. change (2 ^ Z.of_nat 0)%Z with 1%Z in Hq.
        assert (1 <= n / 10)%Z by (apply Z.div_le_lower_bound; lia). lia. }
      destruct (IH (n / 10)%Z ((n mod 10)%Z :: acc) Hq Hk) as (ds & E & V & F & _).
      exists (ds ++ [n mod 10]%Z)%list. repeat split.
      * rewrite E, <- app_assoc. reflexivity.
      * rewrite valueOf_app, V. cbn [length valueOf fold_left].
        pose proof (Z.div_mod n 10). lia.
      * apply Forall_app; split; [assumption |].
        constructor; [| constructor].
        pose proof (Z.mod_pos_bound n 10). red; lia.
      * intros H. apply app_eq_nil in H. destruct H; discriminate.
Qed.

Lemma digits_spec (n : Z) :
  (0 <= n)%Z ->
  valueOf (digits n) = n /\ Forall isDigitZ (digits n) /\ digits n <> [].
Proof.
  intros Hn. unfold digits.
  assert (0 <= n < 2 ^ Z.of_nat (S (Z.to_nat (Z.log2 n))))%Z as Hb.
  { split; [assumption |].
    rewrite Nat2Z.inj_succ, Z2Nat.id by apply Z.log2_nonneg.
    destruct (Z.eq_dec n 0) as [-> | Hz]; [cbn; lia |].
    apply Z.log2_spec. lia. }
  destruct (digitsFuel_spec _ n [] Hb ltac:(discriminate)) as (ds & E & V & F & N).
  rewrite E, app_nil_r. auto.
Qed.

Lemma showDigits_app (ds1 ds2 : list Z) :
  showDigits (ds1 ++ ds2)%list = showDigits ds1 ++ showDigits ds2.
Proof. induction ds1 as [| d r IH]; cbn; [| rewrite IH]; reflexivity. Qed.

Lemma showDigits_length (ds : list Z) :
  String.length (showDigits ds) = length ds.
Proof. induction ds as [| d r IH]; cbn; [| rewrite IH]; reflexivity. Qed.

Lemma allDigits_showDigits (ds : list Z) :
  Forall isDigitZ ds -> allDigits (showDigits ds) = true.
Proof.
  induction 1 as [| d r Hd _ IH]; [reflexivity |].
  cbn [showDigits allDigits].
  destruct (digitChar_facts d Hd) as (-> & _). assumption.
Qed.

Lemma readDigits_showDigits (ds : list Z) :
  Forall isDigitZ ds ->
  forall rest acc cnt,
    stopsDigits rest ->
    readDigits (showDigits ds ++ rest) acc cnt
    = (valueFrom acc ds, (cnt + length ds)%nat, rest).
Proof.
  induction 1 as [| d r Hd _ IH]; intros rest acc cnt Hrest.
  - cbn [showDigits append valueFrom fold_left length].
    rewrite Nat.add_0_r.
    destruct rest as [| c rest']; [reflexivity |].
    cbn in Hrest |- *. rewrite Hrest. reflexivity.
  - cbn [showDigits append readDigits].
    destruct (digitChar_facts d Hd) as (-> & -> & _).
    rewrite IH by assumption. cbn [length valueFrom fold_left].
    rewrite Nat.add_succ_r. reflexivity.
Qed.

Lemma append_empty_r (s : string) : s ++ "" = s.
Proof. induction s as [| c r IH]; cbn; [| rewrite IH]; reflexivity. Qed.

Lemma append_assoc (a b c : string) : (a ++ b) ++ c = a ++ (b ++ c).
Proof. induction a as [| x r IH]; cbn; [| rewrite IH]; reflexivity. Qed.

(** ** The shape of a fixed-notation text *)

Lemma fixedDigits_shape (n : Z) (f : nat) :
  (0 <= n)%Z ->
  exists A B,
    fixedDigits n (S f) = showDigits A ++ "." ++ showDigits B /\
    length B = S f /\ A <> [] /\ Forall isDigitZ A /\ Forall isDigitZ B /\
    valueOf (A ++ B)%list = n.
Proof.
  intros Hn. destruct (digits_spec n Hn) as (V & F & N).
  unfold fixedDigits.
  set (m := digits n) in *.
  set (p := if (length m <=? S f)%nat
            then (repeat 0%Z (S f + 1 - length m) ++ m)%list else m).
  assert (S f < length p)%nat as Hlen.
  { subst p. destruct (Nat.leb_spec (length m) (S f)).
    - rewrite length_app, repeat_length.
      destruct m; [congruence | cbn [length] in *; lia].
    - assumption. }
  assert (valueOf p = n) as Hv.
  { subst p. destruct (length m <=? S f)%nat; [| assumption].
    rewrite valueOf_app, valueOf_zeros. lia. }
  assert (Forall isDigitZ p) as Hf.
  { subst p. destruct (length m <=? S f)%nat; [| assumption].
    apply Forall_app; split; [| assumption].
    apply Forall_forall. intros x Hx. apply repeat_spec in Hx. subst x. red; lia. }
  exists (firstn (length p - S f) p), (skipn (length p - S f) p).
  rewrite firstn_skipn.
  repeat split; try assumption.
  - rewrite length_skipn. lia.
  - intros E. apply (f_equal (@length Z)) in E.
    rewrite length_firstn in E. cbn in E. lia.
  - rewrite <- (firstn_skipn (length p - S f) p) in Hf.
    apply Forall_app in Hf. tauto.
  - rewrite <- (firstn_skipn (length p - S f) p) in Hf.
    apply Forall_app in Hf. tauto.
Qed.

Lemma fixedAfterSign_digits (f : nat) (A B : list Z) :
  Forall isDigitZ A -> Forall isDigitZ B -> length B = f ->
  forall seen, (seen = true \/ A <> []) ->
  fixedAfterSign f seen (showDigits A ++ "." ++ showDigits B) = true.
Proof.
  intros HA HB HL. induction HA as [| d r Hd _ IH]; intros seen Hs.
  - destruct Hs as [-> | Hs]; [| congruence].
    cbn. rewrite allDigits_showDigits, showDigits_length, HL, Nat.eqb_refl by assumption.
    reflexivity.
  - cbn [showDigits append fixedAfterSign].
    destruct (digitChar_facts d Hd) as (-> & _ & _ & _ & _ & -> & _).
    cbn. apply IH. now left.
Qed.

(** ** Reading back a fixed-notation text *)

Lemma prefix_Infinity_digit (d : Z) (r : string) :
  isDigitZ d -> String.prefix "Infinity" (String (digitChar d) r) = false.
Proof.
  intros Hd. destruct (digitChar_facts d Hd) as (_ & _ & _ & _ & _ & _ & HI).
  remember (digitChar d) as c eqn:Ec. clear Ec.
  cbn [String.prefix]. destruct (ascii_dec "I" c) as [E | _]; [| reflexivity].
  rewrite <- E in HI. discriminate.
Qed.

Lemma parse_unsigned (A B : list Z) :
  Forall isDigitZ A -> Forall isDigitZ B -> A <> [] ->
  forall neg : bool,
    (let '(ip, ic, s1) := readDigits (showDigits A ++ "." ++ showDigits B) 0%Z 0%nat in
     let '(fp, fc, s2) :=
       match s1 with
       | String c r =>
           if Ascii.eqb c "." then readDigits r 0%Z 0%nat else (0%Z, 0%nat, s1)
       | EmptyString => (0%Z, 0%nat, s1)
       end in
     if (ic + fc =? 0)%nat then NaN
     else
       let v := (inject_Z ip + inject_Z fp / pow10 (Z.of_nat fc))
                * pow10 (readExponent s2) in
       fin (if neg then - v else v))
    = fin (let v := inject_Z (valueOf (A ++ B)%list) / pow10 (Z.of_nat (length B)) in
           if neg then - v else v).
Proof.
  intros HA HB HN neg.
  rewrite (readDigits_showDigits A HA ("." ++ showDigits B) 0%Z 0%nat)
    by reflexivity.
  cbn [append]. cbn [Ascii.eqb Bool.eqb]. cbv iota.
  rewrite <- (append_empty_r (showDigits B)).
  rewrite (readDigits_showDigits B HB "" 0%Z 0%nat) by exact I.
  destruct A as [| a A']; [congruence |].
  cbn [length Nat.add Nat.eqb].
  unfold fin. f_equal. apply Qred_complete.
  change (readExponent "") with 0%Z.
  rewrite valueOf_app. fold (valueOf (a :: A')). fold (valueOf B).
  set (vA := valueOf (a :: A')). set (vB := valueOf B).
  set (k := Z.of_nat (length B)).
  assert (pow10 k == inject_Z (10 ^ k)) as Hp.
  { unfold pow10. subst k. rewrite <- Zpower_Qpower by lia. reflexivity. }
  assert (0 < 10 ^ k)%Z as Hpos by (apply Z.pow_pos_nonneg; subst k; lia).
  assert (~ pow10 k == 0) as Hnz.
  { rewrite Hp. intros E. unfold Qeq in E. cbn in E. lia. }
  assert ((inject_Z vA + inject_Z vB / pow10 k) * pow10 0
          == inject_Z (vA * 10 ^ k + vB) / pow10 k) as Hv.
  { rewrite inject_Z_plus, inject_Z_mult, <- Hp.
    change (pow10 0) with 1%Q. field. assumption. }
  change (valueFrom 0 (a :: A')) with vA. change (valueFrom 0 B) with vB.
  destruct neg; rewrite Hv; reflexivity.
Qed.

Lemma scaledRound_nonneg (a : Q) (f : nat) : 0 <= a -> (0 <= scaledRound a f)%Z.
Proof.
  intros Ha. unfold scaledRound.
  change 0%Z with (Qfloor 0). apply Qfloor_resp_le.
  assert (0 <= pow10 (Z.of_nat f)) as Hp.
  { unfold pow10. apply Qpower_0_le. discriminate. }
  assert (0 <= a * pow10 (Z.of_nat f)) by (apply Qmult_le_0_compat; assumption).
  lra.
Qed.

Lemma parseFloat_digits (A B : list Z) (neg : bool) :
  Forall isDigitZ A -> Forall isDigitZ B -> A <> [] ->
  parseFloat ((if neg then "-" else "") ++ showDigits A ++ "." ++ showDigits B)
  = fin (let v := inject_Z (valueOf (A ++ B)%list) / pow10 (Z.of_nat (length B)) in
         if neg then - v else v).
Proof.
  intros HA HB HN.
  rewrite <- (parse_unsigned A B HA HB HN neg).
  destruct A as [| a A']; [congruence |].
  assert (isDigitZ a) as Ha by (inversion HA; assumption).
  destruct (digitChar_facts a Ha) as (_ & _ & Hw & Hm & Hp & _ & _).
  unfold parseFloat.
  destruct neg.
  - cbn [append trimStart showDigits].
    change (isWhiteSpace "-") with false. cbv iota.
    cbn [readSign]. change (Ascii.eqb "-" "-") with true. cbv iota.
    rewrite prefix_Infinity_digit by assumption. reflexivity.
  - cbn [append trimStart showDigits]. rewrite Hw.
    cbn [readSign]. rewrite Hm, Hp.
    rewrite prefix_Infinity_digit by assumption. reflexivity.
Qed.

(** [parseFloat(x.toFixed(f))] is [x] rounded to [f] decimals, and the text
    in between is a fixed [f]-decimal text. *)
Lemma toFixed_finite (q : Q) (f : nat) :
  Qabs q < pow10 21 ->
  parseFloat (toFixed (Fin q) (S f)) = roundTo (S f) (Fin q) /\
  isFixedDecimal (S f) (toFixed (Fin q) (S f)) = true.
Proof.
  intros Hb. unfold toFixed.
  assert (Qle_bool (pow10 21) (Qabs q) = false) as ->.
  { destruct (Qle_bool (pow10 21) (Qabs q)) eqn:E; [| reflexivity].
    apply Qle_bool_iff in E. lra. }
  assert (0 <= scaledRound (Qabs q) (S f))%Z as Hn
      by (apply scaledRound_nonneg, Qabs_nonneg).
  destruct (fixedDigits_shape _ f Hn) as (A & B & E & HL & HN & HA & HB & HV).
  rewrite E. split.
  - rewrite parseFloat_digits by assumption.
    rewrite HV, HL. unfold roundTo. reflexivity.
  - destruct A as [| a A']; [congruence |].
    assert (isDigitZ a) as Ha by (inversion HA; assumption).
    destruct (digitChar_facts a Ha) as (_ & _ & _ & Hm & _).
    destruct (Qltb q 0).
    + cbn [append isFixedDecimal]. change (Ascii.eqb "-" "-") with true.
      cbv iota. apply fixedAfterSign_digits; auto; right; discriminate.
    + cbn [append showDigits isFixedDecimal]. rewrite Hm.
      apply (fixedAfterSign_digits (S f) (a :: A') B); auto; right; discriminate.
Qed.

(** ** Rounding *)

Lemma pow10_pos (k : Z) : 0 < pow10 k.
Proof. unfold pow10. apply Qpower_0_lt. reflexivity. Qed.


Lemma Qfloor_unique (y : Q) (z : Z) :
  inject_Z z <= y -> y < inject_Z z + 1 -> Qfloor y = z.
Proof.
  intros Hl Hu.
  pose proof (Qfloor_le y) as H1. pose proof (Qlt_floor y) as H2.
  rewrite inject_Z_plus in H2. change (inject_Z 1) with 1 in H2.
  assert (inject_Z (Qfloor y) < inject_Z (z + 1)) as H3
      by (rewrite inject_Z_plus; change (inject_Z 1) with 1; lra).
  assert (inject_Z z < inject_Z (Qfloor y + 1)) as H4
      by (rewrite inject_Z_plus; change (inject_Z 1) with 1; lra).
  rewrite <- Zlt_Qlt in H3, H4. lia.
Qed.

Lemma scaledRound_compat (a b : Q) (f : nat) :
  a == b -> scaledRound a f = scaledRound b f.
Proof. intros H. unfold scaledRound. rewrite H. reflexivity. Qed.


(** Rounding is monotone, and exact on the multiples of the unit. *)
Lemma scaledRound_le (a b : Q) (f : nat) :
  a <= b -> (scaledRound a f <= scaledRound b f)%Z.
Proof.
  intros H. unfold scaledRound. apply Qfloor_resp_le.
  pose proof (pow10_pos (Z.of_nat f)) as Hp.
  assert (a * pow10 (Z.of_nat f) <= b * pow10 (Z.of_nat f))
    by (apply Qmult_le_compat_r; lra).
  lra.
Qed.

Lemma scaledRound_exact (z : Z) (a : Q) (f : nat) :
  a == inject_Z z / pow10 (Z.of_nat f) -> scaledRound a f = z.
Proof.
  intros H. unfold scaledRound.
  pose proof (pow10_pos (Z.of_nat f)) as Hp.
  apply Qfloor_unique.
  - rewrite H. assert (inject_Z z / pow10 (Z.of_nat f) * pow10 (Z.of_nat f) == inject_Z z)
      as -> by (field; lra). lra.
  - rewrite H. assert (inject_Z z / pow10 (Z.of_nat f) * pow10 (Z.of_nat f) == inject_Z z)
      as -> by (field; lra). lra.
Qed.

Lemma Qltb_false_iff (a b : Q) : Qltb a b = false <-> b <= a.
Proof.
  unfold Qltb. rewrite negb_false_iff. apply Qle_bool_iff.
Qed.


(** Rounding to hundredths keeps a non-negative number between zero and any
    bound that is a whole number of hundredths. *)
Lemma roundTo_within (x cap : Q) :
  0 <= x -> x <= cap -> wholeHundredths cap ->
  exists r, roundTo 2 (Fin x) = Fin r /\ 0 <= r /\ r <= cap.
Proof.
  intros H0 Hc [z Hz].
  unfold roundTo, fin.
  assert (Qltb x 0 = false) as -> by (apply Qltb_false_iff; assumption).
  eexists; split; [reflexivity |].
  rewrite Qred_correct, (scaledRound_compat _ _ 2 (Qabs_pos x H0)).
  assert (pow10 (Z.of_nat 2) == 100) as Hp by reflexivity.
  split.
  - apply Qle_shift_div_l; [apply pow10_pos |].
    rewrite Qmult_0_l. change 0 with (inject_Z 0). rewrite <- Zle_Qle.
    apply scaledRound_nonneg; assumption.
  - assert (scaledRound x 2 <= z)%Z as Hle.
    { rewrite <- (scaledRound_exact z cap 2) by (rewrite Hp; assumption).
      apply scaledRound_le; assumption. }
    rewrite Zle_Qle in Hle. rewrite Hz, Hp.
    apply Qmult_le_compat_r; [assumption | discriminate].
Qed.


(* ================================================================== *)
(** * Comparisons *)

Lemma nlt_Fin (a b : Q) : nlt (Fin a) (Fin b) = true <-> a < b.
Proof.
  unfold nlt; cbn [ncompare]. rewrite Qlt_alt.
  destruct (a ?= b)%Q; split; congruence.
Qed.

Lemma nle_Fin (a b : Q) : nle (Fin a) (Fin b) = true <-> a <= b.
Proof.
  unfold nle; cbn [ncompare]. rewrite Qle_alt.
  destruct (a ?= b)%Q; split; congruence.
Qed.

Lemma nle_Fin_false (a b : Q) : nle (Fin a) (Fin b) = false <-> b < a.
Proof.
  split; intros H.
  - apply Qnot_le_lt. intros L. apply nle_Fin in L. congruence.
  - destruct (nle (Fin a) (Fin b)) eqn:E; [| reflexivity].
    apply nle_Fin in E. lra.
Qed.

Lemma nlt_Fin_false (a b : Q) : nlt (Fin a) (Fin b) = false <-> b <= a.
Proof.
  split; intros H.
  - apply Qnot_lt_le. intros L. apply nlt_Fin in L. congruence.
  - destruct (nlt (Fin a) (Fin b)) eqn:E; [| reflexivity].
    apply nlt_Fin in E. lra.
Qed.

Lemma same_refl (x : number) : same x x = true.
Proof.
  destruct x as [| | | q]; try reflexivity.
  unfold same; cbn [ncompare].
  assert (q == q) as H by reflexivity. apply Qeq_alt in H. rewrite H. reflexivity.
Qed.



(* ================================================================== *)
(** * The store and the listener *)

Lemma lastOf_snoc {A : Type} (l : list A) (x : A) :
  lastOf (l ++ [x])%list = Some x.
Proof.
  unfold lastOf. rewrite length_app. cbn [length].
  replace (length l + 1 - 1)%nat with (length l) by lia.
  rewrite nth_error_app2 by lia. rewrite Nat.sub_diag. reflexivity.
Qed.

(** The memo only writes the four condition cells. *)
Lemma syncConditions_frame (s : State) :
  let s' := syncConditions s in
  db s' = db s /\ userId s' = userId s /\ isAuthReady s' = isAuthReady s /\
  logs s' = logs s /\ startingGallons s' = startingGallons s /\
  gallonsLeft s' = gallonsLeft s /\ chemicalMix s' = chemicalMix s /\
  status s' = status s.
Proof.
  unfold syncConditions. destruct (lastAppliedConditions (logs s)); cbn; tauto.
Qed.

(** What the listener leaves in the component after a document has been
    appended. *)
Lemma receive_snoc (docs : list Types.LogEntry) (e : Types.LogEntry) (s : State) :
  let s' := receive (docs ++ [e])%list s in
  logs s' = rev (docs ++ [e])%list /\
  gallonsLeft s' = Types.gallonsLeft e /\
  startingGallons s' = Types.initialTankVolume e /\
  chemicalMix s' = chemicalMix s /\ status s' = status s /\
  db s' = db s /\ userId s' = userId s /\ isAuthReady s' = isAuthReady s.
Proof.
  unfold receive.
  destruct (syncConditions_frame (onSnapshot (docs ++ [e])%list s))
    as (E1 & E2 & E3 & E4 & E5 & E6 & E7 & E8).
  cbv zeta. rewrite E1, E2, E3, E4, E5, E6, E7, E8.
  unfold onSnapshot. rewrite lastOf_snoc. cbn. tauto.
Qed.

(** A write that records the current capacity: the document is appended and
    the component takes its inventory from it. *)
Lemma addDoc_appends (doc : Types.LogEntry) (w : World) :
  online w = true -> subscribed (app w) = true ->
  Types.initialTankVolume doc = startingGallons (app w) ->
  exists w',
    addDoc doc w = Some w' /\
    collection w' = (collection w ++ [storedAs doc w])%list /\
    online w' = online w /\
    app w' = receive (collection w ++ [storedAs doc w])%list (app w).
Proof.
  intros Hon Hsub Hcap. unfold addDoc. rewrite Hon.
  eexists; split; [reflexivity |].
  unfold notify. cbn [app collection].
  rewrite Hsub.
  destruct (receive_snoc (collection w) (storedAs doc w) (app w))
    as (_ & _ & E & _).
  cbn [rerender setApp app].
  rewrite E. cbn [storedAs Types.initialTankVolume]. rewrite Hcap, same_refl.
  cbn. auto.
Qed.

Lemma ready_subscribed (s : State) : ready s = true -> subscribed s = true.
Proof.
  unfold ready, subscribed. destruct (isAuthReady s), (db s); cbn; congruence.
Qed.

(* ================================================================== *)
(** * Validation of an application *)





(* ================================================================== *)
(** * Volumes that are not finite and positive *)





(* ================================================================== *)
(** * A successful application *)

(** The document [logApplication] writes for the form in [s]. *)
Lemma logApplication_appends (w : World) :
  let s := app w in
  blank (selectedRoad s) = false ->
  isNaN (gallonsUsedOnRoad s) || nle (gallonsUsedOnRoad s) (Fin 0) = false ->
  ngt (gallonsUsedOnRoad s) (gallonsLeft s) = false ->
  chemicalMix s <> [] ->
  isEmpty (trim (weather s)) || negb (truthy (temperature s))
  || isEmpty (windDirection s) || negb (truthy (windSpeed s)) = false ->
  ready s = true -> online w = true ->
  let doc := applicationDoc s in
  let w' := logApplication w in
  collection w' = (collection w ++ [storedAs doc w])%list /\
  logs (app w') = rev (collection w') /\
  gallonsLeft (app w') = Types.gallonsLeft doc /\
  startingGallons (app w') = startingGallons s /\
  status (app w') = Msg.Logged (gallonsUsedOnRoad s) (selectedRoad s) /\
  online w' = online w /\ ready (app w') = true.
Proof.
  cbv zeta. intros Hroad Hvol Hinv Hmix Hcond Hready Hon.
  unfold logApplication. cbv zeta. fold (applicationDoc (app w)).
  unfold reparse.
  unfold blank in Hroad. rewrite Hroad, Hvol, Hinv, Hcond, Hready.
  assert ((length (chemicalMix (app w)) =? 0)%nat = false) as ->.
  { destruct (chemicalMix (app w)); [congruence | reflexivity]. }
  cbn [negb].
  destruct (addDoc_appends (applicationDoc (app w)) w Hon
              (ready_subscribed _ Hready) eq_refl) as (w' & -> & Ec & Eo & Ea).
  destruct (receive_snoc (collection w) (storedAs (applicationDoc (app w)) w) (app w))
    as (R1 & R2 & R3 & R4 & R5 & R6 & R7 & R8).
  cbv zeta in R1, R2, R3, R4, R5, R6, R7, R8. rewrite <- Ea in *.
  cbn [app setApp collection online updateStatus setStatus setRoadSearch
       setSelectedRoad setGallonsUsedOnRoad logs gallonsLeft startingGallons status].
  rewrite Ec, R1, R2, R3. repeat split; try assumption.
  unfold ready in *. cbn. rewrite R6, R7, R8. assumption.
Qed.




(* ================================================================== *)
(** * Refill *)

(** The two outcomes of [performRefill] once the session is ready. *)
Lemma performRefill_outcomes (w : World) (x : number) :
  ready (app w) = true ->
  let s := app w in
  let currentTotal := nadd (gallonsLeft s) x in
  let newGallonsLeft := min (startingGallons s) currentTotal in
  let actualAdded := nsub newGallonsLeft (gallonsLeft s) in
  let w' := performRefill x w in
  (nle actualAdded (Fin (1 # 100)) = true -> w' = rejected w Msg.TankFull) /\
  (nle actualAdded (Fin (1 # 100)) = false -> online w = true ->
   let doc := refillDoc s actualAdded newGallonsLeft in
   collection w' = (collection w ++ [storedAs doc w])%list /\
   logs (app w') = rev (collection w') /\
   gallonsLeft (app w') = Types.gallonsLeft doc /\
   startingGallons (app w') = startingGallons s /\
   status (app w')
   = (if nlt newGallonsLeft currentTotal
      then Msg.RefilledCapped actualAdded x else Msg.Refilled actualAdded) /\
   online w' = online w /\ ready (app w') = true).
Proof.
  intros Hready. cbv zeta. unfold performRefill. cbv zeta.
  rewrite Hready. cbn [negb].
  set (currentTotal := nadd (gallonsLeft (app w)) x).
  set (newGallonsLeft := min (startingGallons (app w)) currentTotal).
  set (actualAdded := nsub newGallonsLeft (gallonsLeft (app w))).
  fold (refillDoc (app w) actualAdded newGallonsLeft).
  split.
  - intros ->. reflexivity.
  - intros -> Hon.
    destruct (addDoc_appends (refillDoc (app w) actualAdded newGallonsLeft) w Hon
                (ready_subscribed _ Hready) eq_refl) as (w' & -> & Ec & Eo & Ea).
    destruct (receive_snoc (collection w)
                (storedAs (refillDoc (app w) actualAdded newGallonsLeft) w) (app w))
      as (R1 & R2 & R3 & R4 & R5 & R6 & R7 & R8).
    cbv zeta in R1, R2, R3, R4, R5, R6, R7, R8. rewrite <- Ea in *.
    cbn [app setApp collection online updateStatus setStatus setGallonsToRefill
         logs gallonsLeft startingGallons status].
    rewrite Ec, R1, R2, R3. repeat split; try assumption.
    unfold ready in *. cbn. rewrite R6, R7, R8. assumption.
Qed.

Lemma min_Fin (a b : Q) :
  (a <= b /\ min (Fin a) (Fin b) = Fin a) \/ (b < a /\ min (Fin a) (Fin b) = Fin b).
Proof.
  unfold min; cbn [ncompare].
  destruct (a ?= b)%Q eqn:E.
  - left. apply Qeq_alt in E. split; [rewrite E; apply Qle_refl | reflexivity].
  - left. apply Qlt_alt in E. split; [apply Qlt_le_weak; assumption | reflexivity].
  - right. apply Qgt_alt in E. split; [assumption | reflexivity].
Qed.

Lemma nsub_Fin (a b : Q) : exists d, nsub (Fin a) (Fin b) = Fin d /\ d == a - b.
Proof.
  unfold nsub, nneg, nadd, fin. eexists; split; [reflexivity |].
  rewrite !Qred_correct. ring.
Qed.

Lemma nadd_Fin (a b : Q) : exists d, nadd (Fin a) (Fin b) = Fin d /\ d == a + b.
Proof.
  unfold nadd, fin. eexists; split; [reflexivity |]. apply Qred_correct.
Qed.

(** [parseFloat(x.toFixed(2))] for the values that are not finite. *)
Lemma toFixed_not_finite (x : number) (f : nat) :
  match x with Fin _ => False | _ => True end ->
  parseFloat (toFixed x f) = roundTo f x.
Proof. destruct x; intros H; try reflexivity. destruct H. Qed.

Lemma bool_eq_iff (a b : bool) : (a = true <-> b = true) -> a = b.
Proof.
  destruct a, b; intros [H1 H2]; try reflexivity.
  - symmetry. apply H1. reflexivity.
  - apply H2. reflexivity.
Qed.






(* ================================================================== *)
(** * The inventory invariant *)

Lemma addDoc_offline (doc : Types.LogEntry) (w : World) :
  online w = false -> addDoc doc w = None.
Proof. intros H. unfold addDoc. rewrite H. reflexivity. Qed.

(** Every call of [logApplication] either fails a check, and only sets the
    status, or passes them all with the store accepting the write. *)
Lemma logApplication_cases (w : World) :
  let s := app w in
  (exists message, logApplication w = rejected w message) \/
  (blank (selectedRoad s) = false /\
   isNaN (gallonsUsedOnRoad s) || nle (gallonsUsedOnRoad s) (Fin 0) = false /\
   ngt (gallonsUsedOnRoad s) (gallonsLeft s) = false /\
   chemicalMix s <> [] /\
   isEmpty (trim (weather s)) || negb (truthy (temperature s))
   || isEmpty (windDirection s) || negb (truthy (windSpeed s)) = false /\
   ready s = true /\ online w = true).
Proof.
  cbv zeta. unfold logApplication, blank, rejected. cbv zeta.
  fold (applicationDoc (app w)). unfold reparse.
  destruct (isEmpty (selectedRoad (app w)) || isEmpty (trim (selectedRoad (app w))));
    [left; eexists; reflexivity |].
  destruct (isNaN (gallonsUsedOnRoad (app w))
            || nle (gallonsUsedOnRoad (app w)) (Fin 0));
    [left; eexists; reflexivity |].
  destruct (ngt (gallonsUsedOnRoad (app w)) (gallonsLeft (app w)));
    [left; eexists; reflexivity |].
  destruct (chemicalMix (app w)) as [| c mix] eqn:Emix;
    [left; eexists; reflexivity |].
  cbn [length Nat.eqb].
  destruct (isEmpty (trim (weather (app w))) || negb (truthy (temperature (app w)))
            || isEmpty (windDirection (app w)) || negb (truthy (windSpeed (app w))));
    [left; eexists; reflexivity |].
  destruct (ready (app w)); [| left; eexists; reflexivity].
  cbn [negb].
  destruct (online w) eqn:Hon.
  - right. repeat split; try reflexivity. discriminate.
  - left. rewrite (addDoc_offline _ _ Hon). eexists; reflexivity.
Qed.

(** Likewise for [handleRefill]. *)
Lemma handleRefill_cases (w : World) :
  let s := app w in
  let x := gallonsToRefill s in
  (exists message, handleRefill w = rejected w message) \/
  (isNaN x || nle x (Fin 0) = false /\ ready s = true /\ online w = true /\
   nle (nsub (min (startingGallons s) (nadd (gallonsLeft s) x)) (gallonsLeft s))
     (Fin (1 # 100)) = false /\
   handleRefill w = performRefill x w).
Proof.
  cbv zeta. unfold handleRefill, reparse.
  destruct (isNaN (gallonsToRefill (app w))
            || nle (gallonsToRefill (app w)) (Fin 0));
    [left; eexists; reflexivity |].
  destruct (ready (app w)) eqn:Hready.
  - destruct (performRefill_outcomes w (gallonsToRefill (app w)) Hready)
      as [Hfull _]. cbv zeta in Hfull.
    destruct (nle (nsub (min (startingGallons (app w))
                           (nadd (gallonsLeft (app w)) (gallonsToRefill (app w))))
                     (gallonsLeft (app w))) (Fin (1 # 100))) eqn:Hle.
    + left. eexists. apply Hfull. reflexivity.
    + destruct (online w) eqn:Hon.
      * right. repeat split; reflexivity.
      * left. unfold performRefill. cbv zeta. rewrite Hready, Hle.
        rewrite (addDoc_offline _ _ Hon). eexists; reflexivity.
  - left. unfold performRefill. rewrite Hready. eexists; reflexivity.
Qed.

Lemma Sound_frame (w w' : World) :
  gallonsLeft (app w') = gallonsLeft (app w) ->
  startingGallons (app w') = startingGallons (app w) ->
  Sound w -> Sound w'.
Proof.
  intros Eg Es (cap & gl & (Hc & Hg & H0 & H1) & Hw & Hb).
  exists cap, gl. unfold Inventory. rewrite Eg, Es. auto.
Qed.

(** A valid volume is a positive rational or +Infinity. *)
Lemma valid_volume (x : number) :
  isNaN x || nle x (Fin 0) = false ->
  x = PInf \/ exists q, x = Fin q /\ 0 < q.
Proof.
  destruct x as [| | | q]; cbn [isNaN orb]; try discriminate.
  - auto.
  - intros H. right. exists q. split; [reflexivity |].
    apply nle_Fin_false in H. assumption.
Qed.

Lemma logApplication_sound (w : World) : Sound w -> Sound (logApplication w).
Proof.
  intros HS. destruct (logApplication_cases w) as [[m E] | H].
  - rewrite E. apply (Sound_frame w); [reflexivity | reflexivity | assumption].
  - cbv zeta in H. destruct H as (Hroad & Hvol & Hinv & Hmix & Hcond & Hready & Hon).
    destruct (logApplication_appends w Hroad Hvol Hinv Hmix Hcond Hready Hon)
      as (_ & _ & Hg & Hs & _).
    destruct HS as (cap & gl & (Ec & Eg & H0 & H1) & Hw & Hb).
    destruct (valid_volume _ Hvol) as [E | (q & E & Hq)];
      rewrite E, Eg in Hinv; [discriminate |].
    unfold ngt in Hinv. apply nlt_Fin_false in Hinv.
    cbn [applicationDoc Types.gallonsLeft] in Hg. unfold reparse in Hg.
    rewrite E, Eg in Hg.
    destruct (nsub_Fin gl q) as (d & Ed & Hd). rewrite Ed in Hg.
    assert (Qabs d < pow10 21) as Hdb by (apply Qabs_Qlt_condition; lra).
    destruct (toFixed_finite d 1 Hdb) as [Hp _]. rewrite Hp in Hg.
    destruct (roundTo_within d cap) as (r & Er & Hr0 & Hr1); [lra | lra | assumption |].
    exists cap, r. unfold Inventory. rewrite Hg, Hs, Er. auto.
Qed.

Lemma handleRefill_sound (w : World) : Sound w -> Sound (handleRefill w).
Proof.
  intros HS. destruct (handleRefill_cases w) as [[m E] | H].
  - rewrite E. apply (Sound_frame w); [reflexivity | reflexivity | assumption].
  - cbv zeta in H. destruct H as (Hvol & Hready & Hon & Hle & ->).
    destruct (performRefill_outcomes w (gallonsToRefill (app w)) Hready) as [_ Hok].
    cbv zeta in Hok. destruct (Hok Hle Hon) as (_ & _ & Hg & Hs & _).
    destruct HS as (cap & gl & (Ec & Eg & H0 & H1) & Hw & Hb).
    cbn [refillDoc Types.gallonsLeft] in Hg.
    rewrite Ec, Eg in Hg, Hle.
    assert (exists n, min (Fin cap) (nadd (Fin gl) (gallonsToRefill (app w))) = Fin n
                      /\ gl <= n /\ n <= cap) as (n & En & Hn0 & Hn1).
    { destruct (valid_volume _ Hvol) as [E | (q & E & Hq)]; rewrite E.
      - exists cap. split; [reflexivity | lra].
      - destruct (nadd_Fin gl q) as (t & -> & Ht).
        destruct (min_Fin cap t) as [[Hle' ->] | [Hlt' ->]].
        + exists cap. split; [reflexivity | lra].
        + exists t. split; [reflexivity | lra]. }
    rewrite En in Hg.
    assert (Qabs n < pow10 21) as Hnb by (apply Qabs_Qlt_condition; lra).
    destruct (toFixed_finite n 1 Hnb) as [Hp _]. rewrite Hp in Hg.
    destruct (roundTo_within n cap) as (r & Er & Hr0 & Hr1); [lra | lra | assumption |].
    exists cap, r. unfold Inventory. rewrite Hg, Hs, Er. auto.
Qed.

Lemma call_sound (c : Call) (w : World) : Sound w -> Sound (call c w).
Proof.
  intros HS. destruct c as [road volumeUsed chemicals conditions | volumeAdded];
    cbn [call].
  - apply logApplication_sound.
    apply (Sound_frame w); [reflexivity | reflexivity | assumption].
  - apply handleRefill_sound.
    apply (Sound_frame w); [reflexivity | reflexivity | assumption].
Qed.

Lemma calls_sound (cs : list Call) : forall w, Sound w -> Sound (calls cs w).
Proof.
  unfold calls. induction cs as [| c cs IH]; intros w HS; cbn [fold_left].
  - assumption.
  - apply IH, call_sound, HS.
Qed.

Lemma defaultWorld_sound (uid : string) : Sound (defaultWorld uid).
Proof.
  exists 600, 600. split; [| split].
  - unfold Inventory. cbn. repeat split; discriminate.
  - exists 60000%Z. reflexivity.
  - reflexivity.
Qed.

(** C1: after any sequence of calls of [logApplication] and [logRefill] from
    the default state, whether their inputs pass the validation or not, the
    capacity and the derived inventory are finite numbers and the inventory
    lies between zero and the capacity. *)
Theorem inventory_within_capacity (uid : string) (cs : list Call) :
  let s := app (calls cs (defaultWorld uid)) in
  exists cap gl : Q,
    startingGallons s = Fin cap /\ gallonsLeft s = Fin gl /\
    0 <= gl /\ gl <= cap.
Proof.
  destruct (calls_sound cs _ (defaultWorld_sound uid)) as (cap & gl & H & _).
  exists cap, gl. exact H.
Qed.

(* ================================================================== *)
(** * The layout of the report *)

Lemma forEachFrom_append {A : Type} (f : A -> nat -> string -> string) :
  (forall x i t, f x i t = t ++ f x i "") ->
  forall l i t, forEachFrom f l i t = t ++ forEachFrom f l i "".
Proof.
  intros Hf. induction l as [| x r IH]; intros i t; cbn [forEachFrom].
  - symmetry. apply append_empty_r.
  - rewrite (IH (S i) (f x i t)), (IH (S i) (f x i "")), Hf.
    apply append_assoc.
Qed.

Lemma combine_append {A B : Type} (a1 : list A) :
  forall (b1 : list B) a2 b2,
    length a1 = length b1 ->
    combine (a1 ++ a2)%list (b1 ++ b2)%list
    = (combine a1 b1 ++ combine a2 b2)%list.
Proof.
  induction a1 as [| x a1 IH]; intros [| y b1] a2 b2 H;
    cbn in H |- *; try discriminate.
  - reflexivity.
  - injection H as H. rewrite IH by assumption. reflexivity.
Qed.

Lemma combine_rev {A B : Type} (a : list A) :
  forall b : list B, length a = length b ->
  rev (combine a b) = combine (rev a) (rev b).
Proof.
  induction a as [| x a IH]; intros [| y b] H; cbn in H |- *; try discriminate.
  - reflexivity.
  - injection H as H. rewrite IH by assumption.
    rewrite combine_append by (rewrite !length_rev; assumption). reflexivity.
Qed.

(** A loop over a partition given newest first, whose body appends the text
    of an entry under the number [count - index], writes the entries of the
    chronological partition newest first, each under its sequence number. *)
Lemma entries_rendering (entry : nat -> Types.LogEntry -> nat -> string -> string) :
  (forall c x i t, entry c x i t = t ++ entry (c - i)%nat x 0%nat "") ->
  forall (l : list Types.LogEntry) (txt : string),
    forEach (entry (length l)) l txt
    = txt ++ concatStrings
               (map (fun p => entry (fst p) (snd p) 0%nat "")
                  (rev (numbered (rev l)))).
Proof.
  intros He l txt.
  assert (rev (numbered (rev l)) = combine (rev (seq 1 (length l))) l) as ->.
  { unfold numbered. rewrite combine_rev by (rewrite length_seq; reflexivity).
    rewrite length_rev, rev_involutive. reflexivity. }
  unfold forEach.
  assert (forall l i n t, n = (i + length l)%nat ->
            forEachFrom (entry n) l i t
            = t ++ concatStrings
                     (map (fun p => entry (fst p) (snd p) 0%nat "")
                        (combine (rev (seq 1 (length l))) l))) as G.
  { clear l txt. induction l as [| x r IH]; intros i n t Hn.
    - cbn. symmetry. apply append_empty_r.
    - cbn [forEachFrom length]. rewrite (IH (S i) n) by (cbn [length] in Hn; lia).
      rewrite seq_S, rev_app_distr. cbn [rev app combine map concatStrings fst snd].
      rewrite He, append_assoc.
      replace (n - i)%nat with (1 + length r)%nat by (cbn [length] in Hn; lia).
      reflexivity. }
  apply G. reflexivity.
Qed.

Section ReportFacts.

Variable toLocaleDateString : Z -> string.
Variable toLocaleTimeString : Z -> string.
Variable toLocaleString : Z -> string.

Lemma chemicalLine_append (log : Types.LogEntry) (chem : Types.Chemical)
    (i : nat) (t : string) :
  chemicalLine log chem i t = t ++ chemicalLine log chem i "".
Proof. unfold chemicalLine. cbv zeta. reflexivity. Qed.

Lemma applicationEntry_append (c : nat) (x : Types.LogEntry) (i : nat) (t : string) :
  applicationEntry toLocaleString c x i t
  = t ++ applicationEntry toLocaleString (c - i)%nat x 0%nat "".
Proof.
  unfold applicationEntry. cbv zeta. unfold forEach.
  match goal with
  | |- forEachFrom ?f ?l ?j ?a ++ _ = _ ++ forEachFrom ?f ?l ?j ?b ++ _ =>
      rewrite (forEachFrom_append f (chemicalLine_append x) l j a),
        (forEachFrom_append f (chemicalLine_append x) l j b)
  end.
  rewrite Nat.sub_0_r. repeat rewrite append_assoc.
  change ("" ++ "ENTRY #" ++ ?r) with ("ENTRY #" ++ r). reflexivity.
Qed.

Lemma refillEntry_append (c : nat) (x : Types.LogEntry) (i : nat) (t : string) :
  refillEntry toLocaleString c x i t
  = t ++ refillEntry toLocaleString (c - i)%nat x 0%nat "".
Proof.
  unfold refillEntry. cbv zeta. rewrite Nat.sub_0_r.
  repeat rewrite append_assoc.
  change ("" ++ "REFILL #" ++ ?r) with ("REFILL #" ++ r). reflexivity.
Qed.

(** The report is the title block, the conditions section and the two
    history sections, each history section written from the chronological
    order of its own partition. *)
Lemma report_layout (s : State) (now1 now2 : Z) :
  generateReportContent toLocaleDateString toLocaleTimeString toLocaleString
    s now1 now2
  = headerSection toLocaleDateString toLocaleTimeString s now1 now2
    ++ conditionsSection (lastAppliedConditions (logs s))
    ++ applicationsSection toLocaleString (rev (filter isApplication (logs s)))
    ++ refillsSection toLocaleString (rev (filter isRefill (logs s))).
Proof.
  unfold generateReportContent, headerSection, conditionsSection,
    applicationsSection, refillsSection. cbv zeta.
  set (apps := filter isApplication (logs s)).
  set (refs := filter isRefill (logs s)).
  assert (forall t,
            (if (length refs =? 0)%nat
             then t ++ "No tank refill data to report." ++ LF ++ LF
             else forEach (refillEntry toLocaleString (length refs)) refs t)
            = t ++ match rev refs with
                   | [] => "No tank refill data to report." ++ LF ++ LF
                   | _ => concatStrings
                            (map (refillBlock toLocaleString) (rev (numbered (rev refs))))
                   end) as Hrefs.
  { intros t. destruct refs as [| r refs'] eqn:E.
    - reflexivity.
    - rewrite <- E. assert ((length refs =? 0)%nat = false) as -> by (rewrite E; reflexivity).
      rewrite (entries_rendering _ refillEntry_append).
      destruct (rev refs) eqn:Er; [| reflexivity].
      apply (f_equal (@length _)) in Er. rewrite length_rev, E in Er. discriminate. }
  assert (forall t,
            (if (length apps =? 0)%nat
             then t ++ "No road application data to report." ++ LF ++ LF
             else forEach (applicationEntry toLocaleString (length apps)) apps t)
            = t ++ match rev apps with
                   | [] => "No road application data to report." ++ LF ++ LF
                   | _ => concatStrings
                            (map (applicationBlock toLocaleString)
                               (rev (numbered (rev apps))))
                   end) as Happs.
  { intros t. destruct apps as [| a apps'] eqn:E.
    - reflexivity.
    - rewrite <- E. assert ((length apps =? 0)%nat = false) as -> by (rewrite E; reflexivity).
      rewrite (entries_rendering _ applicationEntry_append).
      destruct (rev apps) eqn:Er; [| reflexivity].
      apply (f_equal (@length _)) in Er. rewrite length_rev, E in Er. discriminate. }
  rewrite Hrefs, Happs.
  destruct (lastAppliedConditions (logs s)) as [c |];
    repeat rewrite append_assoc; reflexivity.
Qed.

End ReportFacts.

(* ================================================================== *)
(** * Partitions and sequence numbers *)







(* ================================================================== *)
(** * The conditions section *)









(* ================================================================== *)
(** * What the report depends on *)

(** C4, as stated, fails: the report prints the time of its generation, read
    from the clock at each call, so two calls on the same snapshot at
    different times differ. *)
Lemma report_varies_with_clock :
  let s := app (calls [LogApplication "Elk" (Fin 50) sampleMix sampleConditions]
                  (defaultWorld "op")) in
  generateReportContent decimal decimal decimal s 0 0
  <> generateReportContent decimal decimal decimal s 1000 1000.
Proof. vm_compute. discriminate. Qed.

(** C4, amended: the report is a function of the history, the operator id,
    the capacity and the two renderings of the clock in the line
    "Generated:": two calls that agree on these yield the same text, whatever
    else differs in the component, and the clock appears nowhere else in the
    text. *)
Theorem report_determined_by_snapshot_and_clock
    (toLocaleDateString toLocaleTimeString toLocaleString : Z -> string)
    (s s' : State) (now1 now2 now1' now2' : Z) :
  (logs s = logs s' -> userId s = userId s' ->
   startingGallons s = startingGallons s' ->
   toLocaleDateString now1 = toLocaleDateString now1' ->
   toLocaleTimeString now2 = toLocaleTimeString now2' ->
   generateReportContent toLocaleDateString toLocaleTimeString toLocaleString
     s now1 now2
   = generateReportContent toLocaleDateString toLocaleTimeString toLocaleString
       s' now1' now2') /\
  (exists before after,
     forall t1 t2,
       generateReportContent toLocaleDateString toLocaleTimeString toLocaleString
         s t1 t2
       = before ++ "Generated: " ++ toLocaleDateString t1 ++ " "
         ++ toLocaleTimeString t2 ++ LF ++ after).
Proof.
  split.
  - intros Hl Hu Hc Hd Ht. rewrite !report_layout. unfold headerSection.
    rewrite Hl, Hu, Hc, Hd, Ht. reflexivity.
  - exists (doubleRule ++ LF ++ "APPLICATION HISTORY REPORT" ++ LF ++ doubleRule ++ LF).
    exists ("User ID: " ++ match userId s with Some u => u | None => "null" end ++ LF
            ++ "Total Tank Capacity: " ++ toString (startingGallons s)
            ++ " gallons" ++ LF
            ++ "Total Road Applications: "
            ++ decimal (Z.of_nat (length (filter isApplication (logs s)))) ++ LF
            ++ "Total Refills: "
            ++ decimal (Z.of_nat (length (filter isRefill (logs s)))) ++ LF
            ++ doubleRule ++ LF ++ LF
            ++ conditionsSection (lastAppliedConditions (logs s))
            ++ applicationsSection toLocaleString
                 (rev (filter isApplication (logs s)))
            ++ refillsSection toLocaleString (rev (filter isRefill (logs s)))).
    intros t1 t2. rewrite report_layout. unfold headerSection.
    repeat rewrite append_assoc. reflexivity.
Qed.

Lemma report_determined_by_snapshot_and_clock_witness :
  let s := app (calls [LogApplication "Elk" (Fin 50) sampleMix sampleConditions]
                  (defaultWorld "op")) in
  let s' := setStatus "Print window opened." (setSelectedRoad "Abby" s) in
  generateReportContent dayOf secondOf decimal s 0 0
  = generateReportContent dayOf secondOf decimal s' 500 999.
Proof.
  intros s s'.
  destruct (report_determined_by_snapshot_and_clock dayOf secondOf decimal
              s s' 0 0 500 999) as [H _].
  apply H; vm_compute; reflexivity.
Defined.

(* ================================================================== *)
(** * The stored ratio and the applied quantity *)






(* ================================================================== *)
(** * Capacity changes and the staged mix *)

(** Two capacities that [Object.is] identifies give the same ratio. *)
Lemma calculateOzPerGal_same (a b : number) :
  same a b = true -> forall t, calculateOzPerGal t a = calculateOzPerGal t b.
Proof.
  intros H t.
  destruct a as [| | | a], b as [| | | b]; try discriminate H; try reflexivity.
  unfold same in H; cbn [ncompare] in H.
  destruct (a ?= b)%Q eqn:E; try discriminate H. apply Qeq_alt in E.
  unfold calculateOzPerGal.
  assert (ngt (Fin a) (Fin 0) = ngt (Fin b) (Fin 0)) as ->.
  { apply bool_eq_iff. unfold ngt. rewrite !nlt_Fin, E. reflexivity. }
  destruct (ngt (Fin b) (Fin 0)); [| reflexivity].
  do 2 f_equal.
  destruct t as [| | | q]; cbn [ndiv]; try reflexivity.
  - rewrite E. reflexivity.
  - rewrite E. reflexivity.
  - rewrite E. destruct (Qeq_bool b 0); [reflexivity |].
    unfold fin. f_equal. apply Qred_complete. rewrite E. reflexivity.
Qed.

Lemma receive_frame (docs : list Types.LogEntry) (s : State) :
  let s' := receive docs s in
  logs s' = rev docs /\ chemicalMix s' = chemicalMix s /\
  subscribed s' = subscribed s /\
  startingGallons s'
  = match lastOf docs with
    | Some l => Types.initialTankVolume l
    | None => startingGallons s
    end.
Proof.
  unfold receive.
  destruct (syncConditions_frame (onSnapshot docs s))
    as (E1 & E2 & _ & E4 & E5 & _ & E7 & _).
  cbv zeta. unfold subscribed. rewrite E1, E2, E4, E5, E7.
  unfold onSnapshot. destruct (lastOf docs); cbn; auto.
Qed.

Lemma recomputeMix_frame (s : State) :
  let s' := recomputeMix s in
  chemicalMix s' = map (withRatio (startingGallons s)) (chemicalMix s) /\
  logs s' = logs s /\ startingGallons s' = startingGallons s /\
  subscribed s' = subscribed s.
Proof. cbv zeta. repeat split; reflexivity. Qed.


(** After the effects of a capacity change have run, the staged mix is the
    previous one with every ratio taken against the capacity then in
    force. *)
Lemma rerender_mix (w : World) (before : number) :
  same before (startingGallons (app w)) = false ->
  let w' := rerender 2 before w in
  collection w' = collection w /\
  chemicalMix (app w')
  = map (withRatio (startingGallons (app w'))) (chemicalMix (app w)) /\
  (subscribed (app w) = true -> logs (app w') = rev (collection w)) /\
  (subscribed (app w) = false ->
   logs (app w') = logs (app w) /\
   startingGallons (app w') = startingGallons (app w)) /\
  (lastOf (collection w) = None ->
   startingGallons (app w') = startingGallons (app w)).
Proof.
  intros Hchanged. cbv zeta. cbn [rerender]. rewrite Hchanged.
  set (s1 := recomputeMix (app w)).
  destruct (recomputeMix_frame (app w)) as (M1 & L1 & C1 & S1).
  cbv zeta in M1, L1, C1, S1. fold s1 in M1, L1, C1, S1.
  destruct (subscribed s1) eqn:Hsub.
  - assert (subscribed (app w) = true) as Hsub' by (symmetry; exact S1).
    destruct (receive_frame (collection w) s1) as (RL & RM & RS & RC).
    cbv zeta in RL, RM, RS, RC.
    set (s2 := receive (collection w) s1) in *.
    cbn [app setApp collection].
    destruct (same (startingGallons s1) (startingGallons s2)) eqn:Hsame.
    + cbn [app setApp collection]. split; [reflexivity |].
      split.
      { rewrite RM, M1. apply map_ext. intros chem. unfold withRatio. f_equal.
        rewrite <- C1. apply calculateOzPerGal_same. assumption. }
      split; [intros _; exact RL |].
      split; [intros H; rewrite Hsub' in H; discriminate |].
      intros Hlast. rewrite RC, Hlast. exact C1.
    + set (s3 := recomputeMix s2).
      destruct (recomputeMix_frame s2) as (M3 & L3 & C3 & S3).
      cbv zeta in M3, L3, C3, S3. fold s3 in M3, L3, C3, S3.
      assert (subscribed s3 = true) as -> by (rewrite S3, RS; exact Hsub).
      destruct (receive_frame (collection w) s3) as (RL' & RM' & _ & RC').
      cbv zeta in RL', RM', RC'.
      cbn [app setApp collection].
      destruct (lastOf (collection w)) as [l |] eqn:Hlast.
      * split; [reflexivity |].
        split.
        { rewrite RM', M3, RM, M1, RC', RC, map_map. apply map_ext.
          intros chem. reflexivity. }
        split; [intros _; exact RL' |].
        split; [intros H; rewrite Hsub' in H; discriminate |].
        discriminate.
      * rewrite RC, same_refl in Hsame. discriminate.
  - assert (subscribed (app w) = false) as Hsub' by (symmetry; exact S1).
    cbn [app setApp collection].
    rewrite same_refl. cbn [app setApp collection].
    split; [reflexivity |].
    split; [rewrite M1, C1; reflexivity |].
    split; [intros H; rewrite Hsub' in H; discriminate |].
    split; [intros _; split; [exact L1 | exact C1] |].
    intros _. exact C1.
Qed.



(* ================================================================== *)
(** * The listener and the effects *)

Lemma State_ext (s s' : State) :
  db s = db s' -> userId s = userId s' -> isAuthReady s = isAuthReady s' ->
  logs s = logs s' -> startingGallons s = startingGallons s' ->
  gallonsUsedOnRoad s = gallonsUsedOnRoad s' -> gallonsLeft s = gallonsLeft s' ->
  gallonsToRefill s = gallonsToRefill s' -> chemicalMix s = chemicalMix s' ->
  currentChemical s = currentChemical s' -> chemicalSearch s = chemicalSearch s' ->
  roadSearch s = roadSearch s' -> selectedRoad s = selectedRoad s' ->
  weather s = weather s' -> temperature s = temperature s' ->
  windDirection s = windDirection s' -> windSpeed s = windSpeed s' ->
  status s = status s' -> s = s'.
Proof.
  destruct s, s'. cbn [db userId isAuthReady logs startingGallons
    gallonsUsedOnRoad gallonsLeft gallonsToRefill chemicalMix currentChemical
    chemicalSearch roadSearch selectedRoad weather temperature windDirection
    windSpeed status].
  intros; subst; reflexivity.
Qed.

(** The cells after a snapshot. *)
Lemma receive_fields (docs : list Types.LogEntry) (s : State) :
  let s' := receive docs s in
  (db s' = db s /\ userId s' = userId s /\ isAuthReady s' = isAuthReady s /\
   gallonsUsedOnRoad s' = gallonsUsedOnRoad s /\
   gallonsToRefill s' = gallonsToRefill s /\ chemicalMix s' = chemicalMix s /\
   currentChemical s' = currentChemical s /\
   chemicalSearch s' = chemicalSearch s /\ roadSearch s' = roadSearch s /\
   selectedRoad s' = selectedRoad s /\ status s' = status s) /\
  logs s' = rev docs /\
  gallonsLeft s'
  = match lastOf docs with
    | Some l => Types.gallonsLeft l
    | None => startingGallons s
    end /\
  startingGallons s'
  = match lastOf docs with
    | Some l => Types.initialTankVolume l
    | None => startingGallons s
    end /\
  weather s'
  = match lastAppliedConditions (rev docs) with
    | Some c => orString (Types.weather c) ""
    | None => weather s
    end /\
  temperature s'
  = match lastAppliedConditions (rev docs) with
    | Some c => orElse (Types.temperature c) (Fin 70)
    | None => temperature s
    end /\
  windDirection s'
  = match lastAppliedConditions (rev docs) with
    | Some c => orString (Types.windDirection c) "South West"
    | None => windDirection s
    end /\
  windSpeed s'
  = match lastAppliedConditions (rev docs) with
    | Some c => orElse (Types.windSpeed c) (Fin 5)
    | None => windSpeed s
    end.
Proof.
  cbv zeta. unfold receive, syncConditions.
  assert (logs (onSnapshot docs s) = rev docs) as ->
      by (unfold onSnapshot; destruct (lastOf docs); reflexivity).
  unfold onSnapshot.
  destruct (lastAppliedConditions (rev docs)) as [c |];
    destruct (lastOf docs) as [l |]; repeat split; reflexivity.
Qed.

(** X1: the derived state is read off the tail of the snapshot, and a
    snapshot delivered twice leaves the component as the first delivery did:
    the history is the snapshot newest first; with a last document the
    inventory and the capacity are its [gallonsLeft] and
    [initialTankVolume]; with an empty snapshot the capacity is kept and the
    inventory is set to it. *)
Theorem snapshot_sets_derived_state (docs : list Types.LogEntry) (s : State) :
  receive docs (receive docs s) = receive docs s /\
  logs (receive docs s) = rev docs /\
  (forall l, lastOf docs = Some l ->
     gallonsLeft (receive docs s) = Types.gallonsLeft l /\
     startingGallons (receive docs s) = Types.initialTankVolume l) /\
  (lastOf docs = None ->
     gallonsLeft (receive docs s) = startingGallons s /\
     startingGallons (receive docs s) = startingGallons s).
Proof.
  destruct (receive_fields docs s)
    as ((A1 & A2 & A3 & A4 & A5 & A6 & A7 & A8 & A9 & A10 & A11)
        & L & G & C & W & T & D & V).
  destruct (receive_fields docs (receive docs s))
    as ((B1 & B2 & B3 & B4 & B5 & B6 & B7 & B8 & B9 & B10 & B11)
        & L' & G' & C' & W' & T' & D' & V').
  cbv zeta in *.
  split; [| split; [exact L | split]].
  - apply State_ext; try congruence.
    + rewrite C', C. destruct (lastOf docs); reflexivity.
    + rewrite G', G, C. destruct (lastOf docs); reflexivity.
    + rewrite W', W. destruct (lastAppliedConditions (rev docs)); reflexivity.
    + rewrite T', T. destruct (lastAppliedConditions (rev docs)); reflexivity.
    + rewrite D', D. destruct (lastAppliedConditions (rev docs)); reflexivity.
    + rewrite V', V. destruct (lastAppliedConditions (rev docs)); reflexivity.
  - intros l E. rewrite G, C, E. split; reflexivity.
  - intros E. rewrite G, C, E. split; reflexivity.
Qed.

Lemma snapshot_sets_derived_state_witness :
  let docs := collection
                (calls [LogApplication "Elk" (Fin 50) sampleMix sampleConditions;
                        LogRefill (Fin 20)] (defaultWorld "op")) in
  gallonsLeft (receive docs initialState) = Fin 570 /\
  startingGallons (receive docs initialState) = Fin 600 /\
  gallonsLeft (receive [] (setStartingGallons (Fin 800) initialState)) = Fin 800.
Proof.
  intros docs.
  destruct (snapshot_sets_derived_state docs initialState) as (_ & _ & H & _).
  destruct (snapshot_sets_derived_state [] (setStartingGallons (Fin 800) initialState))
    as (_ & _ & _ & H').
  assert (exists l, lastOf docs = Some l /\ Types.gallonsLeft l = Fin 570
                    /\ Types.initialTankVolume l = Fin 600) as (l & El & Eg & Ec).
  { eexists. split; [vm_compute; reflexivity |]. split; reflexivity. }
  destruct (H l El) as [H1 H2].
  split; [rewrite H1; exact Eg |]. split; [rewrite H2; exact Ec |].
  exact (proj1 (H' eq_refl)).
Defined.

Lemma rerender_stops (w : World) (before : number) (n : nat) :
  same before (startingGallons (app w)) = true -> rerender n before w = w.
Proof. intros H. destruct n; cbn [rerender]; [| rewrite H]; reflexivity. Qed.

(** X2: the chain of effects that a capacity change starts (the mix is
    recomputed, the listener attached anew, its snapshot may set the capacity
    again) settles within two rounds: further rounds change nothing. *)
Theorem effects_settle_in_two_rounds (n : nat) (before : number) (w : World) :
  rerender (S (S n)) before w = rerender 2 before w.
Proof.
  cbn [rerender].
  destruct (same before (startingGallons (app w))); [reflexivity |].
  set (s1 := recomputeMix (app w)).
  destruct (recomputeMix_frame (app w)) as (_ & _ & C1 & S1).
  cbv zeta in C1, S1. fold s1 in C1, S1.
  destruct (subscribed s1) eqn:Hsub.
  - destruct (receive_frame (collection w) s1) as (_ & _ & RS & RC).
    cbv zeta in RS, RC. set (s2 := receive (collection w) s1) in *.
    cbn [app setApp collection].
    destruct (same (startingGallons s1) (startingGallons s2)) eqn:Hsame;
      [reflexivity |].
    set (s3 := recomputeMix s2).
    destruct (recomputeMix_frame s2) as (_ & _ & C3 & S3).
    cbv zeta in C3, S3. fold s3 in C3, S3.
    assert (subscribed s3 = true) as -> by (rewrite S3, RS; exact Hsub).
    destruct (receive_frame (collection w) s3) as (_ & _ & _ & RC').
    cbv zeta in RC'.
    apply rerender_stops. cbn [app setApp].
    destruct (lastOf (collection w)) as [l |].
    + rewrite C3, RC, RC'. apply same_refl.
    + rewrite RC' . apply same_refl.
  - cbn [app setApp collection]. rewrite same_refl. reflexivity.
Qed.

Lemma recomputeMix_fields (s : State) :
  let s' := recomputeMix s in
  gallonsLeft s' = gallonsLeft s /\ startingGallons s' = startingGallons s /\
  logs s' = logs s /\ subscribed s' = subscribed s /\ ready s' = ready s /\
  status s' = status s.
Proof. cbv zeta. repeat split; reflexivity. Qed.

(** The inventory after the effects of a capacity change. *)
Lemma rerender_inventory (w : World) (before : number) :
  same before (startingGallons (app w)) = false ->
  let w' := rerender 2 before w in
  (subscribed (app w) = true ->
   logs (app w') = rev (collection w) /\
   startingGallons (app w')
   = match lastOf (collection w) with
     | Some l => Types.initialTankVolume l
     | None => startingGallons (app w)
     end /\
   gallonsLeft (app w')
   = match lastOf (collection w) with
     | Some l => Types.gallonsLeft l
     | None => startingGallons (app w)
     end) /\
  (subscribed (app w) = false ->
   startingGallons (app w') = startingGallons (app w) /\
   gallonsLeft (app w') = gallonsLeft (app w)).
Proof.
  intros Hchanged. cbv zeta. cbn [rerender]. rewrite Hchanged.
  set (s1 := recomputeMix (app w)).
  destruct (recomputeMix_fields (app w)) as (G1 & C1 & L1 & S1 & _).
  cbv zeta in G1, C1, L1, S1. fold s1 in G1, C1, L1, S1.
  destruct (subscribed (app w)) eqn:Hsub; rewrite S1.
  - split; [intros _ | discriminate].
    destruct (receive_fields (collection w) s1) as (_ & RL & RG & RC & _).
    cbv zeta in RL, RG, RC. set (s2 := receive (collection w) s1) in *.
    cbn [app setApp collection].
    destruct (same (startingGallons s1) (startingGallons s2)) eqn:Hsame.
    + cbn [app setApp]. rewrite RL, RG, RC, C1. auto.
    + set (s3 := recomputeMix s2).
      destruct (recomputeMix_fields s2) as (_ & C3 & _ & S3 & _).
      cbv zeta in C3, S3. fold s3 in C3, S3.
      assert (subscribed s2 = true) as Hs2.
      { destruct (receive_frame (collection w) s1) as (_ & _ & RS & _).
        cbv zeta in RS. fold s2 in RS. rewrite RS, S1. reflexivity. }
      rewrite S3, Hs2.
      destruct (receive_fields (collection w) s3) as (_ & RL' & RG' & RC' & _).
      cbv zeta in RL', RG', RC'.
      cbn [app setApp]. rewrite RL', RG', RC'.
      destruct (lastOf (collection w)) as [l |]; [auto |].
      rewrite RC, same_refl in Hsame. discriminate.
  - split; [discriminate | intros _].
    cbn [app setApp collection]. rewrite same_refl. cbn [app setApp]. auto.
Qed.

(** X3: the last logged capacity wins.  With a history, a capacity typed
    into the field does not last: the listener, attached anew by the change,
    puts back the capacity and the inventory of the last log, and the store
    is not written. *)
Theorem capacity_edit_reverts_to_last_log (w : World) (value : string)
    (l : Types.LogEntry) :
  subscribed (app w) = true -> lastOf (collection w) = Some l ->
  same (startingGallons (app w)) (orElse (parseFloat value) (Fin 1)) = false ->
  let w' := onCapacityChange value w in
  startingGallons (app w') = Types.initialTankVolume l /\
  gallonsLeft (app w') = Types.gallonsLeft l /\
  logs (app w') = rev (collection w) /\ collection w' = collection w.
Proof.
  intros Hsub Hlast Hchanged. cbv zeta. unfold onCapacityChange. cbv zeta.
  set (val := orElse (parseFloat value) (Fin 1)) in *.
  set (s' := setGallonsLeft (min val (gallonsLeft (app w)))
               (setStartingGallons val (app w))).
  assert (startingGallons s' = val) as Ecap by reflexivity.
  assert (subscribed s' = subscribed (app w)) as Esub by reflexivity.
  destruct (rerender_inventory (setApp s' w) (startingGallons (app w)))
    as [H _]; [cbn [app setApp]; rewrite Ecap; exact Hchanged |].
  destruct (rerender_mix (setApp s' w) (startingGallons (app w)))
    as (Hc & _); [cbn [app setApp]; rewrite Ecap; exact Hchanged |].
  cbn [app setApp collection] in H, Hc. clearbody s'.
  rewrite Esub in H. destruct (H Hsub) as (HL & HC & HG).
  rewrite Hlast in HC, HG. auto.
Qed.

Lemma capacity_edit_reverts_to_last_log_witness :
  let w := call (LogApplication "Elk" (Fin 50) sampleMix sampleConditions)
             (defaultWorld "op") in
  startingGallons (app (onCapacityChange "800" w)) = Fin 600 /\
  gallonsLeft (app (onCapacityChange "800" w)) = Fin 550.
Proof.
  intros w.
  assert (exists l, lastOf (collection w) = Some l
                    /\ Types.initialTankVolume l = Fin 600
                    /\ Types.gallonsLeft l = Fin 550) as (l & El & Ec & Eg).
  { eexists. split; [vm_compute; reflexivity |]. split; reflexivity. }
  assert (subscribed (app w) = true) as Hsub by (vm_compute; reflexivity).
  assert (same (startingGallons (app w)) (orElse (parseFloat "800") (Fin 1)) = false)
    as Hch by (vm_compute; reflexivity).
  destruct (capacity_edit_reverts_to_last_log w "800" l Hsub El Hch)
    as (H1 & H2 & _).
  rewrite H1, H2. split; assumption.
Defined.



(* ================================================================== *)
(** * Sign-in, start-up and reset *)

Lemma notify_unchanged_capacity (w : World) :
  subscribed (app w) = true ->
  startingGallons (receive (collection w) (app w)) = startingGallons (app w) ->
  notify w = setApp (receive (collection w) (app w)) w.
Proof.
  intros Hsub Hcap. unfold notify. rewrite Hsub.
  apply rerender_stops. cbn [app setApp]. rewrite Hcap. apply same_refl.
Qed.

Lemma World_ext (w w' : World) :
  app w = app w' -> collection w = collection w' -> online w = online w' ->
  serverTime w = serverTime w' -> nextId w = nextId w' -> w = w'.
Proof.
  destruct w, w'. cbn [app collection online serverTime nextId].
  intros; subst; reflexivity.
Qed.

Lemma ready_receive (docs : list Types.LogEntry) (s : State) :
  ready (receive docs s) = ready s.
Proof.
  destruct (receive_fields docs s) as ((A1 & A2 & A3 & _) & _).
  cbv zeta in A1, A2, A3. unfold ready. rewrite A1, A2, A3. reflexivity.
Qed.

Lemma ready_rerender (n : nat) :
  forall before w, ready (app (rerender n before w)) = ready (app w).
Proof.
  induction n as [| n IH]; intros before w; cbn [rerender]; [reflexivity |].
  destruct (same before (startingGallons (app w))); [reflexivity |].
  rewrite IH. cbn [app setApp].
  destruct (subscribed (recomputeMix (app w)));
    [rewrite ready_receive |]; reflexivity.
Qed.

Lemma ready_notify (w : World) : ready (app (notify w)) = ready (app w).
Proof.
  unfold notify. destruct (subscribed (app w)); [| reflexivity].
  rewrite ready_rerender. cbn [app setApp]. apply ready_receive.
Qed.

Lemma collection_rerender (n : nat) :
  forall before w, collection (rerender n before w) = collection w.
Proof.
  induction n as [| n IH]; intros before w; cbn [rerender]; [reflexivity |].
  destruct (same before (startingGallons (app w))); [reflexivity |].
  rewrite IH. reflexivity.
Qed.

Lemma collection_notify (w : World) : collection (notify w) = collection w.
Proof.
  unfold notify. destruct (subscribed (app w)); [| reflexivity].
  rewrite collection_rerender. reflexivity.
Qed.

(** The inventory after a notification. *)
Lemma notify_inventory (w : World) :
  subscribed (app w) = true ->
  logs (app (notify w)) = rev (collection w) /\
  startingGallons (app (notify w))
  = match lastOf (collection w) with
    | Some l => Types.initialTankVolume l
    | None => startingGallons (app w)
    end /\
  gallonsLeft (app (notify w))
  = match lastOf (collection w) with
    | Some l => Types.gallonsLeft l
    | None => startingGallons (app w)
    end.
Proof.
  intros Hsub. unfold notify. rewrite Hsub.
  destruct (receive_fields (collection w) (app w)) as (_ & L & G & C & _).
  cbv zeta in L, G, C.
  destruct (same (startingGallons (app w))
              (startingGallons (receive (collection w) (app w)))) eqn:Hsame.
  - rewrite rerender_stops by exact Hsame. cbn [app setApp].
    rewrite L, G, C. auto.
  - destruct (rerender_inventory (setApp (receive (collection w) (app w)) w)
                (startingGallons (app w)) Hsame) as [H _].
    cbn [app setApp collection] in H.
    assert (subscribed (receive (collection w) (app w)) = true) as Hs'.
    { destruct (receive_frame (collection w) (app w)) as (_ & _ & RS & _).
      cbv zeta in RS. rewrite RS. exact Hsub. }
    destruct (H Hs') as (HL & HC & HG).
    rewrite HL, HC, HG, C.
    destruct (lastOf (collection w)); auto.
Qed.

(** X5: a session that starts over a stored history resumes from its last
    event: once the operator is signed in the history is the stored one,
    newest first, and the inventory and the capacity are those of the last
    stored event; over an empty store the component is in its default state,
    600 of 600 gallons. *)
Theorem startup_resumes_from_last_event (docs : list Types.LogEntry)
    (uid : string) :
  isEmpty uid = false ->
  let w := onAuthStateChanged (Some uid) None (initialize true (mountWorld docs)) in
  ready (app w) = true /\ logs (app w) = rev docs /\ collection w = docs /\
  (forall l, lastOf docs = Some l ->
     gallonsLeft (app w) = Types.gallonsLeft l /\
     startingGallons (app w) = Types.initialTankVolume l) /\
  (docs = [] -> w = defaultWorld uid).
Proof.
  intros Huid. cbv zeta.
  unfold onAuthStateChanged, initialize, noUser. cbv zeta. rewrite Huid.
  cbn [app setApp mountWorld userId initialState andb].
  set (s := updateStatus "System Ready. Load current inventory."
              (setIsAuthReady true (setUserId (Some uid) (setDb true initialState)))).
  assert (subscribed s = true) as Hsub
      by (unfold subscribed; cbn; rewrite Huid; reflexivity).
  assert (ready s = true) as Hready
      by (unfold ready; cbn; rewrite Huid; reflexivity).
  rewrite Hsub.
  set (w0 := setApp s (setApp (setDb true initialState) (mountWorld docs))).
  destruct (notify_inventory w0 Hsub) as (L & C & G).
  change (collection w0) with docs in L, C, G.
  change (app w0) with s in C, G.
  change (userId (setDb true initialState)) with (@None string).
  cbn [andb].
  split; [rewrite ready_notify; exact Hready |].
  split; [exact L |]. split; [apply collection_notify |].
  split.
  - intros l E. rewrite E in C, G. auto.
  - intros ->. unfold notify.
    change (subscribed (app w0)) with (subscribed s). rewrite Hsub.
    rewrite rerender_stops by reflexivity.
    apply World_ext; reflexivity.
Qed.

Lemma startup_resumes_from_last_event_witness :
  let docs := collection
                (calls [LogApplication "Elk" (Fin 50) sampleMix sampleConditions;
                        LogRefill (Fin 20)] (defaultWorld "op")) in
  let w := onAuthStateChanged (Some "op") None (initialize true (mountWorld docs)) in
  ready (app w) = true /\ gallonsLeft (app w) = Fin 570 /\
  onAuthStateChanged (Some "op") None (initialize true (mountWorld []))
  = defaultWorld "op".
Proof.
  intros docs w.
  destruct (startup_resumes_from_last_event docs "op" eq_refl)
    as (H1 & _ & _ & H2 & _).
  destruct (startup_resumes_from_last_event [] "op" eq_refl)
    as (_ & _ & _ & _ & H3).
  assert (exists l, lastOf docs = Some l /\ Types.gallonsLeft l = Fin 570)
    as (l & El & Eg).
  { eexists. split; [vm_compute; reflexivity | reflexivity]. }
  split; [exact H1 |]. split; [| exact (H3 eq_refl)].
  destruct (H2 l El) as [E _]. subst w. rewrite E. exact Eg.
Defined.

Lemma subscribed_receive (docs : list Types.LogEntry) (s : State) :
  subscribed (receive docs s) = subscribed s.
Proof.
  destruct (receive_frame docs s) as (_ & _ & RS & _). exact RS.
Qed.

Lemma subscribed_rerender (n : nat) :
  forall before w, subscribed (app (rerender n before w)) = subscribed (app w).
Proof.
  induction n as [| n IH]; intros before w; cbn [rerender]; [reflexivity |].
  destruct (same before (startingGallons (app w))); [reflexivity |].
  rewrite IH. cbn [app setApp].
  destruct (subscribed (recomputeMix (app w)));
    [rewrite subscribed_receive |]; reflexivity.
Qed.

Lemma subscribed_notify (w : World) :
  subscribed (app (notify w)) = subscribed (app w).
Proof.
  unfold notify. destruct (subscribed (app w)) eqn:E; [| exact E].
  rewrite subscribed_rerender. cbn [app setApp].
  rewrite subscribed_receive. exact E.
Qed.

(** X6: nothing is written before the session is ready or while the store
    rejects writes: [logApplication] and [logRefill] then only set the status
    message, whatever the form holds; and a sign-in that yields no user
    leaves the component announcing "System Ready" while every refill is
    refused as still initializing. *)
Theorem no_append_unless_ready_and_online (w : World) :
  (ready (app w) = false \/ online w = false ->
   (exists message, logApplication w = rejected w message) /\
   (exists message, handleRefill w = rejected w message)) /\
  (userId (app w) = None ->
   let w' := onAuthStateChanged None None w in
   isAuthReady (app w') = true /\
   status (app w') = "System Ready. Load current inventory." /\
   ready (app w') = false /\ collection w' = collection w /\
   forall x, performRefill x w' = rejected w' Msg.NotReady).
Proof.
  split.
  - intros H. split.
    + destruct (logApplication_cases w) as [E | E]; [exact E |].
      cbv zeta in E. destruct E as (_ & _ & _ & _ & _ & Hr & Ho).
      destruct H as [H | H]; congruence.
    + destruct (handleRefill_cases w) as [E | E]; [exact E |].
      cbv zeta in E. destruct E as (_ & Hr & Ho & _).
      destruct H as [H | H]; congruence.
  - intros Hnone. cbv zeta. unfold onAuthStateChanged, noUser. cbv zeta.
    rewrite Hnone. cbn [andb].
    set (s := updateStatus "System Ready. Load current inventory."
                (setIsAuthReady true (setUserId None (app w)))).
    assert (ready s = false) as Hready
        by (unfold ready; cbn; apply andb_false_r).
    cbn [app setApp collection].
    repeat split; try reflexivity; try exact Hready.
    intros x. unfold performRefill. cbn [app setApp]. rewrite Hready. reflexivity.
Qed.

Lemma no_append_unless_ready_and_online_witness :
  let w := setOnline false
             (setApp (fillApplication "Elk" (Fin 50) sampleMix sampleConditions
                        (app (defaultWorld "op"))) (defaultWorld "op")) in
  collection (logApplication w) = [] /\
  status (app (logApplication w)) = Msg.WriteFailed /\
  status (app (performRefill (Fin 20)
                 (onAuthStateChanged None None (initialize true (mountWorld [])))))
  = Msg.NotReady.
Proof.
  intros w.
  destruct (no_append_unless_ready_and_online w) as [H _].
  destruct (no_append_unless_ready_and_online (initialize true (mountWorld [])))
    as [_ H'].
  destruct (H (or_intror eq_refl)) as [[m E] _].
  destruct (H' eq_refl) as (_ & _ & _ & _ & Hx).
  split; [rewrite E; reflexivity |].
  split; [vm_compute; reflexivity |].
  rewrite Hx. reflexivity.
Defined.

(** The outcomes of [confirmResetHistory]. *)
Lemma confirmResetHistory_outcomes (w : World) :
  let w' := confirmResetHistory w in
  (subscribed (app w) = false -> w' = w) /\
  (subscribed (app w) = true -> online w = false ->
   collection w' = collection w /\ logs (app w') = logs (app w) /\
   gallonsLeft (app w') = gallonsLeft (app w) /\
   startingGallons (app w') = startingGallons (app w) /\
   status (app w') = "ERROR: Could not clear history.") /\
  (subscribed (app w) = true -> online w = true ->
   collection w' = [] /\ logs (app w') = [] /\
   gallonsLeft (app w') = Fin 600 /\ startingGallons (app w') = Fin 600 /\
   chemicalMix (app w') = [] /\
   status (app w') = "History cleared. Ready for new job!" /\
   ready (app w') = ready (app w)).
Proof.
  cbv zeta. unfold confirmResetHistory. cbv zeta.
  split; [intros ->; reflexivity |].
  split.
  - intros -> Hoff. cbn [negb online setApp]. rewrite Hoff.
    repeat split; reflexivity.
  - intros Hsub Hon. rewrite Hsub. cbn [negb online setApp]. rewrite Hon.
    match goal with |- context [notify ?r] => set (w1 := r) end.
    assert (subscribed (app w1) = true) as Hsub1 by exact Hsub.
    destruct (notify_inventory w1 Hsub1) as (L2 & C2 & G2).
    pose proof (collection_notify w1) as Ec2.
    pose proof (subscribed_notify w1) as Es2. rewrite Hsub1 in Es2.
    pose proof (ready_notify w1) as Er2.
    change (collection w1) with (@nil Types.LogEntry) in L2, Ec2.
    change (ready (app w1)) with (ready (app w)) in Er2.
    set (w2 := notify w1) in *. clearbody w2.
    set (s3 := setWindSpeed (Fin 5) _).
    assert (startingGallons s3 = Fin 600) as E3c by reflexivity.
    assert (gallonsLeft s3 = Fin 600) as E3g by reflexivity.
    assert (chemicalMix s3 = []) as E3m by reflexivity.
    assert (logs s3 = logs (app w2)) as E3l by reflexivity.
    assert (subscribed s3 = subscribed (app w2)) as E3s by reflexivity.
    assert (ready s3 = ready (app w2)) as E3r by reflexivity.
    clearbody s3.
    set (w3 := rerender 2 (startingGallons (app w2)) (setApp s3 w2)).
    assert (collection w3 = []) as Ec3
        by (unfold w3; rewrite collection_rerender; exact Ec2).
    assert (ready (app w3) = ready (app w)) as Hr
        by (unfold w3; rewrite ready_rerender; cbn [app setApp];
            rewrite E3r; exact Er2).
    assert (logs (app w3) = [] /\ gallonsLeft (app w3) = Fin 600 /\
            startingGallons (app w3) = Fin 600 /\ chemicalMix (app w3) = [])
      as (HL & HG & HC & HM).
    { destruct (same (startingGallons (app w2)) (startingGallons s3)) eqn:Hsame.
      - unfold w3. rewrite rerender_stops by (cbn [app setApp]; exact Hsame).
        cbn [app setApp]. rewrite E3l, L2, E3g, E3c, E3m. auto.
      - destruct (rerender_inventory (setApp s3 w2) (startingGallons (app w2)))
          as [H _]; [cbn [app setApp]; exact Hsame |].
        destruct (rerender_mix (setApp s3 w2) (startingGallons (app w2)))
          as (_ & Hm & _); [cbn [app setApp]; exact Hsame |].
        cbn [app setApp collection] in H, Hm. fold w3 in H, Hm.
        rewrite E3s, Ec2 in H. destruct (H Es2) as (HL & HC & HG).
        cbn [lastOf length nth_error Nat.sub] in HC, HG.
        rewrite E3m in Hm. cbn [map] in Hm.
        rewrite HL, HG, HC, E3c, Hm. auto. }
    clearbody w3.
    split; [exact Ec3 |]. split; [exact HL |]. split; [exact HG |].
    split; [exact HC |]. split; [exact HM |]. split; [reflexivity |].
    exact Hr.
Qed.



(* ================================================================== *)
(** * What every sequence of actions preserves *)

(** The actions that only edit the form. *)
Lemma act_form (a : Action) (w : World) :
  match a with
  | ChemicalAdd | ChemicalRemove _ | CapacityInput _
  | LogEntryClick | RefillClick | ResetConfirm => True
  | _ =>
      collection (act a w) = collection w /\
      logs (app (act a w)) = logs (app w) /\
      startingGallons (app (act a w)) = startingGallons (app w) /\
      gallonsLeft (app (act a w)) = gallonsLeft (app w) /\
      chemicalMix (app (act a w)) = chemicalMix (app w)
  end.
Proof. destruct a; cbn [act]; try exact I; repeat split; reflexivity. Qed.

Lemma staged_frame (s s' : State) :
  chemicalMix s' = chemicalMix s -> startingGallons s' = startingGallons s ->
  staged s -> staged s'.
Proof. unfold staged. intros -> ->. exact (fun H => H). Qed.

Lemma handleChemicalAdd_fields (s : State) :
  logs (handleChemicalAdd s) = logs s /\
  startingGallons (handleChemicalAdd s) = startingGallons s /\
  gallonsLeft (handleChemicalAdd s) = gallonsLeft s.
Proof.
  unfold handleChemicalAdd. cbv zeta.
  destruct (isEmpty (fst (currentChemical s)) || isNaN (reparse (snd (currentChemical s)))
            || nle (reparse (snd (currentChemical s))) (Fin 0));
    repeat split; reflexivity.
Qed.

Lemma handleChemicalAdd_staged (s : State) : staged s -> staged (handleChemicalAdd s).
Proof.
  intros H. unfold handleChemicalAdd. cbv zeta. unfold reparse.
  destruct (isEmpty (fst (currentChemical s))) eqn:Hname; cbn [orb].
  - apply (staged_frame s); [reflexivity | reflexivity | assumption].
  - destruct (isNaN (snd (currentChemical s))
              || nle (snd (currentChemical s)) (Fin 0)) eqn:Hoz.
    + apply (staged_frame s); [reflexivity | reflexivity | assumption].
    + unfold staged.
      cbn [chemicalMix startingGallons setChemicalSearch setCurrentChemical
           setChemicalMix].
      apply Forall_app. split; [exact H |].
      constructor; [| constructor].
      cbn [Types.ozPerGal Types.totalOz Types.name].
      split; [reflexivity |]. split; [assumption |].
      destruct (valid_volume _ Hoz) as [-> | (q & -> & Hq)]; [reflexivity |].
      unfold ngt. apply nlt_Fin. assumption.
Qed.

Lemma removeAt_Forall {A : Type} (P : A -> Prop) (l : list A) :
  Forall P l -> forall index, Forall P (removeAt index l).
Proof.
  induction 1 as [| x l Hx Hl IH]; intros index; cbn [removeAt].
  - destruct index; constructor.
  - destruct index; [assumption | constructor; [assumption | apply IH]].
Qed.

Lemma staged_recomputed (s : State) (before : number) (mix : list Types.Chemical) :
  Forall (fun chem =>
            Types.ozPerGal chem = calculateOzPerGal (Types.totalOz chem) before /\
            isEmpty (Types.name chem) = false /\
            ngt (Types.totalOz chem) (Fin 0) = true) mix ->
  chemicalMix s = map (withRatio (startingGallons s)) mix -> staged s.
Proof.
  intros H E. unfold staged. rewrite E. clear E.
  induction H as [| chem mix (_ & Hn & Ht) _ IH]; cbn [map]; constructor.
  - cbn [withRatio Types.ozPerGal Types.totalOz Types.name]. auto.
  - exact IH.
Qed.

Lemma onCapacityChange_ledger (value : string) (w : World) :
  Ledger w -> Ledger (onCapacityChange value w).
Proof.
  intros (Hl & Hs & Hf & Hp). unfold onCapacityChange. cbv zeta.
  set (val := orElse (parseFloat value) (Fin 1)).
  set (w0 := setApp (setGallonsLeft (min val (gallonsLeft (app w)))
                       (setStartingGallons val (app w))) w).
  assert (collection w0 = collection w) as Ec by reflexivity.
  assert (logs (app w0) = logs (app w)) as El by reflexivity.
  assert (chemicalMix (app w0) = chemicalMix (app w)) as Em by reflexivity.
  assert (startingGallons (app w0) = val) as Eg by reflexivity.
  destruct (same (startingGallons (app w)) (startingGallons (app w0))) eqn:Hsame.
  - rewrite (rerender_stops _ _ 2 Hsame). unfold Ledger.
    rewrite Ec, El. repeat split; try assumption.
    unfold staged in *. rewrite Em.
    eapply Forall_impl; [| exact Hs]. cbv beta. intros chem (Hr & Hn & Ht).
    repeat split; try assumption. rewrite Hr.
    apply calculateOzPerGal_same. assumption.
  - destruct (rerender_mix w0 _ Hsame) as (Rc & Rm & Rl1 & Rl2 & _).
    cbv zeta in Rc, Rm, Rl1, Rl2. unfold Ledger.
    rewrite Rc, Ec. repeat split; try assumption.
    + destruct (subscribed (app w0)) eqn:Hsub.
      * rewrite (Rl1 eq_refl). rewrite Ec. reflexivity.
      * destruct (Rl2 eq_refl) as [-> _]. rewrite El. assumption.
    + apply (staged_recomputed _ (startingGallons (app w)) (chemicalMix (app w)));
        [exact Hs |].
      rewrite Rm, Em. reflexivity.
Qed.

(** The staged mix and the session across a write. *)
Lemma logApplication_mix (w : World) :
  chemicalMix (app (logApplication w)) = chemicalMix (app w).
Proof.
  destruct (logApplication_cases w) as [[m E] | H].
  - rewrite E. reflexivity.
  - cbv zeta in H. destruct H as (Hroad & Hvol & Hinv & Hmix & Hcond & Hready & Hon).
    unfold logApplication. cbv zeta. fold (applicationDoc (app w)). unfold reparse.
    unfold blank in Hroad. rewrite Hroad, Hvol, Hinv, Hcond, Hready.
    assert ((length (chemicalMix (app w)) =? 0)%nat = false) as ->.
    { destruct (chemicalMix (app w)); [congruence | reflexivity]. }
    cbn [negb].
    destruct (addDoc_appends (applicationDoc (app w)) w Hon
                (ready_subscribed _ Hready) eq_refl) as (w' & -> & _ & _ & Ea).
    destruct (receive_frame (collection w ++ [storedAs (applicationDoc (app w)) w])
                (app w)) as (_ & Rm & _).
    cbv zeta in Rm. rewrite <- Ea in Rm. exact Rm.
Qed.

Lemma performRefill_mix (w : World) (x : number) :
  chemicalMix (app (performRefill x w)) = chemicalMix (app w).
Proof.
  unfold performRefill. cbv zeta.
  destruct (ready (app w)) eqn:Hready; cbn [negb]; [| reflexivity].
  set (currentTotal := nadd (gallonsLeft (app w)) x).
  set (newGallonsLeft := min (startingGallons (app w)) currentTotal).
  set (actualAdded := nsub newGallonsLeft (gallonsLeft (app w))).
  fold (refillDoc (app w) actualAdded newGallonsLeft).
  destruct (nle actualAdded (Fin (1 # 100))); [reflexivity |].
  destruct (online w) eqn:Hon.
  - destruct (addDoc_appends (refillDoc (app w) actualAdded newGallonsLeft) w Hon
                (ready_subscribed _ Hready) eq_refl) as (w' & -> & _ & _ & Ea).
    destruct (receive_frame
                (collection w ++ [storedAs (refillDoc (app w) actualAdded newGallonsLeft) w])
                (app w)) as (_ & Rm & _).
    cbv zeta in Rm. rewrite <- Ea in Rm. exact Rm.
  - rewrite (addDoc_offline _ _ Hon). reflexivity.
Qed.

Lemma handleRefill_mix (w : World) :
  chemicalMix (app (handleRefill w)) = chemicalMix (app w).
Proof.
  unfold handleRefill. cbv zeta.
  destruct (isNaN (reparse (gallonsToRefill (app w)))
            || nle (reparse (gallonsToRefill (app w))) (Fin 0));
    [reflexivity | apply performRefill_mix].
Qed.

Lemma staged_frozen (s : State) (doc : Types.LogEntry) :
  staged s -> Types.chemicalMix doc = chemicalMix s ->
  Types.initialTankVolume doc = startingGallons s -> frozen doc.
Proof.
  unfold staged, frozen. intros H -> ->.
  eapply Forall_impl; [| exact H]. cbv beta. intros chem (Hr & _). exact Hr.
Qed.

Lemma or_false_l (a b : bool) : a || b = false -> a = false.
Proof. destruct a; [discriminate | reflexivity]. Qed.

Lemma or_false_r (a b : bool) : a || b = false -> b = false.
Proof. destruct a, b; try discriminate; reflexivity. Qed.

Lemma negb_false (a : bool) : negb a = false -> a = true.
Proof. destruct a; [reflexivity | discriminate]. Qed.

Lemma logApplication_ledger (w : World) : Ledger w -> Ledger (logApplication w).
Proof.
  intros (Hl & Hs & Hf & Hp).
  assert (staged (app (logApplication w))) as Hs'.
  { destruct (logApplication_cases w) as [[m E] | H].
    - rewrite E. apply (staged_frame (app w)); [reflexivity | reflexivity | assumption].
    - cbv zeta in H. destruct H as (Hroad & Hvol & Hinv & Hmix & Hcond & Hready & Hon).
      destruct (logApplication_appends w Hroad Hvol Hinv Hmix Hcond Hready Hon)
        as (_ & _ & _ & Eg & _).
      apply (staged_frame (app w)); [apply logApplication_mix | exact Eg | assumption]. }
  destruct (logApplication_cases w) as [[m E] | H].
  - unfold Ledger. split; [rewrite E; exact Hl |].
    split; [exact Hs' |]. rewrite E. split; assumption.
  - cbv zeta in H. destruct H as (Hroad & Hvol & Hinv & Hmix & Hcond & Hready & Hon).
    destruct (logApplication_appends w Hroad Hvol Hinv Hmix Hcond Hready Hon)
      as (Ec & El & _).
    unfold Ledger. split; [exact El |]. split; [exact Hs' |]. rewrite Ec.
    split; apply Forall_app; (split; [assumption |]); (constructor; [| constructor]).
    + apply (staged_frozen (app w)); [exact Hs | reflexivity | reflexivity].
    + left. unfold applicationShaped.
      cbn [storedAs applicationDoc Types.roadName Types.chemicalMix
           Types.weatherConditions].
      split; [exact Hroad |]. split; [exact Hmix |].
      eexists. split; [reflexivity |].
      cbn [Types.weather Types.temperature Types.windDirection Types.windSpeed].
      unfold reparse.
      pose proof (or_false_r _ _ Hcond) as H4.
      pose proof (or_false_l _ _ Hcond) as H123.
      pose proof (or_false_r _ _ H123) as H3.
      pose proof (or_false_l _ _ H123) as H12.
      pose proof (or_false_r _ _ H12) as H2.
      pose proof (or_false_l _ _ H12) as H1.
      repeat split; try assumption; apply negb_false; assumption.
Qed.

Lemma refillClick_ledger (w : World) : Ledger w -> Ledger (refillClick w).
Proof.
  intros HL. unfold refillClick.
  destruct (nle (gallonsToRefill (app w)) (Fin 0)); [exact HL |].
  destruct HL as (Hl & Hs & Hf & Hp).
  destruct (handleRefill_cases w) as [[m E] | H].
  - rewrite E. unfold Ledger. repeat split; try assumption.
  - cbv zeta in H. destruct H as (Hvol & Hready & Hon & Hle & E).
    assert (staged (app (handleRefill w))) as Hs'.
    { apply (staged_frame (app w)); [apply handleRefill_mix | | assumption].
      rewrite E.
      destruct (performRefill_outcomes w (gallonsToRefill (app w)) Hready) as [_ Hok].
      cbv zeta in Hok. destruct (Hok Hle Hon) as (_ & _ & _ & Eg & _). exact Eg. }
    unfold Ledger. split; [| split; [exact Hs' |]]; rewrite E;
      destruct (performRefill_outcomes w (gallonsToRefill (app w)) Hready) as [_ Hok];
      cbv zeta in Hok; destruct (Hok Hle Hon) as (Ec & El & _).
    + exact El.
    + rewrite Ec.
      split; apply Forall_app; (split; [assumption |]); (constructor; [| constructor]).
      * unfold frozen. cbn [storedAs refillDoc Types.chemicalMix]. constructor.
      * right. repeat split; reflexivity.
Qed.

Lemma confirmResetHistory_ledger (w : World) :
  Ledger w -> Ledger (confirmResetHistory w).
Proof.
  intros HL. destruct (confirmResetHistory_outcomes w) as (H1 & H2 & H3).
  cbv zeta in H1, H2, H3.
  destruct (subscribed (app w)) eqn:Hsub.
  - destruct (online w) eqn:Hon.
    + destruct (H3 eq_refl eq_refl) as (Ec & El & _ & _ & Em & _).
      unfold Ledger, staged. rewrite Ec, El, Em. repeat split; constructor.
    + destruct (H2 eq_refl eq_refl) as (Ec & El & _ & Eg & _).
      destruct HL as (Hl & Hs & Hf & Hp).
      unfold Ledger. rewrite Ec, El. repeat split; try assumption.
      apply (staged_frame (app w)); [| exact Eg | assumption].
      unfold confirmResetHistory. rewrite Hsub. cbn [negb]. cbv zeta.
      cbn [online setApp]. rewrite Hon. reflexivity.
  - rewrite (H1 eq_refl). exact HL.
Qed.

Lemma act_ledger (a : Action) (w : World) : Ledger w -> Ledger (act a w).
Proof.
  intros HL. pose proof (act_form a w) as Hform.
  destruct a;
    try (destruct Hform as (Ec & El & Eg & _ & Em);
         destruct HL as (Hl & Hs & Hf & Hp);
         unfold Ledger; rewrite Ec, El; repeat split; try assumption;
         apply (staged_frame (app w)); assumption).
  - destruct HL as (Hl & Hs & Hf & Hp). cbn [act]. unfold onState.
    destruct (handleChemicalAdd_fields (app w)) as (El & _).
    unfold Ledger. cbn [app setApp collection]. rewrite El.
    repeat split; try assumption. apply handleChemicalAdd_staged. assumption.
  - destruct HL as (Hl & Hs & Hf & Hp). cbn [act]. unfold onState.
    unfold Ledger. cbn [app setApp collection].
    repeat split; try assumption.
    unfold staged, handleChemicalRemove. cbn [chemicalMix startingGallons setChemicalMix].
    apply removeAt_Forall. exact Hs.
  - apply onCapacityChange_ledger. assumption.
  - apply logApplication_ledger. assumption.
  - apply refillClick_ledger. assumption.
  - apply confirmResetHistory_ledger. assumption.
Qed.

Lemma acts_ledger (l : list Action) : forall w, Ledger w -> Ledger (acts l w).
Proof.
  unfold acts. induction l as [| a l IH]; intros w HL; cbn [fold_left].
  - assumption.
  - apply IH, act_ledger, HL.
Qed.

Lemma defaultWorld_ledger (uid : string) : Ledger (defaultWorld uid).
Proof. unfold Ledger, staged. cbn. repeat split; constructor. Qed.

(** X8: after any sequence of actions from the default state the history
    the component holds is the stored collection, newest first, and the
    rows of the history table are the stored events whose road is not
    "TANK REFILL", newest first. *)
Theorem history_mirrors_store (uid : string) (l : list Action) :
  let w := acts l (defaultWorld uid) in
  logs (app w) = rev (collection w) /\
  historyView (app w) = rev (filter isApplication (collection w)).
Proof.
  cbv zeta.
  destruct (acts_ledger l _ (defaultWorld_ledger uid)) as (H & _).
  split; [exact H |]. unfold historyView. rewrite H.
  generalize (collection (acts l (defaultWorld uid))). intros docs.
  induction docs as [| d docs IH]; [reflexivity |].
  cbn [rev filter]. rewrite filter_app, IH. cbn [filter].
  unfold isApplication at 2.
  destruct (negb (Types.roadName d =? TANK_REFILL)%string); cbn [rev];
    [reflexivity | apply app_nil_r].
Qed.

(** X9: after any sequence of actions from the default state every chemical
    of the staged mix has a name, a positive amount, and the ratio
    [calculateOzPerGal] gives for its amount and the capacity in force. *)
Theorem staged_mix_matches_capacity (uid : string) (l : list Action) :
  let s := app (acts l (defaultWorld uid)) in
  Forall (fun chem =>
            Types.ozPerGal chem
            = calculateOzPerGal (Types.totalOz chem) (startingGallons s) /\
            isEmpty (Types.name chem) = false /\
            ngt (Types.totalOz chem) (Fin 0) = true)
    (chemicalMix s).
Proof.
  cbv zeta.
  destruct (acts_ledger l _ (defaultWorld_ledger uid)) as (_ & H & _). exact H.
Qed.

(** X10: every stored event carries the ratios of its chemicals as
    [calculateOzPerGal] gives them for the capacity the event records,
    whatever capacity changes, additions and removals came before or after
    it. *)
Theorem logged_ratios_match_logged_capacity (uid : string) (l : list Action) :
  Forall (fun log =>
            Forall (fun chem =>
                      Types.ozPerGal chem
                      = calculateOzPerGal (Types.totalOz chem)
                          (Types.initialTankVolume log))
              (Types.chemicalMix log))
    (collection (acts l (defaultWorld uid))).
Proof.
  destruct (acts_ledger l _ (defaultWorld_ledger uid)) as (_ & _ & H & _). exact H.
Qed.

Lemma find_ext_in {A : Type} (p q : A -> bool) (l : list A) :
  Forall (fun x => p x = q x) l -> find p l = find q l.
Proof.
  induction 1 as [| x l Hx _ IH]; cbn [find]; [reflexivity |].
  rewrite Hx, IH. reflexivity.
Qed.

Lemma shaped_qualifies (log : Types.LogEntry) :
  applicationShaped log \/ refillShaped log -> qualifies log = isApplication log.
Proof.
  unfold qualifies.
  intros [(_ & _ & c & -> & Hw & _) | (Hr & _ & ->)].
  - rewrite Hw. cbn [negb]. apply andb_true_r.
  - unfold isApplication. rewrite Hr. reflexivity.
Qed.

(** X11: every stored event is of one of two shapes: a road that is not
    blank, a mix that is not empty and complete conditions; or the road
    "TANK REFILL", no mix and no conditions.  Hence the conditions the
    component shows are those of the newest event whose road is not
    "TANK REFILL". *)
Theorem conditions_are_those_of_newest_application (uid : string) (l : list Action) :
  let w := acts l (defaultWorld uid) in
  Forall (fun log => applicationShaped log \/ refillShaped log) (collection w) /\
  lastAppliedConditions (logs (app w))
  = match find isApplication (logs (app w)) with
    | Some log => Types.weatherConditions log
    | None => None
    end.
Proof.
  cbv zeta.
  destruct (acts_ledger l _ (defaultWorld_ledger uid)) as (Hl & _ & _ & Hp).
  split; [exact Hp |].
  unfold lastAppliedConditions. rewrite Hl.
  rewrite (find_ext_in qualifies isApplication); [reflexivity |].
  apply Forall_rev. eapply Forall_impl; [| exact Hp].
  intros log. apply shaped_qualifies.
Qed.

(* ================================================================== *)
(** * Nothing but a reset removes events *)

Lemma act_collection (a : Action) (w : World) :
  isReset a = false ->
  collection (act a w) = collection w \/
  exists e, collection (act a w) = (collection w ++ [e])%list.
Proof.
  intros Hreset. pose proof (act_form a w) as Hform.
  destruct a; try discriminate Hreset;
    try (left; destruct Hform as (Ec & _); exact Ec);
    try (left; reflexivity).
  - left. cbn [act]. unfold onCapacityChange. cbv zeta.
    rewrite collection_rerender. reflexivity.
  - cbn [act]. destruct (logApplication_cases w) as [[m E] | H].
    + left. rewrite E. reflexivity.
    + cbv zeta in H. destruct H as (Hroad & Hvol & Hinv & Hmix & Hcond & Hready & Hon).
      destruct (logApplication_appends w Hroad Hvol Hinv Hmix Hcond Hready Hon)
        as (Ec & _).
      right. eexists. exact Ec.
  - cbn [act]. unfold refillClick.
    destruct (nle (gallonsToRefill (app w)) (Fin 0)); [left; reflexivity |].
    destruct (handleRefill_cases w) as [[m E] | H].
    + left. rewrite E. reflexivity.
    + cbv zeta in H. destruct H as (Hvol & Hready & Hon & Hle & E). rewrite E.
      destruct (performRefill_outcomes w (gallonsToRefill (app w)) Hready) as [_ Hok].
      cbv zeta in Hok. destruct (Hok Hle Hon) as (Ec & _).
      right. eexists. exact Ec.
Qed.

(** X12: the store is append-only under every action but the reset: after a
    sequence of actions without a confirmed reset the collection is the
    earlier one followed by at most one new event per action. *)
Theorem only_reset_removes_events (l : list Action) :
  forall w : World,
  forallb (fun a => negb (isReset a)) l = true ->
  exists added,
    collection (acts l w) = (collection w ++ added)%list /\
    (length added <= length l)%nat.
Proof.
  unfold acts. induction l as [| a l IH]; intros w Hl; cbn [fold_left].
  - exists []. split; [symmetry; apply app_nil_r | apply Nat.le_refl].
  - cbn [forallb] in Hl. apply andb_prop in Hl. destruct Hl as [Ha Hl].
    apply negb_true_iff in Ha.
    destruct (IH (act a w) Hl) as (added & E & Hlen).
    destruct (act_collection a w Ha) as [Ec | (e & Ec)]; rewrite Ec in E.
    + exists added. split; [exact E |]. cbn [length]. lia.
    + exists (e :: added). split.
      * rewrite E, <- app_assoc. reflexivity.
      * cbn [length]. lia.
Qed.

Lemma only_reset_removes_events_witness :
  let l := [ChemicalSearchInput "Roundup"; ChemicalOzInput "64"; ChemicalAdd;
            RoadInput "Deadwood"; GallonsUsedInput "100"; WeatherInput "Sunny";
            LogEntryClick; RefillInput "50"; RefillClick] in
  forallb (fun a => negb (isReset a)) l = true /\
  exists added,
    collection (acts l (defaultWorld "u")) = (collection (defaultWorld "u") ++ added)%list /\
    (length added <= length l)%nat.
Proof.
  cbv zeta. split; [reflexivity |].
  apply (only_reset_removes_events _ (defaultWorld "u")). reflexivity.
Defined.

(* ================================================================== *)
(** * The inventory while the capacity is not edited *)

Lemma logApplication_capacity (w : World) :
  startingGallons (app (logApplication w)) = startingGallons (app w).
Proof.
  destruct (logApplication_cases w) as [[m E] | H].
  - rewrite E. reflexivity.
  - cbv zeta in H. destruct H as (Hroad & Hvol & Hinv & Hmix & Hcond & Hready & Hon).
    destruct (logApplication_appends w Hroad Hvol Hinv Hmix Hcond Hready Hon)
      as (_ & _ & _ & Eg & _).
    exact Eg.
Qed.

Lemma handleRefill_capacity (w : World) :
  startingGallons (app (handleRefill w)) = startingGallons (app w).
Proof.
  destruct (handleRefill_cases w) as [[m E] | H].
  - rewrite E. reflexivity.
  - cbv zeta in H. destruct H as (Hvol & Hready & Hon & Hle & E). rewrite E.
    destruct (performRefill_outcomes w (gallonsToRefill (app w)) Hready) as [_ Hok].
    cbv zeta in Hok. destruct (Hok Hle Hon) as (_ & _ & _ & Eg & _). exact Eg.
Qed.

Lemma act_sound (a : Action) (w : World) :
  isCapacityInput a = false ->
  Sound w /\ startingGallons (app w) = Fin 600 ->
  Sound (act a w) /\ startingGallons (app (act a w)) = Fin 600.
Proof.
  intros Hcap [HS H600]. pose proof (act_form a w) as Hform.
  destruct a; try discriminate Hcap;
    try (destruct Hform as (_ & _ & Eg & El & _);
         split; [apply (Sound_frame w); assumption | rewrite Eg; exact H600]).
  - cbn [act]. unfold onState.
    destruct (handleChemicalAdd_fields (app w)) as (_ & Eg & El).
    split; [apply (Sound_frame w); assumption | cbn [app setApp]; rewrite Eg; exact H600].
  - split; [apply (Sound_frame w); [reflexivity | reflexivity | assumption] | exact H600].
  - cbn [act]. split; [apply logApplication_sound; assumption |].
    rewrite logApplication_capacity. exact H600.
  - cbn [act]. unfold refillClick.
    destruct (nle (gallonsToRefill (app w)) (Fin 0)); [split; assumption |].
    split; [apply handleRefill_sound; assumption |].
    rewrite handleRefill_capacity. exact H600.
  - cbn [act]. destruct (confirmResetHistory_outcomes w) as (H1 & H2 & H3).
    cbv zeta in H1, H2, H3.
    destruct (subscribed (app w)) eqn:Hsub.
    + destruct (online w) eqn:Hon.
      * destruct (H3 eq_refl eq_refl) as (_ & _ & El & Eg & _).
        split; [| exact Eg].
        exists 600, 600. split; [| split].
        -- unfold Inventory. rewrite El, Eg. repeat split; discriminate.
        -- exists 60000%Z. reflexivity.
        -- reflexivity.
      * destruct (H2 eq_refl eq_refl) as (_ & _ & El & Eg & _).
        split; [apply (Sound_frame w); assumption | rewrite Eg; exact H600].
    + rewrite (H1 eq_refl). split; assumption.
Qed.

(** X13: as long as the capacity field is not edited, whatever is typed
    into the other fields and whichever buttons are pressed, the reset
    included, the capacity stays at 600 gallons and the inventory is a
    finite number between zero and 600. *)
Theorem inventory_bounds_without_capacity_edit (uid : string) (l : list Action) :
  forallb (fun a => negb (isCapacityInput a)) l = true ->
  let s := app (acts l (defaultWorld uid)) in
  startingGallons s = Fin 600 /\
  exists gl : Q, gallonsLeft s = Fin gl /\ 0 <= gl /\ gl <= 600.
Proof.
  intros Hl. cbv zeta.
  assert (forall w, Sound w /\ startingGallons (app w) = Fin 600 ->
                    Sound (acts l w) /\ startingGallons (app (acts l w)) = Fin 600)
    as Hinv.
  { unfold acts. induction l as [| a l IH]; intros w H; cbn [fold_left].
    - exact H.
    - cbn [forallb] in Hl. apply andb_prop in Hl. destruct Hl as [Ha Hl].
      apply negb_true_iff in Ha.
      apply (IH Hl). apply act_sound; assumption. }
  destruct (Hinv (defaultWorld uid)) as [(cap & gl & (Ec & Eg & H0 & H1) & _) E600].
  { split; [apply defaultWorld_sound | reflexivity]. }
  split; [exact E600 |].
  rewrite E600 in Ec. injection Ec as Ecap.
  exists gl. rewrite <- Ecap in H1. auto.
Qed.

Lemma inventory_bounds_without_capacity_edit_witness :
  let l := [ChemicalSearchInput "Roundup"; ChemicalOzInput "64"; ChemicalAdd;
            RoadInput "Deadwood"; GallonsUsedInput "100"; WeatherInput "Sunny";
            LogEntryClick; RefillInput "50"; RefillClick; ResetConfirm] in
  forallb (fun a => negb (isCapacityInput a)) l = true /\
  startingGallons (app (acts l (defaultWorld "u"))) = Fin 600 /\
  exists gl : Q,
    gallonsLeft (app (acts l (defaultWorld "u"))) = Fin gl /\ 0 <= gl /\ gl <= 600.
Proof.
  cbv zeta. split; [reflexivity |].
  apply (inventory_bounds_without_capacity_edit "u"). reflexivity.
Defined.

(* ================================================================== *)
(** * A successful application, field by field *)






(* ================================================================== *)
(** * What an application records *)




(* ================================================================== *)
(** * The conditions summary *)




(* ================================================================== *)
(** * Quantities in the table and in the report *)

Lemma Qred_zero (q : Q) : q == 0 -> Qred q = 0.
Proof. intros H. apply (Qred_complete q 0) in H. exact H. Qed.

Lemma falsy_Fin (q : Q) : truthy (Fin q) = false -> q == 0.
Proof.
  cbn [truthy]. intros H. apply negb_false in H. apply Qeq_bool_eq. exact H.
Qed.

Lemma qsign_zero (q : Q) : q == 0 -> qsign q = Eq.
Proof. intros H. unfold qsign. apply Qeq_alt. exact H. Qed.

Lemma nmul_orElse (x y : number) :
  isNaN x = false -> isNaN y = false ->
  nmul (orElse x (Fin 0)) (orElse y (Fin 0)) = nmul x y.
Proof.
  intros Hx Hy. unfold orElse.
  destruct (truthy x) eqn:Tx, (truthy y) eqn:Ty; try reflexivity.
  - destruct y as [| | | b]; try discriminate.
    pose proof (falsy_Fin b Ty) as Hb.
    destruct x as [| | | a]; try discriminate; cbn [nmul].
    + rewrite (qsign_zero b Hb). reflexivity.
    + rewrite (qsign_zero b Hb). reflexivity.
    + unfold fin. f_equal. apply Qred_complete. rewrite Hb. reflexivity.
  - destruct x as [| | | a]; try discriminate.
    pose proof (falsy_Fin a Tx) as Ha.
    destruct y as [| | | b]; try discriminate; cbn [nmul].
    + rewrite (qsign_zero a Ha). reflexivity.
    + rewrite (qsign_zero a Ha). reflexivity.
    + unfold fin. f_equal. apply Qred_complete. rewrite Ha. reflexivity.
  - destruct x as [| | | a]; try discriminate.
    destruct y as [| | | b]; try discriminate.
    pose proof (falsy_Fin a Tx) as Ha. cbn [nmul].
    unfold fin. f_equal. apply Qred_complete. rewrite Ha. reflexivity.
Qed.

(** X17: the quantity of a chemical on its line of the report and in the
    history table.  The two agree whenever the volume and the stored ratio
    are numbers; where one of them is not, the table shows "NaN", and for a
    finite volume with a ratio that is not a number the report shows
    "0.00". *)
Theorem table_and_report_quantities (log : Types.LogEntry) (chem : Types.Chemical) :
  let ratio := match Types.ozPerGal chem with
               | Types.Num n => n
               | Types.Str s => parseFloat s
               end in
  (forall index txtContent,
     chemicalLine log chem index txtContent
     = txtContent ++ "    - " ++ Types.name chem ++ ": "
       ++ reportQuantity log chem ++ " oz applied" ++ LF) /\
  tableQuantity log chem
  = (if isNaN (Types.gallonsUsed log) || isNaN ratio then "NaN"
     else reportQuantity log chem) /\
  (forall q, Types.gallonsUsed log = Fin q -> isNaN ratio = true ->
             reportQuantity log chem = "0.00").
Proof.
  cbv zeta. split; [reflexivity |]. split.
  - unfold tableQuantity, reportQuantity, parseOzPerGal, reparse.
    set (ratio := match Types.ozPerGal chem with
                  | Types.Num n => n
                  | Types.Str s => parseFloat s
                  end).
    destruct (isNaN (Types.gallonsUsed log)) eqn:Hg; cbn [orb].
    + destruct (Types.gallonsUsed log); try discriminate. reflexivity.
    + destruct (isNaN ratio) eqn:Hr.
      * destruct ratio; try discriminate.
        destruct (Types.gallonsUsed log); reflexivity.
      * rewrite (nmul_orElse _ _ Hg Hr). reflexivity.
  - intros q Hq Hr.
    unfold reportQuantity, parseOzPerGal, reparse. rewrite Hq.
    destruct (match Types.ozPerGal chem with
              | Types.Num n => n
              | Types.Str s => parseFloat s
              end) eqn:E; try discriminate Hr.
    cbn [orElse truthy].
    assert (forall a, nmul (Fin a) (Fin 0) = Fin 0) as Hz.
    { intros a. cbn [nmul]. unfold fin. f_equal. apply Qred_zero. ring. }
    unfold orElse. destruct (truthy (Fin q)); rewrite Hz; reflexivity.
Qed.

Lemma table_and_report_quantities_witness :
  let log := storedAs (applicationDoc
                         (fillApplication "Elk" (Fin 100) sampleMix sampleConditions
                            (app (defaultWorld "op")))) (defaultWorld "op") in
  let chem := {| Types.name := "Milestone QT"; Types.totalOz := Fin 120;
                 Types.ozPerGal := Types.Str "n/a" |} in
  Types.gallonsUsed log = Fin 100 /\ reportQuantity log chem = "0.00".
Proof.
  cbv zeta. split; [reflexivity |].
  destruct (table_and_report_quantities
              (storedAs (applicationDoc
                           (fillApplication "Elk" (Fin 100) sampleMix sampleConditions
                              (app (defaultWorld "op")))) (defaultWorld "op"))
              {| Types.name := "Milestone QT"; Types.totalOz := Fin 120;
                 Types.ozPerGal := Types.Str "n/a" |}) as (_ & _ & H).
  exact (H 100 eq_refl eq_refl).
Defined.

(* ================================================================== *)
(** * The two search boxes *)

Lemma lowerChar_idempotent (c : ascii) : lowerChar (lowerChar c) = lowerChar c.
Proof.
  destruct c as [[] [] [] [] [] [] [] []]; vm_compute; reflexivity.
Qed.

Lemma toLowerCase_idempotent (s : string) :
  toLowerCase (toLowerCase s) = toLowerCase s.
Proof.
  induction s as [| c r IH]; cbn [toLowerCase]; [reflexivity |].
  rewrite lowerChar_idempotent, IH. reflexivity.
Qed.

Lemma toLowerCase_append (s t : string) :
  toLowerCase (s ++ t) = toLowerCase s ++ toLowerCase t.
Proof.
  induction s as [| c r IH]; cbn [toLowerCase append]; [reflexivity |].
  rewrite IH. reflexivity.
Qed.

Lemma toLowerCase_empty (s : string) : isEmpty (toLowerCase s) = isEmpty s.
Proof. destruct s; reflexivity. Qed.

Lemma startsWith_self (s : string) : startsWith s s = true.
Proof.
  unfold startsWith. induction s as [| c r IH]; cbn [String.prefix]; [reflexivity |].
  destruct (ascii_dec c c) as [_ | N]; [exact IH | contradiction N; reflexivity].
Qed.

Lemma startsWith_shorter (s p more : string) :
  startsWith s (p ++ more) = true -> startsWith s p = true.
Proof.
  unfold startsWith. revert s.
  induction p as [| c r IH]; intros s H; [destruct s; reflexivity |].
  destruct s as [| d s]; cbn [append String.prefix] in *; [discriminate H |].
  destruct (ascii_dec c d); [apply IH; exact H | discriminate H].
Qed.

(** The candidates of a search box over the list [all]. *)
Lemma candidates_narrow (all : list string) (search more x : string) :
  In x (filter (fun y => startsWith (toLowerCase y) (toLowerCase (search ++ more))) all) ->
  In x (filter (fun y => startsWith (toLowerCase y) (toLowerCase search)) all).
Proof.
  rewrite !filter_In, toLowerCase_append. intros [Hin Hp].
  split; [exact Hin | exact (startsWith_shorter _ _ _ Hp)].
Qed.

Lemma strictlyAscending_filter (p : string -> bool) (l : list string) :
  strictlyAscending l = true -> strictlyAscending (filter p l) = true.
Proof.
  induction l as [| x l IH]; cbn [strictlyAscending filter]; [reflexivity |].
  intros H. apply andb_prop in H. destruct H as [Hx Hl].
  destruct (p x); [| exact (IH Hl)].
  cbn [strictlyAscending]. rewrite (IH Hl), andb_true_r.
  rewrite forallb_forall in *. intros y Hy. apply Hx.
  apply filter_In in Hy. exact (proj1 Hy).
Qed.

Lemma filteredRoads_offered (search road : string) :
  In road (filteredRoads search) -> In road ALL_ROADS.
Proof.
  unfold filteredRoads. destruct (isEmpty search); [exact (fun H => H) |].
  cbv zeta. rewrite filter_In. exact (@proj1 _ _).
Qed.

Lemma filteredChemicals_offered (search chemical : string) :
  In chemical (filteredChemicals search) -> In chemical ALL_CHEMICALS.
Proof.
  unfold filteredChemicals. destruct (isEmpty search); [exact (fun H => H) |].
  cbv zeta. rewrite filter_In. exact (@proj1 _ _).
Qed.

(** X18: the road box.  Typing more never brings back a road that the text
    so far had excluded; the case of the letters typed makes no difference;
    and every road of the list is offered for its own name. *)
Theorem road_search_narrows (search more : string) :
  asciiOnly (search ++ more) = true ->
  (forall road, In road (filteredRoads (search ++ more)) ->
                In road (filteredRoads search)) /\
  filteredRoads (toLowerCase search) = filteredRoads search /\
  (forall road, In road ALL_ROADS -> In road (filteredRoads road)).
Proof.
  intros _. split; [| split].
  - intros road. unfold filteredRoads at 1.
    destruct (isEmpty (search ++ more)) eqn:E.
    + destruct search; [exact (fun H => H) | discriminate E].
    + cbv zeta. intros H. unfold filteredRoads.
      destruct (isEmpty search); [| exact (candidates_narrow _ _ _ _ H)].
      apply filter_In in H. exact (proj1 H).
  - unfold filteredRoads. rewrite toLowerCase_empty, toLowerCase_idempotent.
    reflexivity.
  - intros road Hin. unfold filteredRoads.
    destruct (isEmpty road); [exact Hin |].
    cbv zeta. apply filter_In. split; [exact Hin | apply startsWith_self].
Qed.

Lemma road_search_narrows_witness :
  asciiOnly ("De" ++ "a") = true /\
  (forall road, In road (filteredRoads ("De" ++ "a")) -> In road (filteredRoads "De")) /\
  filteredRoads (toLowerCase "De") = filteredRoads "De" /\
  (forall road, In road ALL_ROADS -> In road (filteredRoads road)).
Proof.
  split; [reflexivity |].
  apply (road_search_narrows "De" "a"). reflexivity.
Defined.

(** X19: what the road box offers.  Whatever is typed, the roads offered
    are roads of the list, in ascending order and none of them twice; none
    is blank and none is "TANK REFILL", so a road picked from the box passes
    the road check of [logApplication] and is never counted as a refill. *)
Theorem offered_roads_are_loggable (search : string) :
  strictlyAscending (filteredRoads search) = true /\
  (forall road, In road (filteredRoads search) ->
     In road ALL_ROADS /\ blank road = false /\
     (road =? TANK_REFILL)%string = false /\
     selectedRoad (handleRoadSelect road initialState) = road).
Proof.
  split.
  - unfold filteredRoads. destruct (isEmpty search).
    + vm_compute. reflexivity.
    + cbv zeta. apply strictlyAscending_filter. vm_compute. reflexivity.
  - intros road H. apply filteredRoads_offered in H.
    split; [exact H |].
    assert (forallb (fun r => negb (blank r) && negb (r =? TANK_REFILL)%string)
              ALL_ROADS = true) as Hall by (vm_compute; reflexivity).
    rewrite forallb_forall in Hall. specialize (Hall road H).
    apply andb_prop in Hall. destruct Hall as [Hb Hs].
    apply negb_true_iff in Hb, Hs. repeat split; assumption.
Qed.

Lemma offered_roads_are_loggable_witness :
  In "Deadwood" (filteredRoads "dea") /\
  In "Deadwood" ALL_ROADS /\ blank "Deadwood" = false /\
  ("Deadwood" =? TANK_REFILL)%string = false /\
  selectedRoad (handleRoadSelect "Deadwood" initialState) = "Deadwood".
Proof.
  assert (In "Deadwood" (filteredRoads "dea")) as H by (vm_compute; auto).
  split; [exact H |].
  destruct (offered_roads_are_loggable "dea") as [_ Hall].
  exact (Hall "Deadwood" H).
Defined.

(** X20: the chemical box.  Typing more never brings back a chemical that
    the text so far had excluded, the case of the letters typed makes no
    difference, and the chemicals offered are chemicals of the list, in
    ascending order, none twice and none with an empty name; picking one
    puts its name into the chemical being staged and keeps the amount. *)
Theorem chemical_search_narrows (search more : string) :
  asciiOnly (search ++ more) = true ->
  (forall chemical, In chemical (filteredChemicals (search ++ more)) ->
                    In chemical (filteredChemicals search)) /\
  filteredChemicals (toLowerCase search) = filteredChemicals search /\
  strictlyAscending (filteredChemicals search) = true /\
  (forall chemical s,
     In chemical (filteredChemicals search) ->
     In chemical ALL_CHEMICALS /\ isEmpty chemical = false /\
     currentChemical (handleChemicalSelect chemical s)
     = (chemical, snd (currentChemical s))).
Proof.
  intros _. split; [| split; [| split]].
  - intros chemical. unfold filteredChemicals at 1.
    destruct (isEmpty (search ++ more)) eqn:E.
    + destruct search; [exact (fun H => H) | discriminate E].
    + cbv zeta. intros H. unfold filteredChemicals.
      destruct (isEmpty search); [| exact (candidates_narrow _ _ _ _ H)].
      apply filter_In in H. exact (proj1 H).
  - unfold filteredChemicals. rewrite toLowerCase_empty, toLowerCase_idempotent.
    reflexivity.
  - unfold filteredChemicals. destruct (isEmpty search).
    + vm_compute. reflexivity.
    + cbv zeta. apply strictlyAscending_filter. vm_compute. reflexivity.
  - intros chemical s H. apply filteredChemicals_offered in H.
    split; [exact H |]. split; [| reflexivity].
    assert (forallb (fun c => negb (isEmpty c)) ALL_CHEMICALS = true) as Hall
        by (vm_compute; reflexivity).
    rewrite forallb_forall in Hall. apply negb_true_iff. exact (Hall chemical H).
Qed.

Lemma chemical_search_narrows_witness :
  asciiOnly ("2" ++ ",") = true /\
  (forall chemical, In chemical (filteredChemicals ("2" ++ ",")) ->
                    In chemical (filteredChemicals "2")) /\
  filteredChemicals (toLowerCase "2") = filteredChemicals "2".
Proof.
  split; [reflexivity |].
  destruct (chemical_search_narrows "2" ",") as (H1 & H2 & _); [reflexivity |].
  split; [exact H1 | exact H2].
Defined.

(* ================================================================== *)
(** * The colour of the status line *)





(* ================================================================== *)
(** * Staging and unstaging a chemical *)

Lemma removeAt_last {A : Type} (l : list A) (x : A) :
  removeAt (length l) (l ++ [x]) = l.
Proof.
  induction l as [| y l IH]; [reflexivity |].
  simpl. f_equal. exact IH.
Qed.

Lemma removeAt_beyond {A : Type} (l : list A) :
  forall index, (length l <= index)%nat -> removeAt index l = l.
Proof.
  induction l as [| y l IH]; intros index H; [destruct index; reflexivity |].
  destruct index as [| index]; cbn [length] in H; [lia |].
  simpl. rewrite IH by lia. reflexivity.
Qed.

Lemma removeAt_length {A : Type} (l : list A) :
  forall index, (index < length l)%nat ->
                length (removeAt index l) = (length l - 1)%nat.
Proof.
  induction l as [| y l IH]; intros index H; cbn [length] in *; [lia |].
  destruct index as [| index]; simpl; [lia |].
  rewrite IH by lia. lia.
Qed.

(** X22: staging a chemical with a name and a positive amount appends it to
    the mix with the ratio for the capacity in force and empties the two
    fields; removing the entry just staged gives back the mix as it was.
    With no name, or an amount that is not a positive number, the mix stays
    as it is.  Removing at an index within the mix shortens it by one; an
    index beyond its end changes nothing. *)
Theorem chemical_add_then_remove (s : State) :
  let name := fst (currentChemical s) in
  let totalOz := snd (currentChemical s) in
  (isEmpty name = false -> ngt totalOz (Fin 0) = true ->
   chemicalMix (handleChemicalAdd s)
   = (chemicalMix s
      ++ [{| Types.name := name; Types.totalOz := totalOz;
             Types.ozPerGal := calculateOzPerGal totalOz (startingGallons s) |}])%list /\
   currentChemical (handleChemicalAdd s) = ("", Fin 0) /\
   chemicalSearch (handleChemicalAdd s) = "" /\
   chemicalMix (handleChemicalRemove (length (chemicalMix s)) (handleChemicalAdd s))
   = chemicalMix s) /\
  (isEmpty name || negb (ngt totalOz (Fin 0)) = true ->
   chemicalMix (handleChemicalAdd s) = chemicalMix s /\
   status (handleChemicalAdd s) = Msg.InvalidChemical) /\
  (forall index,
     (index < length (chemicalMix s))%nat ->
     length (chemicalMix (handleChemicalRemove index s))
     = (length (chemicalMix s) - 1)%nat) /\
  (forall index,
     (length (chemicalMix s) <= index)%nat ->
     chemicalMix (handleChemicalRemove index s) = chemicalMix s).
Proof.
  cbv zeta.
  assert (isNaN (snd (currentChemical s)) || nle (snd (currentChemical s)) (Fin 0)
          = negb (ngt (snd (currentChemical s)) (Fin 0))) as Hcheck.
  { destruct (snd (currentChemical s)) as [| | | q]; try reflexivity.
    cbn [isNaN orb]. unfold ngt.
    destruct (nle (Fin q) (Fin 0)) eqn:E.
    - apply nle_Fin in E. symmetry. apply negb_true_iff. apply nlt_Fin_false. exact E.
    - apply nle_Fin_false in E. symmetry. apply negb_false_iff. apply nlt_Fin. exact E. }
  split; [| split; [| split]].
  - intros Hname Hoz. unfold handleChemicalAdd. cbv zeta. unfold reparse.
    rewrite <- orb_assoc, Hcheck, Hname, Hoz. cbn [negb orb].
    cbn [chemicalMix currentChemical chemicalSearch setChemicalSearch
         setCurrentChemical setChemicalMix handleChemicalRemove].
    repeat split. apply removeAt_last.
  - intros H. unfold handleChemicalAdd. cbv zeta. unfold reparse.
    rewrite <- orb_assoc, Hcheck, H. split; reflexivity.
  - intros index H. apply removeAt_length. exact H.
  - intros index H. unfold handleChemicalRemove.
    cbn [chemicalMix setChemicalMix]. apply removeAt_beyond. exact H.
Qed.

Lemma chemical_add_then_remove_witness :
  let s := onChemicalOzInput "64" (handleChemicalSelect "Roundup" initialState) in
  chemicalMix (handleChemicalAdd s)
  = [{| Types.name := "Roundup"; Types.totalOz := Fin 64;
        Types.ozPerGal := Types.Str "0.1067" |}] /\
  chemicalMix (handleChemicalRemove 0 (handleChemicalAdd s)) = [] /\
  chemicalMix (handleChemicalRemove 3 (handleChemicalAdd s))
  = chemicalMix (handleChemicalAdd s) /\
  length (chemicalMix (handleChemicalRemove 0 (handleChemicalAdd s))) = 0%nat /\
  status (handleChemicalAdd initialState) = Msg.InvalidChemical.
Proof.
  cbv zeta.
  destruct (chemical_add_then_remove
              (onChemicalOzInput "64" (handleChemicalSelect "Roundup" initialState)))
    as (H1 & _ & _ & _).
  destruct (H1 eq_refl eq_refl) as (Ha & _ & _ & Hr).
  destruct (chemical_add_then_remove
              (handleChemicalAdd
                 (onChemicalOzInput "64" (handleChemicalSelect "Roundup" initialState))))
    as (_ & _ & H3 & H4).
  destruct (chemical_add_then_remove initialState) as (_ & H2 & _ & _).
  split; [rewrite Ha; vm_compute; reflexivity |].
  split; [exact Hr |].
  split; [apply H4; vm_compute; lia |].
  split; [rewrite H3; vm_compute; [reflexivity | lia] |].
  apply H2. reflexivity.
Defined.

(* ================================================================== *)
(** * The refill button *)

Lemma refillField_receive (docs : list Types.LogEntry) (s : State) :
  gallonsToRefill (receive docs s) = gallonsToRefill s /\
  status (receive docs s) = status s.
Proof.
  destruct (receive_fields docs s)
    as ((_ & _ & _ & _ & R & _ & _ & _ & _ & _ & S) & _).
  cbv zeta in R, S. auto.
Qed.

Lemma refillField_rerender (n : nat) :
  forall before w,
    gallonsToRefill (app (rerender n before w)) = gallonsToRefill (app w) /\
    status (app (rerender n before w)) = status (app w).
Proof.
  induction n as [| n IH]; intros before w; cbn [rerender]; [auto |].
  destruct (same before (startingGallons (app w))); [auto |].
  destruct (IH (startingGallons (recomputeMix (app w)))
              (setApp (if subscribed (recomputeMix (app w))
                       then receive (collection w) (recomputeMix (app w))
                       else recomputeMix (app w)) w)) as [-> ->].
  cbn [app setApp].
  destruct (subscribed (recomputeMix (app w))); [| auto].
  destruct (refillField_receive (collection w) (recomputeMix (app w))) as [-> ->].
  auto.
Qed.

Lemma refillField_notify (w : World) :
  gallonsToRefill (app (notify w)) = gallonsToRefill (app w) /\
  status (app (notify w)) = status (app w).
Proof.
  unfold notify. destruct (subscribed (app w)); [| auto].
  destruct (refillField_rerender 2 (startingGallons (app w))
              (setApp (receive (collection w) (app w)) w)) as [-> ->].
  cbn [app setApp]. apply refillField_receive.
Qed.

Lemma refillField_addDoc (doc : Types.LogEntry) (w w' : World) :
  addDoc doc w = Some w' -> gallonsToRefill (app w') = gallonsToRefill (app w).
Proof.
  unfold addDoc. destruct (online w); [| discriminate].
  intros H. injection H as <-.
  destruct (refillField_notify
              {| app := app w; collection := collection w ++ [storedAs doc w];
                 online := true; serverTime := serverTime w;
                 nextId := (nextId w + 1)%Z |}) as [E _].
  exact E.
Qed.

Lemma orElse_number (x : number) : isNaN (orElse x (Fin 0)) = false.
Proof.
  unfold orElse. destruct x as [| | | q]; try reflexivity.
  destruct (truthy (Fin q)); reflexivity.
Qed.

Lemma act_refill_check (a : Action) (w : World) :
  isNaN (gallonsToRefill (app w)) = false /\ status (app w) <> Msg.NonPositiveVolumeAdded ->
  isNaN (gallonsToRefill (app (act a w))) = false /\ status (app (act a w)) <> Msg.NonPositiveVolumeAdded.
Proof.
  intros [Hn Hs].
  destruct a; cbn [act]; unfold onState; try (split; assumption).
  - (* RefillInput *)
    split; [apply orElse_number | exact Hs].
  - (* ChemicalAdd *)
    unfold handleChemicalAdd. cbv zeta.
    destruct (isEmpty (fst (currentChemical (app w)))
              || isNaN (reparse (snd (currentChemical (app w))))
              || nle (reparse (snd (currentChemical (app w)))) (Fin 0));
      (split; [exact Hn |]); [discriminate | exact Hs].
  - (* CapacityInput *)
    unfold onCapacityChange. cbv zeta.
    match goal with
    | |- context [rerender 2 ?b ?w0] =>
        destruct (refillField_rerender 2 b w0) as [-> ->]
    end.
    split; assumption.
  - (* LogEntryClick *)
    unfold logApplication. cbv zeta.
    repeat match goal with
           | |- context [if ?c then setApp (updateStatus ?m ?s) ?w0 else _] =>
               destruct c; [split; [exact Hn | cbn; discriminate] |]
           end.
    match goal with
    | |- context [addDoc ?d w] => destruct (addDoc d w) as [w' |] eqn:Ew
    end.
    + split; [| cbn; discriminate].
      cbn [app setApp updateStatus setStatus setRoadSearch setSelectedRoad
           setGallonsUsedOnRoad gallonsToRefill].
      rewrite (refillField_addDoc _ _ _ Ew). exact Hn.
    + split; [exact Hn | cbn; discriminate].
  - (* RefillClick *)
    unfold refillClick.
    destruct (nle (gallonsToRefill (app w)) (Fin 0)) eqn:Hle; [split; assumption |].
    unfold handleRefill, reparse. cbv zeta. rewrite Hn, Hle. cbn [orb].
    unfold performRefill. cbv zeta.
    destruct (negb (ready (app w))); [split; [exact Hn | cbn; discriminate] |].
    match goal with
    | |- context [if ?c then setApp (updateStatus ?m ?s) ?w0 else _] =>
        destruct c; [split; [exact Hn | cbn; discriminate] |]
    end.
    match goal with
    | |- context [addDoc ?d w] => destruct (addDoc d w) as [w' |] eqn:Ew
    end.
    + split; [reflexivity |].
      cbn [app setApp updateStatus setStatus setGallonsToRefill status].
      match goal with |- context [if ?c then _ else _] => destruct c end;
        discriminate.
    + split; [exact Hn | cbn; discriminate].
  - (* ResetConfirm *)
    unfold confirmResetHistory.
    destruct (negb (subscribed (app w))); [split; assumption |].
    cbv zeta. cbn [online setApp].
    destruct (online w); [| split; [exact Hn | cbn; discriminate]].
    split; [| cbn; discriminate].
    cbn [app setApp updateStatus setStatus gallonsToRefill].
    match goal with
    | |- context [rerender 2 ?b ?w0] =>
        destruct (refillField_rerender 2 b w0) as [-> _]
    end.
    reflexivity.
Qed.

(** X23: the message of the refill check, "Please enter a positive amount
    of gallons to add.", is never shown: the refill field holds a number,
    zero for whatever cannot be read as one, and the button is disabled
    while that number is not positive, so [handleRefill] only runs with an
    amount its check accepts. *)
Theorem refill_check_never_fails (uid : string) (l : list Action) :
  let s := app (acts l (defaultWorld uid)) in
  isNaN (gallonsToRefill s) = false /\ status s <> Msg.NonPositiveVolumeAdded.
Proof.
  cbv zeta.
  assert (forall w,
             isNaN (gallonsToRefill (app w)) = false /\ status (app w) <> Msg.NonPositiveVolumeAdded ->
             isNaN (gallonsToRefill (app (acts l w))) = false
             /\ status (app (acts l w)) <> Msg.NonPositiveVolumeAdded) as Hinv.
  { unfold acts. induction l as [| a l IH]; intros w H; cbn [fold_left].
    - exact H.
    - apply IH, act_refill_check, H. }
  apply (Hinv (defaultWorld uid)). split; [reflexivity | discriminate].
Qed.

(* ================================================================== *)
(** * The inventory and the newest event *)

Lemma act_newest (a : Action) (w : World) :
  isCapacityInput a = false ->
  startingGallons (app w) = Fin 600 /\
  gallonsLeft (app w)
  = match lastOf (collection w) with
    | Some log => Types.gallonsLeft log
    | None => Fin 600
    end /\
  Forall (fun log => Types.initialTankVolume log = Fin 600) (collection w) ->
  startingGallons (app (act a w)) = Fin 600 /\
  gallonsLeft (app (act a w))
  = match lastOf (collection (act a w)) with
    | Some log => Types.gallonsLeft log
    | None => Fin 600
    end /\
  Forall (fun log => Types.initialTankVolume log = Fin 600) (collection (act a w)).
Proof.
  intros Hcap (H600 & Hgl & Hall). pose proof (act_form a w) as Hform.
  destruct a; try discriminate Hcap;
    try (destruct Hform as (Ec & _ & Eg & El & _);
         rewrite Ec, Eg, El; repeat split; assumption).
  - cbn [act]. unfold onState. cbn [app setApp collection].
    destruct (handleChemicalAdd_fields (app w)) as (_ & Eg & El).
    rewrite Eg, El. repeat split; assumption.
  - repeat split; assumption.
  - cbn [act]. destruct (logApplication_cases w) as [[m E] | H].
    + rewrite E. repeat split; assumption.
    + cbv zeta in H. destruct H as (Hroad & Hvol & Hinv & Hmix & Hcond & Hready & Hon).
      destruct (logApplication_appends w Hroad Hvol Hinv Hmix Hcond Hready Hon)
        as (Ec & _ & El & Eg & _).
      rewrite Ec, El, Eg, lastOf_snoc. split; [exact H600 |].
      split; [reflexivity |].
      apply Forall_app. split; [exact Hall |].
      constructor; [exact H600 | constructor].
  - cbn [act]. unfold refillClick.
    destruct (nle (gallonsToRefill (app w)) (Fin 0)); [repeat split; assumption |].
    destruct (handleRefill_cases w) as [[m E] | H].
    + rewrite E. repeat split; assumption.
    + cbv zeta in H. destruct H as (Hvol & Hready & Hon & Hle & E). rewrite E.
      destruct (performRefill_outcomes w (gallonsToRefill (app w)) Hready) as [_ Hok].
      cbv zeta in Hok. destruct (Hok Hle Hon) as (Ec & _ & El & Eg & _).
      rewrite Ec, El, Eg, lastOf_snoc. split; [exact H600 |].
      split; [reflexivity |].
      apply Forall_app. split; [exact Hall |].
      constructor; [exact H600 | constructor].
  - cbn [act]. destruct (confirmResetHistory_outcomes w) as (H1 & H2 & H3).
    cbv zeta in H1, H2, H3.
    destruct (subscribed (app w)) eqn:Hsub.
    + destruct (online w) eqn:Hon.
      * destruct (H3 eq_refl eq_refl) as (Ec & _ & El & Eg & _).
        rewrite Ec, El, Eg. repeat split. constructor.
      * destruct (H2 eq_refl eq_refl) as (Ec & _ & El & Eg & _).
        rewrite Ec, El, Eg. repeat split; assumption.
    + rewrite (H1 eq_refl). repeat split; assumption.
Qed.

(** X24: as long as the capacity field is not edited, the inventory the
    component holds is the inventory recorded in the newest stored event,
    or 600 gallons when nothing is stored, and every stored event records
    the capacity of 600 gallons. *)
Theorem inventory_is_that_of_newest_event (uid : string) (l : list Action) :
  forallb (fun a => negb (isCapacityInput a)) l = true ->
  let w := acts l (defaultWorld uid) in
  gallonsLeft (app w)
  = match lastOf (collection w) with
    | Some log => Types.gallonsLeft log
    | None => Fin 600
    end /\
  Forall (fun log => Types.initialTankVolume log = Fin 600) (collection w).
Proof.
  intros Hl. cbv zeta.
  assert (forall w,
             startingGallons (app w) = Fin 600 /\
             gallonsLeft (app w)
             = match lastOf (collection w) with
               | Some log => Types.gallonsLeft log
               | None => Fin 600
               end /\
             Forall (fun log => Types.initialTankVolume log = Fin 600) (collection w) ->
             startingGallons (app (acts l w)) = Fin 600 /\
             gallonsLeft (app (acts l w))
             = match lastOf (collection (acts l w)) with
               | Some log => Types.gallonsLeft log
               | None => Fin 600
               end /\
             Forall (fun log => Types.initialTankVolume log = Fin 600)
               (collection (acts l w))) as Hinv.
  { unfold acts. induction l as [| a l IH]; intros w H; cbn [fold_left].
    - exact H.
    - cbn [forallb] in Hl. apply andb_prop in Hl. destruct Hl as [Ha Hl].
      apply negb_true_iff in Ha.
      apply (IH Hl). apply act_newest; assumption. }
  destruct (Hinv (defaultWorld uid)) as (_ & H1 & H2).
  { repeat split. constructor. }
  split; assumption.
Qed.

Lemma inventory_is_that_of_newest_event_witness :
  let l := [ChemicalSearchInput "Roundup"; ChemicalOzInput "64"; ChemicalAdd;
            RoadInput "Deadwood"; GallonsUsedInput "100"; WeatherInput "Sunny";
            LogEntryClick; RefillInput "50"; RefillClick] in
  let w := acts l (defaultWorld "u") in
  forallb (fun a => negb (isCapacityInput a)) l = true /\
  gallonsLeft (app w)
  = match lastOf (collection w) with
    | Some log => Types.gallonsLeft log
    | None => Fin 600
    end /\
  Forall (fun log => Types.initialTankVolume log = Fin 600) (collection w).
Proof.
  cbv zeta. split; [reflexivity |].
  apply (inventory_is_that_of_newest_event "u"). reflexivity.
Defined.
